(** * Export of charts, tables and reports of the AI-regulation
      analytics dashboard

    A shallow embedding of the client-side export code:

    - the [ExportReport] component (frontend/components):
      [generateAIInsights], [exportCurrentPanel], [exportWholeDashboard]
      and the chart capture step the two exports share;
    - utils/exportUtils: [generatePDFReport], [exportChartAsPNG],
      [exportChartAsSVG], [exportDataAsCSV];
    - [handleExportReport] of the home page (frontend/app).

    JavaScript numbers are modelled by exact rationals ([Q]), without the
    rounding of doubles; strings by [string], one character per UTF-16
    code unit (Latin-1 range).  The browser (DOM, network, clock) and the
    jsPDF and html2canvas libraries are not part of the repository: their
    answers, the exceptions of [html2canvas], [toDataURL], [addImage] and
    [save] among them, are inputs of the model; their observable effects
    (inline styles, console, alerts, drawing calls, downloads) are fields
    of the machine state. *)

From Stdlib Require Import QArith Qminmax Lqa Ascii String.
From stdpp Require Import gmap strings list.

Open Scope Q_scope.

(** ** JavaScript strings *)

Module JsString.

(** [\s] of a regular expression and the characters removed by
    [String.prototype.trim], within the Latin-1 range: TAB, LF, VT, FF,
    CR, SPACE and NBSP. *)
Definition isWhiteSpace (c : ascii) : bool :=
  let n := nat_of_ascii c in
  ((9 <=? n)%nat && (n <=? 13)%nat) || (n =? 32)%nat || (n =? 160)%nat.

Definition isEmpty (s : string) : bool :=
  match s with EmptyString => true | String _ _ => false end.

Fixpoint trimStart (s : string) : string :=
  match s with
  | EmptyString => EmptyString
  | String c r => if isWhiteSpace c then trimStart r else s
  end.

Fixpoint trimEnd (s : string) : string :=
  match s with
  | EmptyString => EmptyString
  | String c r =>
      let r' := trimEnd r in
      if isWhiteSpace c && isEmpty r' then EmptyString else String c r'
  end.

(** [s.trim()] *)
Definition trim (s : string) : string := trimEnd (trimStart s).

(** [s.split(sep)] for a one-character separator. *)
Fixpoint split (sep : ascii) (s : string) : list string :=
  match s with
  | EmptyString => [EmptyString]
  | String c r =>
      if Ascii.eqb c sep then EmptyString :: split sep r
      else match split sep r with
           | h :: t => String c h :: t
           | [] => [String c EmptyString]
           end
  end.

(** [s.endsWith(c)] for a one-character suffix. *)
Fixpoint endsWith (c : ascii) (s : string) : bool :=
  match s with
  | EmptyString => false
  | String d EmptyString => Ascii.eqb d c
  | String _ r => endsWith c r
  end.

(** [s.includes(c)] for a one-character needle. *)
Fixpoint includes (c : ascii) (s : string) : bool :=
  match s with
  | EmptyString => false
  | String d r => Ascii.eqb d c || includes c r
  end.

(** [s.replace(/\*\*/g, '')]: every leftmost, non-overlapping pair of
    asterisks is dropped. *)
Fixpoint removeDoubleAsterisks (s : string) : string :=
  match s with
  | EmptyString => EmptyString
  | String c r =>
      match r with
      | String d r' =>
          if Ascii.eqb c "*" && Ascii.eqb d "*" then removeDoubleAsterisks r'
          else String c (removeDoubleAsterisks r)
      | EmptyString => String c EmptyString
      end
  end.

(** [s.replace(/\*/g, '')] *)
Fixpoint removeAsterisks (s : string) : string :=
  match s with
  | EmptyString => EmptyString
  | String c r =>
      if Ascii.eqb c "*" then removeAsterisks r
      else String c (removeAsterisks r)
  end.

(** [s.replace(/\s+/g, '_')]: [inRun] tells that the previous character
    belonged to the run of white space being replaced. *)
Fixpoint underscoreRuns (inRun : bool) (s : string) : string :=
  match s with
  | EmptyString => EmptyString
  | String c r =>
      if isWhiteSpace c
      then (if inRun then underscoreRuns true r
            else String "_" (underscoreRuns true r))
      else String c (underscoreRuns false r)
  end.

Definition replaceWhiteSpace (s : string) : string := underscoreRuns false s.

(** [x || fallback] for a string [x] that may be undefined: the empty
    string is falsy too. *)
Definition orElse (x : option string) (fallback : string) : string :=
  match x with
  | Some s => if isEmpty s then fallback else s
  | None => fallback
  end.

(** [x?.trim()] *)
Definition optTrim (x : option string) : option string := trim <$> x.

(** Truthiness of an optional string. *)
Definition truthy (x : option string) : bool :=
  match x with Some s => negb (isEmpty s) | None => false end.

End JsString.

(** ** JavaScript numbers *)

Module JsNumber.

(** [a > b] *)
Definition gt (a b : Q) : bool := negb (Qle_bool a b).

(** [a === 0] *)
Definition isZero (a : Q) : bool := Qeq_bool a 0.

(** [Math.min(a, b)] *)
Definition min (a b : Q) : Q := Qmin a b.

(** Numerals with a decimal point. *)
Definition nine_and_a_half : Q := 19 # 2.
Definition three_tenths : Q := 3 # 10.

End JsNumber.

(** ** The jsPDF document object

    A document is the sequence of the drawing calls it received, each
    with the page that was current when it was made, and the graphics
    state that later calls read.  Lengths are millimetres. *)

Module Pdf.

Definition Color : Type := Z * Z * Z.

Record Font := { fontSize : Q; fontName : string; fontStyle : string }.

Inductive Align := AlignLeft | AlignCenter.

Inductive Op :=
| Text (txt : string) (x y : Q) (align : Align) (font : Font) (color : Color)
| Image (data : string) (format : string) (x y w h : Q)
| Rect (x y w h : Q) (style : string) (fill : Color)
| Line (x1 y1 x2 y2 : Q) (width : Q) (color : Color).

Record Doc := {
  pageCount : nat;
  font : Font;
  textColor : Color;
  fillColor : Color;
  drawColor : Color;
  lineWidth : Q;
  ops : list (nat * Op)
}.

(** What the export code uses of jsPDF and does not define: the size of
    a portrait A4 page in millimetres, the line breaking of
    [splitTextToSize], which depends on the current font, and the
    exception [addImage] raises on data it cannot decode in the given
    format, if it does. *)
Class JsPDF := {
  pageWidth : Q;
  pageHeight : Q;
  splitTextToSize : Font -> string -> Q -> list string;
  imageError : string -> string -> option string
}.

(** [new jsPDF('p', 'mm', 'a4')]: one empty page, 16pt Helvetica,
    black, hairline strokes. *)
Definition blank : Doc :=
  {| pageCount := 1;
     font := {| fontSize := 16; fontName := "helvetica"; fontStyle := "normal" |};
     textColor := (0, 0, 0)%Z;
     fillColor := (0, 0, 0)%Z;
     drawColor := (0, 0, 0)%Z;
     lineWidth := 2 # 10;
     ops := [] |}.

Definition put (o : Op) (d : Doc) : Doc :=
  {| pageCount := pageCount d; font := font d; textColor := textColor d;
     fillColor := fillColor d; drawColor := drawColor d;
     lineWidth := lineWidth d; ops := ops d ++ [(pageCount d, o)] |}.

Definition addPage (d : Doc) : Doc :=
  {| pageCount := S (pageCount d); font := font d; textColor := textColor d;
     fillColor := fillColor d; drawColor := drawColor d;
     lineWidth := lineWidth d; ops := ops d |}.

Definition withFont (f : Font) (d : Doc) : Doc :=
  {| pageCount := pageCount d; font := f; textColor := textColor d;
     fillColor := fillColor d; drawColor := drawColor d;
     lineWidth := lineWidth d; ops := ops d |}.

Definition setFontSize (size : Q) (d : Doc) : Doc :=
  withFont {| fontSize := size; fontName := fontName (font d);
              fontStyle := fontStyle (font d) |} d.

Definition setFont (name style : string) (d : Doc) : Doc :=
  withFont {| fontSize := fontSize (font d); fontName := name;
              fontStyle := style |} d.

Definition setTextColor (r g b : Z) (d : Doc) : Doc :=
  {| pageCount := pageCount d; font := font d; textColor := (r, g, b);
     fillColor := fillColor d; drawColor := drawColor d;
     lineWidth := lineWidth d; ops := ops d |}.

Definition setFillColor (r g b : Z) (d : Doc) : Doc :=
  {| pageCount := pageCount d; font := font d; textColor := textColor d;
     fillColor := (r, g, b); drawColor := drawColor d;
     lineWidth := lineWidth d; ops := ops d |}.

Definition setDrawColor (r g b : Z) (d : Doc) : Doc :=
  {| pageCount := pageCount d; font := font d; textColor := textColor d;
     fillColor := fillColor d; drawColor := (r, g, b);
     lineWidth := lineWidth d; ops := ops d |}.

Definition setLineWidth (w : Q) (d : Doc) : Doc :=
  {| pageCount := pageCount d; font := font d; textColor := textColor d;
     fillColor := fillColor d; drawColor := drawColor d;
     lineWidth := w; ops := ops d |}.

(** [pdf.text(txt, x, y)] and [pdf.text(txt, x, y, { align })] *)
Definition text (txt : string) (x y : Q) (align : Align) (d : Doc) : Doc :=
  put (Text txt x y align (font d) (textColor d)) d.

(** What [pdf.addImage(data, format, x, y, w, h)] draws when it can
    decode [data]. *)
Definition addImage (data format : string) (x y w h : Q) (d : Doc) : Doc :=
  put (Image data format x y w h) d.

(** [pdf.rect(x, y, w, h, style)] *)
Definition rect (x y w h : Q) (style : string) (d : Doc) : Doc :=
  put (Rect x y w h style (fillColor d)) d.

(** [pdf.line(x1, y1, x2, y2)] *)
Definition line (x1 y1 x2 y2 : Q) (d : Doc) : Doc :=
  put (Line x1 y1 x2 y2 (lineWidth d) (drawColor d)) d.

End Pdf.

(** ** The machine: browser state and the frame of the running export *)

Definition JsError : Type := string.

Inductive LogEntry :=
| ConsoleError (msg : string) (error : option JsError)
| ConsoleWarn (msg : string).

(** The bitmap html2canvas returns: its pixel size and what
    [toDataURL] does on it (it throws on a tainted canvas). A canvas
    without pixels is left out of the model. *)
Record Canvas := {
  width : positive;
  height : positive;
  dataURL : JsError + string
}.

(** What the host answers during one export. *)
Record Host := {
  (** [new Date().toLocaleString()] when the header is written *)
  localeNow : string;
  (** [new Date().toISOString()] when the file is named *)
  isoNow : string;
  (** [n.toLocaleString()] *)
  numberToLocale : Z -> string;
  (** the exception [pdf.save] raises, if it does *)
  saveError : option JsError
}.

Record Machine := {
  (** inline [style.display] of the button elements; unset reads [''] *)
  display : gmap nat string;
  console : list LogEntry;
  alerts : list string;
  (** React state of the ExportReport component *)
  isExporting : bool;
  showDropdown : bool;
  (** locals of the running export *)
  pdf : Pdf.Doc;
  yPosition : Q;
  capturedCount : nat;
  processedCharts : gset nat;
  (** files handed to the browser by [pdf.save] *)
  downloads : list (string * Pdf.Doc)
}.

Inductive outcome (A : Type) :=
| Returned (a : A)
| Thrown (e : JsError).
Arguments Returned {A} a.
Arguments Thrown {A} e.

(** A JavaScript computation: it returns or throws, and leaves the
    machine in the state it reached either way. *)
Definition JS (A : Type) : Type := Machine -> outcome A * Machine.

#[global] Instance JS_ret : MRet JS := λ A a st, (Returned a, st).

#[global] Instance JS_bind : MBind JS := λ A B k m st,
  match m st with
  | (Returned a, st') => k a st'
  | (Thrown e, st') => (Thrown e, st')
  end.

Module Js.

Definition throw {A} (e : JsError) : JS A := λ st, (Thrown e, st).

Definition gets {A} (f : Machine -> A) : JS A := λ st, (Returned (f st), st).

Definition modify (f : Machine -> Machine) : JS unit := λ st, (Returned tt, f st).

(** [try { body } catch (e) { handler(e) }] *)
Definition tryCatch {A} (body : JS A) (handler : JsError -> JS A) : JS A :=
  λ st, match body st with
        | (Thrown e, st') => handler e st'
        | r => r
        end.

(** [try { body } finally { cleanup }] *)
Definition tryFinally {A} (body : JS A) (cleanup : JS unit) : JS A :=
  λ st, match body st with
        | (r, st') =>
            match cleanup st' with
            | (Returned _, st'') => (r, st'')
            | (Thrown e, st'') => (Thrown e, st'')
            end
        end.

(** [for (const x of l) { body(x) }]; [continue] is an early [mret tt]
    of the body. *)
Fixpoint forOf {A} (l : list A) (body : A -> JS unit) : JS unit :=
  match l with
  | [] => mret tt
  | x :: rest => body x;; forOf rest body
  end.

Definition when (c : bool) (m : JS unit) : JS unit :=
  if c then m else mret tt.

(** Field updates of the machine. *)
Definition withDisplay (f : gmap nat string -> gmap nat string) (m : Machine) : Machine :=
  {| display := f (display m); console := console m; alerts := alerts m;
     isExporting := isExporting m; showDropdown := showDropdown m;
     pdf := pdf m; yPosition := yPosition m; capturedCount := capturedCount m;
     processedCharts := processedCharts m; downloads := downloads m |}.

Definition withConsole (f : list LogEntry -> list LogEntry) (m : Machine) : Machine :=
  {| display := display m; console := f (console m); alerts := alerts m;
     isExporting := isExporting m; showDropdown := showDropdown m;
     pdf := pdf m; yPosition := yPosition m; capturedCount := capturedCount m;
     processedCharts := processedCharts m; downloads := downloads m |}.

Definition withAlerts (f : list string -> list string) (m : Machine) : Machine :=
  {| display := display m; console := console m; alerts := f (alerts m);
     isExporting := isExporting m; showDropdown := showDropdown m;
     pdf := pdf m; yPosition := yPosition m; capturedCount := capturedCount m;
     processedCharts := processedCharts m; downloads := downloads m |}.

Definition withIsExporting (b : bool) (m : Machine) : Machine :=
  {| display := display m; console := console m; alerts := alerts m;
     isExporting := b; showDropdown := showDropdown m;
     pdf := pdf m; yPosition := yPosition m; capturedCount := capturedCount m;
     processedCharts := processedCharts m; downloads := downloads m |}.

Definition withShowDropdown (b : bool) (m : Machine) : Machine :=
  {| display := display m; console := console m; alerts := alerts m;
     isExporting := isExporting m; showDropdown := b;
     pdf := pdf m; yPosition := yPosition m; capturedCount := capturedCount m;
     processedCharts := processedCharts m; downloads := downloads m |}.

Definition withPdf (f : Pdf.Doc -> Pdf.Doc) (m : Machine) : Machine :=
  {| display := display m; console := console m; alerts := alerts m;
     isExporting := isExporting m; showDropdown := showDropdown m;
     pdf := f (pdf m); yPosition := yPosition m; capturedCount := capturedCount m;
     processedCharts := processedCharts m; downloads := downloads m |}.

Definition withYPosition (f : Q -> Q) (m : Machine) : Machine :=
  {| display := display m; console := console m; alerts := alerts m;
     isExporting := isExporting m; showDropdown := showDropdown m;
     pdf := pdf m; yPosition := f (yPosition m); capturedCount := capturedCount m;
     processedCharts := processedCharts m; downloads := downloads m |}.

Definition withCapturedCount (f : nat -> nat) (m : Machine) : Machine :=
  {| display := display m; console := console m; alerts := alerts m;
     isExporting := isExporting m; showDropdown := showDropdown m;
     pdf := pdf m; yPosition := yPosition m; capturedCount := f (capturedCount m);
     processedCharts := processedCharts m; downloads := downloads m |}.

Definition withProcessedCharts (f : gset nat -> gset nat) (m : Machine) : Machine :=
  {| display := display m; console := console m; alerts := alerts m;
     isExporting := isExporting m; showDropdown := showDropdown m;
     pdf := pdf m; yPosition := yPosition m; capturedCount := capturedCount m;
     processedCharts := f (processedCharts m); downloads := downloads m |}.

Definition withDownloads (f : list (string * Pdf.Doc) -> list (string * Pdf.Doc)) (m : Machine) : Machine :=
  {| display := display m; console := console m; alerts := alerts m;
     isExporting := isExporting m; showDropdown := showDropdown m;
     pdf := pdf m; yPosition := yPosition m; capturedCount := capturedCount m;
     processedCharts := processedCharts m; downloads := f (downloads m) |}.

(** The statements of the export code. *)

(** [console.error(msg, error)] *)
Definition consoleError (msg : string) (error : JsError) : JS unit :=
  modify (withConsole (λ l, l ++ [ConsoleError msg (Some error)])).

(** [console.warn(msg)] *)
Definition consoleWarn (msg : string) : JS unit :=
  modify (withConsole (λ l, l ++ [ConsoleWarn msg])).

(** [alert(msg)] *)
Definition alert (msg : string) : JS unit :=
  modify (withAlerts (λ l, l ++ [msg])).

Definition setIsExporting (b : bool) : JS unit := modify (withIsExporting b).
Definition setShowDropdown (b : bool) : JS unit := modify (withShowDropdown b).

(** [element.style.display] *)
Definition styleDisplay (element : nat) : JS string :=
  gets (λ m, default EmptyString (display m !! element)).

(** [element.style.display = value] *)
Definition setStyleDisplay (element : nat) (value : string) : JS unit :=
  modify (withDisplay (λ d, <[element := value]> d)).

(** [const pdf = new jsPDF('p', 'mm', 'a4')] *)
Definition newPdf : JS unit := modify (withPdf (λ _, Pdf.blank)).

(** A call of a drawing or graphics-state method of [pdf]. *)
Definition onPdf (f : Pdf.Doc -> Pdf.Doc) : JS unit := modify (withPdf f).

(** [pdf.text(txt, x, yPosition)] *)
Definition textAtY (txt : string) (x : Q) (align : Pdf.Align) : JS unit :=
  y ← gets yPosition; onPdf (Pdf.text txt x y align).

(** [yPosition = y] and [yPosition += d] *)
Definition setY (y : Q) : JS unit := modify (withYPosition (λ _, y)).
Definition advance (d : Q) : JS unit := modify (withYPosition (λ y, y + d)).

(** [pdf.addPage(); yPosition = 20;] *)
Definition newPage : JS unit := onPdf Pdf.addPage;; setY 20.

(** [await html2canvas(element, options)] *)
Definition html2canvas (rendering : JsError + Canvas) : JS Canvas :=
  match rendering with
  | inl e => throw e
  | inr canvas => mret canvas
  end.

(** [canvas.toDataURL('image/png')] *)
Definition toDataURL (canvas : Canvas) : JS string :=
  match dataURL canvas with
  | inl e => throw e
  | inr data => mret data
  end.

(** [pdf.addImage(data, format, x, y, w, h)]: it throws, and draws
    nothing, on data it cannot decode. *)
Definition addImage `{Pdf.JsPDF} (data format : string) (x y w h : Q) : JS unit :=
  match Pdf.imageError data format with
  | Some e => throw e
  | None => onPdf (Pdf.addImage data format x y w h)
  end.

(** [pdf.save(filename)] *)
Definition save (host : Host) (filename : string) : JS unit :=
  match saveError host with
  | Some e => throw e
  | None => modify (λ m, withDownloads (λ l, l ++ [(filename, pdf m)]) m)
  end.

(** [new Date().toISOString().split('T')[0]] *)
Definition isoDate (host : Host) : string :=
  match JsString.split "T" (isoNow host) with
  | d :: _ => d
  | [] => EmptyString
  end.

(** [(canvas.height * imgWidth) / canvas.width] *)
Definition scaledHeight (canvas : Canvas) (imgWidth : Q) : Q :=
  (inject_Z (Zpos (height canvas)) * imgWidth) / inject_Z (Zpos (width canvas)).

End Js.


(** [element.getBoundingClientRect()] *)
Record DOMRect := { rectWidth : Q; rectHeight : Q }.

(** ** The ExportReport component *)

Module ExportReport.

Record Props := {
  apiUrl : string;
  dateFrom : option string;
  dateTo : option string
}.

(** Body of [POST /api/generate-chart-insights] and the address it is
    sent to. *)
Record InsightsRequest := {
  url : string;
  chart_type : string;
  tab_name : string;
  date_from : option string;
  date_to : option string
}.

(** [response.data]: the field [insights], a string by the contract of
    the service, may be missing. *)
Record Response := { insights : option string }.

(** The card around a chart, as the export reads it:
    [chart.closest('.bg-white, .rounded-xl, [class*="shadow"]')], whether
    [querySelector('[class*="KPI"], ...')] finds something in it, the
    [textContent] of its first title element and its export buttons. *)
Record Card := {
  cardId : nat;
  hasKPIClass : bool;
  titleText : option string;
  exportButtons : list nat
}.

(** A [.recharts-wrapper] element with what the world does when it is
    captured and when its insights are requested. *)
Record Chart := {
  closest : option Card;
  rendering : JsError + Canvas;
  service : InsightsRequest -> JsError + Response
}.

(** An element matched by ['.space-y-6, .grid'] and the charts in it. *)
Record Container := {
  boundingRect : DOMRect;
  charts : list Chart
}.

Record Page := {
  containers : list Container;
  (** [document.querySelector('button[class*="border-b-2"]')?.textContent] *)
  activeTabText : option string
}.

(** [await axios.post(url, body)] *)
Definition axiosPost (service : InsightsRequest -> JsError + Response)
    (request : InsightsRequest) : JS Response :=
  match service request with
  | inl e => Js.throw e
  | inr response => mret response
  end.

Definition generateAIInsights (props : Props)
    (service : InsightsRequest -> JsError + Response)
    (chartTitle tabName : string) : JS string :=
  Js.tryCatch
    (response ← axiosPost service
       {| url := apiUrl props +:+ "/api/generate-chart-insights";
          chart_type := chartTitle;
          tab_name := tabName;
          date_from := dateFrom props;
          date_to := dateTo props |};
     mret (JsString.orElse (insights response) "Analysis unavailable for this chart."))
    (λ error,
       Js.consoleError "Failed to generate insights:" error;;
       mret "Unable to generate insights at this time.").

(** [exportButtons.forEach(btn => { if (btn.style.display !== 'none') {
    hiddenElements.push(btn); btn.style.display = 'none' } })] *)
Fixpoint hideExportButtons (buttons hiddenElements : list nat) : JS (list nat) :=
  match buttons with
  | [] => mret hiddenElements
  | element :: rest =>
      shown ← Js.styleDisplay element;
      if String.eqb shown "none" then hideExportButtons rest hiddenElements
      else
        Js.setStyleDisplay element "none";;
        hideExportButtons rest (hiddenElements ++ [element])
  end.

(** The capture step of [exportCurrentPanel] and of
    [exportWholeDashboard] (the same statements in both, but for the
    scale handed to html2canvas): hide the export buttons of the card,
    rasterize the chart, show the buttons again. *)
Definition captureChart (chartParent : Card) (chart : Chart) : JS Canvas :=
  hiddenElements ← hideExportButtons (exportButtons chartParent) [];
  canvas ← Js.html2canvas (rendering chart);
  Js.forOf hiddenElements (λ element, Js.setStyleDisplay element EmptyString);;
  mret canvas.

(** [trimmedLine.endsWith(':') && trimmedLine.length < 50 &&
    !trimmedLine.includes('.')] *)
Definition isSectionHeader (trimmedLine : string) : bool :=
  JsString.endsWith ":" trimmedLine
  && (String.length trimmedLine <? 50)%nat
  && negb (JsString.includes "." trimmedLine).

Definition teal : Z * Z * Z := (20, 184, 166)%Z.

Section Compositor.
Context `{Pdf.JsPDF}.

(** Body of [for (const textLine of wrappedText)]. *)
Definition drawTextLine (textLine : string) : JS unit :=
  y ← Js.gets yPosition;
  Js.when (JsNumber.gt y (Pdf.pageHeight - 15)) Js.newPage;;
  Js.textAtY textLine 15 Pdf.AlignLeft;;
  Js.advance 5.

(** Body of [for (const line of lines)]. *)
Definition drawInsightLine (line : string) : JS unit :=
  y ← Js.gets yPosition;
  Js.when (JsNumber.gt y (Pdf.pageHeight - 15)) Js.newPage;;
  let trimmedLine := JsString.trim line in
  if JsString.isEmpty trimmedLine then Js.advance 2
  else if isSectionHeader trimmedLine then
    Js.onPdf (Pdf.setFontSize 10);;
    Js.onPdf (Pdf.setFont "helvetica" "bold");;
    Js.onPdf (Pdf.setTextColor 60 60 60);;
    Js.textAtY trimmedLine 15 Pdf.AlignLeft;;
    Js.advance 6
  else
    Js.onPdf (Pdf.setFontSize JsNumber.nine_and_a_half);;
    Js.onPdf (Pdf.setFont "helvetica" "normal");;
    Js.onPdf (Pdf.setTextColor 50 50 50);;
    wrappedText ← Js.gets (λ m,
      Pdf.splitTextToSize (Pdf.font (pdf m)) trimmedLine (Pdf.pageWidth - 30));
    Js.forOf wrappedText drawTextLine;;
    Js.advance 3.

(** [insights.replace(/\*\*/g, '').replace(/\*/g, '').trim()] *)
Definition cleanInsights (insights : string) : string :=
  JsString.trim (JsString.removeAsterisks (JsString.removeDoubleAsterisks insights)).

(** The statements between the fetch of the insights and the separator
    line: clean the text, split it at line feeds, draw each line. *)
Definition drawInsights (insights : string) : JS unit :=
  let cleanedInsights := cleanInsights insights in
  let lines := JsString.split "010" cleanedInsights in
  Js.forOf lines drawInsightLine.

(** Body of the [try] block of a chart in [exportCurrentPanel]. *)
Definition renderChart (props : Props) (tabName : string)
    (chartParent : Card) (chart : Chart) (chartTitle : string) : JS unit :=
  canvas ← captureChart chartParent chart;
  imgData ← Js.toDataURL canvas;
  let imgWidth := Pdf.pageWidth - 30 in
  let imgHeight := Js.scaledHeight canvas imgWidth in
  let maxHeight := 120 in
  y ← Js.gets yPosition;
  Js.when (JsNumber.gt (y + JsNumber.min imgHeight maxHeight) (Pdf.pageHeight - 50))
    Js.newPage;;
  y ← Js.gets yPosition;
  Js.addImage imgData "PNG" 15 y imgWidth (JsNumber.min imgHeight maxHeight);;
  Js.advance (JsNumber.min imgHeight maxHeight + 10);;
  Js.onPdf (Pdf.setFillColor 250 250 250);;
  y ← Js.gets yPosition;
  Js.onPdf (Pdf.rect 10 (y - 3) (Pdf.pageWidth - 20) 5 "F");;
  Js.onPdf (Pdf.setFontSize 11);;
  Js.onPdf (Pdf.setFont "helvetica" "bold");;
  Js.onPdf (Pdf.setTextColor 20 184 166);;
  Js.textAtY "KEY INSIGHTS & ANALYSIS" 15 Pdf.AlignLeft;;
  Js.advance 7;;
  insights ← generateAIInsights props (service chart) chartTitle tabName;
  drawInsights insights;;
  Js.advance 2;;
  Js.onPdf (Pdf.setDrawColor 230 230 230);;
  Js.onPdf (Pdf.setLineWidth JsNumber.three_tenths);;
  y ← Js.gets yPosition;
  Js.onPdf (Pdf.line 15 y (Pdf.pageWidth - 15) y);;
  Js.advance 10.

(** [titleElement?.textContent?.trim() || 'Chart'] *)
Definition chartTitleOf (chartParent : Card) : string :=
  JsString.orElse (JsString.optTrim (titleText chartParent)) "Chart".

(** Body of [for (const chart of Array.from(charts))] in
    [exportCurrentPanel]. *)
Definition processChart (props : Props) (tabName : string) (chart : Chart) : JS unit :=
  match closest chart with
  | None => mret tt
  | Some chartParent =>
      processed ← Js.gets processedCharts;
      if decide (cardId chartParent ∈ processed) then mret tt
      else if hasKPIClass chartParent then mret tt
      else
        Js.modify (Js.withProcessedCharts (λ s, s ∪ {[cardId chartParent]}));;
        let chartTitle := chartTitleOf chartParent in
        y ← Js.gets yPosition;
        Js.when (JsNumber.gt y (Pdf.pageHeight - 120)) Js.newPage;;
        Js.onPdf (Pdf.setFontSize 14);;
        Js.onPdf (Pdf.setFont "helvetica" "bold");;
        Js.onPdf (Pdf.setTextColor 20 184 166);;
        Js.textAtY chartTitle 15 Pdf.AlignLeft;;
        Js.advance 10;;
        Js.tryCatch
          (renderChart props tabName chartParent chart chartTitle)
          (λ err, Js.consoleError "Failed to capture chart:" err)
  end.

(** [rect.height > 0 && rect.width > 0] *)
Definition isDisplayed (container : Container) : bool :=
  JsNumber.gt (rectHeight (boundingRect container)) 0
  && JsNumber.gt (rectWidth (boundingRect container)) 0.

(** [activeTabButton?.textContent?.trim() || 'Current Panel'] *)
Definition tabNameOf (page : Page) : string :=
  JsString.orElse (JsString.optTrim (activeTabText page)) "Current Panel".

(** The title block of the report. *)
Definition drawTitleBlock (props : Props) (host : Host) (tabName : string) : JS unit :=
  Js.onPdf (Pdf.setFontSize 20);;
  Js.onPdf (Pdf.setTextColor 20 184 166);;
  Js.textAtY "AI Regulation Analytics Report" (Pdf.pageWidth / 2) Pdf.AlignCenter;;
  Js.advance 10;;
  Js.onPdf (Pdf.setFontSize 14);;
  Js.onPdf (Pdf.setTextColor 0 0 0);;
  Js.textAtY tabName (Pdf.pageWidth / 2) Pdf.AlignCenter;;
  Js.advance 8;;
  Js.onPdf (Pdf.setFontSize 10);;
  Js.onPdf (Pdf.setTextColor 100 100 100);;
  Js.textAtY ("Generated: " +:+ localeNow host) (Pdf.pageWidth / 2) Pdf.AlignCenter;;
  Js.when (JsString.truthy (dateFrom props) && JsString.truthy (dateTo props))
    (Js.advance 5;;
     Js.textAtY ("Period: " +:+ default EmptyString (dateFrom props) +:+ " to "
                 +:+ default EmptyString (dateTo props))
       (Pdf.pageWidth / 2) Pdf.AlignCenter);;
  Js.advance 15.

Definition exportCurrentPanel (props : Props) (host : Host) (page : Page) : JS unit :=
  Js.setIsExporting true;;
  Js.tryFinally
    (Js.tryCatch
       (match List.find isDisplayed (containers page) with
        | None =>
            Js.alert "No active panel found. Please make sure you are viewing a tab with charts.";;
            Js.setIsExporting false;;
            Js.setShowDropdown false
        | Some activeContainer =>
            Js.newPdf;;
            Js.setY 20;;
            let tabName := tabNameOf page in
            drawTitleBlock props host tabName;;
            Js.modify (Js.withProcessedCharts (λ _, ∅));;
            Js.forOf (charts activeContainer) (processChart props tabName);;
            Js.save host ("AI_Regulation_" +:+ JsString.replaceWhiteSpace tabName
                          +:+ "_" +:+ Js.isoDate host +:+ ".pdf")
        end)
       (λ error,
          Js.consoleError "Export failed:" error;;
          Js.alert "Failed to export report. Please try again."))
    (Js.setIsExporting false;; Js.setShowDropdown false).

End Compositor.

End ExportReport.

(** ** utils/exportUtils: [generatePDFReport] *)

Module ExportUtils.

(** [{ id: string; title: string }] *)
Record Section := { id : string; title : string }.

(** [{ dateRange?: string; totalDocs?: number }] *)
Record Metadata := { dateRange : option string; totalDocs : option Z }.

(** An element of the document, as the export reads it: its bounding
    rectangle and what html2canvas does on it. *)
Record Element := {
  boundingRect : DOMRect;
  rendering : JsError + Canvas
}.

(** The object the function resolves to:
    [{ success: true, capturedCount }] or [{ success: false, error }]. *)
Inductive Result :=
| Success (captured : nat)
| Failure (error : JsError).

(** Truthiness of an optional number. *)
Definition truthyNumber (n : option Z) : bool :=
  match n with Some k => negb (k =? 0)%Z | None => false end.

Section Report.
Context `{Pdf.JsPDF}.

(** Body of [for (const section of sections)]; [document] maps the ids
    of the elements of the page to the elements. *)
Definition addSection (document : gmap string Element) (section : Section) : JS unit :=
  match document !! id section with
  | None => Js.consoleWarn ("Element not found: " +:+ id section)
  | Some element =>
      let rect := boundingRect element in
      if JsNumber.isZero (rectWidth rect) || JsNumber.isZero (rectHeight rect)
      then Js.consoleWarn ("Element not visible: " +:+ id section)
      else
        Js.tryCatch
          (canvas ← Js.html2canvas (rendering element);
           imgData ← Js.toDataURL canvas;
           let imgWidth := Pdf.pageWidth - 40 in
           let imgHeight := Js.scaledHeight canvas imgWidth in
           y ← Js.gets yPosition;
           Js.when (JsNumber.gt (y + imgHeight + 20) Pdf.pageHeight) Js.newPage;;
           Js.onPdf (Pdf.setFontSize 14);;
           Js.onPdf (Pdf.setFont "helvetica" "bold");;
           Js.textAtY (title section) 20 Pdf.AlignLeft;;
           Js.advance 10;;
           y ← Js.gets yPosition;
           Js.addImage imgData "PNG" 20 y imgWidth imgHeight;;
           Js.advance (imgHeight + 15);;
           Js.modify (Js.withCapturedCount S))
          (λ error,
             Js.consoleError ("Error adding section " +:+ title section +:+ ":") error;;
             Js.onPdf (Pdf.setFontSize 10);;
             Js.onPdf (Pdf.setFont "helvetica" "italic");;
             Js.onPdf (Pdf.setTextColor 200 0 0);;
             Js.textAtY ("[Chart could not be captured: " +:+ title section +:+ "]")
               20 Pdf.AlignLeft;;
             Js.onPdf (Pdf.setTextColor 0 0 0);;
             Js.advance 10)
  end.

(** The [if (metadata) { ... }] block. *)
Definition drawMetadata (host : Host) (metadata : option Metadata) : JS unit :=
  match metadata with
  | None => mret tt
  | Some md =>
      Js.onPdf (Pdf.setFontSize 10);;
      Js.onPdf (Pdf.setFont "helvetica" "normal");;
      Js.when (JsString.truthy (dateRange md))
        (Js.textAtY ("Date Range: " +:+ default EmptyString (dateRange md)) 20 Pdf.AlignLeft;;
         Js.advance 7);;
      Js.when (truthyNumber (totalDocs md))
        (Js.textAtY ("Total Documents: " +:+ numberToLocale host (default 0%Z (totalDocs md)))
           20 Pdf.AlignLeft;;
         Js.advance 7);;
      Js.textAtY ("Generated: " +:+ localeNow host) 20 Pdf.AlignLeft;;
      Js.advance 10
  end.

Definition generatePDFReport (host : Host) (document : gmap string Element)
    (title : string) (sections : list Section) (metadata : option Metadata)
    : JS Result :=
  Js.tryCatch
    (Js.newPdf;;
     Js.setY 20;;
     Js.onPdf (Pdf.setFontSize 20);;
     Js.onPdf (Pdf.setFont "helvetica" "bold");;
     Js.textAtY title (Pdf.pageWidth / 2) Pdf.AlignCenter;;
     Js.advance 15;;
     drawMetadata host metadata;;
     Js.modify (Js.withCapturedCount (λ _, 0%nat));;
     Js.forOf sections (addSection document);;
     captured ← Js.gets capturedCount;
     Js.when (captured =? 0)%nat
       (Js.onPdf (Pdf.setFontSize 12);;
        Js.textAtY "No charts available to export." 20 Pdf.AlignLeft;;
        y ← Js.gets yPosition;
        Js.onPdf (Pdf.text "Please ensure charts are loaded and visible." 20 (y + 10)
                    Pdf.AlignLeft));;
     Js.save host (JsString.replaceWhiteSpace title +:+ "_" +:+ Js.isoDate host +:+ ".pdf");;
     captured ← Js.gets capturedCount;
     mret (Success captured))
    (λ error,
       Js.consoleError "Error generating PDF report:" error;;
       Js.alert "Failed to generate PDF report. Please try again.";;
       mret (Failure error)).

End Report.

End ExportUtils.

(** ** Concrete hosts for the examples *)

(** A PNG file of one pixel as a data URL, and a data URL that stops
    after the signature of a PNG file. *)
Definition onePixel : string :=
  "data:image/png;base64,iVBORw0KGgoAAAANSUhEUgAAAAEAAAABCAYAAAAfFcSJAAAADUlEQVR42mNkYPhfDwAChwGA60e6kgAAAABJRU5ErkJggg==".
Definition truncated : string := "data:image/png;base64,iVBORw0KGgo=".

(** The portrait A4 page of jsPDF: 595.28pt by 841.89pt, that is
    210.0016mm by 297.0001mm at 72 / 25.4 points to the millimetre; a
    line breaker that leaves every line whole (jsPDF's answer for a text
    that fits the width); and a decoder that reads the one-pixel PNG and
    refuses every other string of the examples, as jsPDF refuses a PNG
    file it cannot read. *)
Definition a4 : Pdf.JsPDF :=
  {| Pdf.pageWidth := 15120112 # 72000;
     Pdf.pageHeight := 21384006 # 72000;
     Pdf.splitTextToSize := λ _ txt _, [txt];
     Pdf.imageError := λ data _,
       if String.eqb data onePixel then None
       else Some "Incomplete or corrupt PNG file" |}.

Definition noon : Host :=
  {| localeNow := "1/1/2025, 12:00:00 PM";
     isoNow := "2025-01-01T12:00:00.000Z";
     numberToLocale := λ _, "5,200";
     saveError := None |}.

(** The machine before an export: nothing logged, nothing downloaded. *)
Definition idle : Machine :=
  {| display := ∅; console := []; alerts := [];
     isExporting := false; showDropdown := true;
     pdf := Pdf.blank; yPosition := 0; capturedCount := 0;
     processedCharts := ∅; downloads := [] |}.

(** ** Reading the outcome of an export *)

(** [wp m post st]: the computation [m], started in [st], ends in an
    outcome and a machine that satisfy [post]. *)
Definition wp {A} (m : JS A) (post : outcome A → Machine → Prop) (st : Machine) : Prop :=
  post (m st).1 (m st).2.

(** A drawing call without the page and the height at which it landed. *)
Inductive Block :=
| TextBlock (txt : string) (x : Q) (align : Pdf.Align) (font : Pdf.Font) (color : Pdf.Color)
| ImageBlock (data : string) (format : string) (x w h : Q)
| RectBlock (x w h : Q) (style : string) (fill : Pdf.Color)
| LineBlock (x1 x2 : Q) (width : Q) (color : Pdf.Color).

Definition blockOf (placed : nat * Pdf.Op) : Block :=
  match placed.2 with
  | Pdf.Text txt x _ align font color => TextBlock txt x align font color
  | Pdf.Image data format x _ w h => ImageBlock data format x w h
  | Pdf.Rect x _ w h style fill => RectBlock x w h style fill
  | Pdf.Line x1 _ x2 _ width color => LineBlock x1 x2 width color
  end.

(** The blocks of a document, in drawing order. *)
Definition contents (d : Pdf.Doc) : list Block := map blockOf (Pdf.ops d).

(** What a reader of the document sees of a section: the heading of a
    chart (14pt, flush left), a picture, or the note that stands for a
    chart that could not be captured (10pt italic). *)
Inductive Mark :=
| Heading (title : string)
| Picture (data : string)
| Note (txt : string).

Definition markOf (b : Block) : option Mark :=
  match b with
  | TextBlock txt _ Pdf.AlignLeft font _ =>
      if Qeq_bool (Pdf.fontSize font) 14 then Some (Heading txt)
      else if Qeq_bool (Pdf.fontSize font) 10 && String.eqb (Pdf.fontStyle font) "italic"
           then Some (Note txt)
           else None
  | ImageBlock data _ _ _ _ => Some (Picture data)
  | _ => None
  end.

Definition marks (d : Pdf.Doc) : list Mark := omap markOf (contents d).

Definition isPicture (b : Block) : bool :=
  match b with ImageBlock _ _ _ _ _ => true | _ => false end.

(** The pictures of a document, in drawing order. *)
Definition pictures (d : Pdf.Doc) : list Block := List.filter isPicture (contents d).

(** The two statements [html2canvas] and [toDataURL] taken together. *)
Definition captured (rendering : JsError + Canvas) : JsError + (Canvas * string) :=
  match rendering with
  | inl e => inl e
  | inr canvas =>
      match dataURL canvas with
      | inl e => inl e
      | inr data => inr (canvas, data)
      end
  end.

(** The same with [pdf.addImage] after them: the bitmap becomes a
    picture of the document when jsPDF can decode its data. *)
Definition drawn `{Pdf.JsPDF} (rendering : JsError + Canvas) : JsError + (Canvas * string) :=
  match captured rendering with
  | inl e => inl e
  | inr (canvas, data) =>
      match Pdf.imageError data "PNG" with
      | Some e => inl e
      | None => inr (canvas, data)
      end
  end.

Definition black : Pdf.Color := (0, 0, 0)%Z.

Module ReportSpec.
Import ExportUtils.

(** An element that [generatePDFReport] passes over: not in the
    document, or with a bounding rectangle of width or height zero. *)
Definition present (document : gmap string Element) (section : Section) : option Element :=
  match document !! id section with
  | None => None
  | Some element =>
      if JsNumber.isZero (rectWidth (boundingRect element))
         || JsNumber.isZero (rectHeight (boundingRect element))
      then None else Some element
  end.

Definition noteFor (section : Section) : string :=
  "[Chart could not be captured: " +:+ title section +:+ "]".

Section Blocks.
Context `{Pdf.JsPDF}.

Definition headingBlock (section : Section) : Block :=
  TextBlock (title section) 20 Pdf.AlignLeft
    {| Pdf.fontSize := 14; Pdf.fontName := "helvetica"; Pdf.fontStyle := "bold" |} black.

Definition noteBlock (section : Section) : Block :=
  TextBlock (noteFor section) 20 Pdf.AlignLeft
    {| Pdf.fontSize := 10; Pdf.fontName := "helvetica"; Pdf.fontStyle := "italic" |}
    (200, 0, 0)%Z.

(** The blocks a section adds to the report: the note alone when
    [html2canvas] or [toDataURL] throws (the heading is not drawn yet);
    the heading and the note when [addImage] throws; the heading and the
    picture otherwise. *)
Definition sectionBlocks (document : gmap string Element) (section : Section) : list Block :=
  match present document section with
  | None => []
  | Some element =>
      match captured (rendering element) with
      | inr (canvas, data) =>
          headingBlock section
          :: match Pdf.imageError data "PNG" with
             | None =>
                 [ ImageBlock data "PNG" 20 (Pdf.pageWidth - 40)
                     (Js.scaledHeight canvas (Pdf.pageWidth - 40)) ]
             | Some _ => [ noteBlock section ]
             end
      | inl _ => [ noteBlock section ]
      end
  end.

(** The title and the metadata lines at the top of the report. *)
Definition headerBlocks (host : Host) (title : string) (metadata : option Metadata) : list Block :=
  let small := {| Pdf.fontSize := 10; Pdf.fontName := "helvetica"; Pdf.fontStyle := "normal" |} in
  TextBlock title (Pdf.pageWidth / 2) Pdf.AlignCenter
    {| Pdf.fontSize := 20; Pdf.fontName := "helvetica"; Pdf.fontStyle := "bold" |} black
  :: match metadata with
     | None => []
     | Some md =>
         (if JsString.truthy (dateRange md)
          then [TextBlock ("Date Range: " +:+ default EmptyString (dateRange md))
                  20 Pdf.AlignLeft small black]
          else [])
         ++ (if truthyNumber (totalDocs md)
             then [TextBlock ("Total Documents: "
                              +:+ numberToLocale host (default 0%Z (totalDocs md)))
                     20 Pdf.AlignLeft small black]
             else [])
         ++ [TextBlock ("Generated: " +:+ localeNow host) 20 Pdf.AlignLeft small black]
     end.

(** The two lines written when no chart was captured, in the font then
    current. *)
Definition noChartsBlocks (font : Pdf.Font) : list Block :=
  [ TextBlock "No charts available to export." 20 Pdf.AlignLeft font black;
    TextBlock "Please ensure charts are loaded and visible." 20 Pdf.AlignLeft font black ].

End Blocks.

Definition reportName (host : Host) (title : string) : string :=
  JsString.replaceWhiteSpace title +:+ "_" +:+ Js.isoDate host +:+ ".pdf".

Section Outcomes.
Context `{Pdf.JsPDF}.

(** The canvases of the sections whose picture reaches the document. *)
Definition capturedCanvas (document : gmap string Element) (section : Section) : option Canvas :=
  match present document section with
  | None => None
  | Some element =>
      match drawn (rendering element) with
      | inr (canvas, _) => Some canvas
      | inl _ => None
      end
  end.

(** What the console receives for a section. *)
Definition sectionLog (document : gmap string Element) (section : Section) : list LogEntry :=
  match document !! id section with
  | None => [ConsoleWarn ("Element not found: " +:+ id section)]
  | Some element =>
      match present document section with
      | None => [ConsoleWarn ("Element not visible: " +:+ id section)]
      | Some _ =>
          match drawn (rendering element) with
          | inr _ => []
          | inl e => [ConsoleError ("Error adding section " +:+ title section +:+ ":") (Some e)]
          end
      end
  end.

(** What a reader sees of a section of the report. *)
Definition reportMarks (document : gmap string Element) (section : Section) : list Mark :=
  match present document section with
  | None => []
  | Some element =>
      match captured (rendering element) with
      | inr (_, data) =>
          Heading (title section)
          :: match Pdf.imageError data "PNG" with
             | None => [Picture data]
             | Some _ => [Note (noteFor section)]
             end
      | inl _ => [Note (noteFor section)]
      end
  end.

(** The console entry of a section whose capture threw. *)
Definition failureLog (document : gmap string Element) (section : Section) : list LogEntry :=
  match present document section with
  | None => []
  | Some element =>
      match drawn (rendering element) with
      | inr _ => []
      | inl e => [ConsoleError ("Error adding section " +:+ title section +:+ ":") (Some e)]
      end
  end.

End Outcomes.

(** A sample section and a page on which it is not rendered. *)
Definition volume : Section := {| id := "a"; title := "Volume" |}.

End ReportSpec.


(** The parts of the machine that neither drawing nor capturing
    touches. *)
Definition world (st : Machine) : list string * bool * bool * nat * gset nat * list (string * Pdf.Doc) :=
  (alerts st, isExporting st, showDropdown st, capturedCount st,
   processedCharts st, downloads st).

Module PanelSpec.
Import ExportReport.

Definition requestFor (props : Props) (chartTitle tabName : string) : InsightsRequest :=
  {| url := apiUrl props +:+ "/api/generate-chart-insights";
     chart_type := chartTitle;
     tab_name := tabName;
     date_from := dateFrom props;
     date_to := dateTo props |}.

(** The text [generateAIInsights] hands to the compositor. *)
Definition insightsOf (props : Props) (service : InsightsRequest → JsError + Response)
    (chartTitle tabName : string) : string :=
  match service (requestFor props chartTitle tabName) with
  | inl _ => "Unable to generate insights at this time."
  | inr response => JsString.orElse (insights response) "Analysis unavailable for this chart."
  end.

(** What [generateAIInsights] writes to the console. *)
Definition insightsLog (props : Props) (service : InsightsRequest → JsError + Response)
    (chartTitle tabName : string) : list LogEntry :=
  match service (requestFor props chartTitle tabName) with
  | inl e => [ConsoleError "Failed to generate insights:" (Some e)]
  | inr _ => []
  end.

Definition headingFont : Pdf.Font :=
  {| Pdf.fontSize := 14; Pdf.fontName := "helvetica"; Pdf.fontStyle := "bold" |}.
Definition insightsTitleFont : Pdf.Font :=
  {| Pdf.fontSize := 11; Pdf.fontName := "helvetica"; Pdf.fontStyle := "bold" |}.
Definition headerFont : Pdf.Font :=
  {| Pdf.fontSize := 10; Pdf.fontName := "helvetica"; Pdf.fontStyle := "bold" |}.
Definition bodyFont : Pdf.Font :=
  {| Pdf.fontSize := JsNumber.nine_and_a_half; Pdf.fontName := "helvetica";
     Pdf.fontStyle := "normal" |}.
Definition headerGrey : Pdf.Color := (60, 60, 60)%Z.
Definition bodyGrey : Pdf.Color := (50, 50, 50)%Z.

Section Blocks.
Context `{Pdf.JsPDF}.

(** The blocks one line of insight text becomes: nothing for a blank
    line, one bold line for a section header, the pieces
    [splitTextToSize] makes of it for any other line. *)
Definition insightLineBlocks (line : string) : list Block :=
  let trimmedLine := JsString.trim line in
  if JsString.isEmpty trimmedLine then []
  else if isSectionHeader trimmedLine
       then [TextBlock trimmedLine 15 Pdf.AlignLeft headerFont headerGrey]
       else map (λ textLine, TextBlock textLine 15 Pdf.AlignLeft bodyFont bodyGrey)
                (Pdf.splitTextToSize bodyFont trimmedLine (Pdf.pageWidth - 30)).

Definition insightsBlocks (insights : string) : list Block :=
  flat_map insightLineBlocks (JsString.split "010" (cleanInsights insights)).

(** The blocks of one chart: its heading and, when the capture went
    through, the picture, the insights and the separator. *)
Definition chartBlocks (props : Props) (tabName : string) (section : Card * Chart) : list Block :=
  let (chartParent, chart) := section in
  TextBlock (chartTitleOf chartParent) 15 Pdf.AlignLeft headingFont teal
  :: match drawn (rendering chart) with
     | inl _ => []
     | inr (canvas, data) =>
         [ ImageBlock data "PNG" 15 (Pdf.pageWidth - 30)
             (JsNumber.min (Js.scaledHeight canvas (Pdf.pageWidth - 30)) 120);
           RectBlock 10 (Pdf.pageWidth - 20) 5 "F" (250, 250, 250)%Z;
           TextBlock "KEY INSIGHTS & ANALYSIS" 15 Pdf.AlignLeft insightsTitleFont teal ]
         ++ insightsBlocks
              (insightsOf props (service chart) (chartTitleOf chartParent) tabName)
         ++ [ LineBlock 15 (Pdf.pageWidth - 15) JsNumber.three_tenths (230, 230, 230)%Z ]
     end.

(** The title block. *)
Definition titleBlocks (props : Props) (host : Host) (tabName : string) : list Block :=
  let font size :=
    {| Pdf.fontSize := size; Pdf.fontName := "helvetica"; Pdf.fontStyle := "normal" |} in
  [ TextBlock "AI Regulation Analytics Report" (Pdf.pageWidth / 2) Pdf.AlignCenter
      (font 20) teal;
    TextBlock tabName (Pdf.pageWidth / 2) Pdf.AlignCenter (font 14) black;
    TextBlock ("Generated: " +:+ localeNow host) (Pdf.pageWidth / 2) Pdf.AlignCenter
      (font 10) (100, 100, 100)%Z ]
  ++ (if JsString.truthy (dateFrom props) && JsString.truthy (dateTo props)
      then [ TextBlock ("Period: " +:+ default EmptyString (dateFrom props) +:+ " to "
                        +:+ default EmptyString (dateTo props))
               (Pdf.pageWidth / 2) Pdf.AlignCenter (font 10) (100, 100, 100)%Z ]
      else []).

End Blocks.

(** The sections of a panel: the charts that have a card, in document
    order, one per card, cards with a KPI grid left out; [seen] holds the
    cards already taken. *)
Fixpoint sectionsOf (seen : gset nat) (charts : list Chart) : list (Card * Chart) :=
  match charts with
  | [] => []
  | chart :: rest =>
      match closest chart with
      | None => sectionsOf seen rest
      | Some chartParent =>
          if decide (cardId chartParent ∈ seen) then sectionsOf seen rest
          else if hasKPIClass chartParent then sectionsOf seen rest
          else (chartParent, chart) :: sectionsOf (seen ∪ {[cardId chartParent]}) rest
      end
  end.

Section Outcomes.
Context `{Pdf.JsPDF}.

(** What the console receives for a section. *)
Definition chartLog (props : Props) (tabName : string) (section : Card * Chart) : list LogEntry :=
  let (chartParent, chart) := section in
  match drawn (rendering chart) with
  | inl e => [ConsoleError "Failed to capture chart:" (Some e)]
  | inr _ => insightsLog props (service chart) (chartTitleOf chartParent) tabName
  end.

(** What a reader sees of a section of the panel. *)
Definition panelMarks (section : Card * Chart) : list Mark :=
  Heading (chartTitleOf section.1)
  :: match drawn (rendering section.2) with
     | inr (_, data) => [Picture data]
     | inl _ => []
     end.

(** The console entry of a section whose capture threw. *)
Definition failureLog (section : Card * Chart) : list LogEntry :=
  match drawn (rendering section.2) with
  | inl e => [ConsoleError "Failed to capture chart:" (Some e)]
  | inr _ => []
  end.

(** The canvas of a section whose picture reaches the document. *)
Definition panelCanvas (section : Card * Chart) : option Canvas :=
  match drawn (rendering section.2) with
  | inr (canvas, _) => Some canvas
  | inl _ => None
  end.

End Outcomes.

Definition panelName (host : Host) (tabName : string) : string :=
  "AI_Regulation_" +:+ JsString.replaceWhiteSpace tabName +:+ "_" +:+ Js.isoDate host +:+ ".pdf".

End PanelSpec.

(** [pixelHeight / pixelWidth] of a bitmap. *)
Definition pixelRatio (canvas : Canvas) : Q :=
  inject_Z (Zpos (height canvas)) / inject_Z (Zpos (width canvas)).

(** Width, height and height over width of a picture as drawn. *)
Definition widthOf (b : Block) : Q :=
  match b with ImageBlock _ _ _ w _ => w | _ => 0 end.
Definition heightOf (b : Block) : Q :=
  match b with ImageBlock _ _ _ _ h => h | _ => 0 end.
Definition ratioOf (b : Block) : Q := heightOf b / widthOf b.

(** Where a block may land on a page of height [H]: the baseline of a
    text at most 15mm above the foot of the page, and 120mm above it for
    a 14pt heading; the lower edge of a picture at least 50mm above the
    foot; the grey band and the separator line above the foot as well. *)
Definition withinPage (H : Q) (placed : nat * Pdf.Op) : Prop :=
  match placed.2 with
  | Pdf.Text _ _ y _ font _ =>
      y <= H - 15 ∧ (Qeq_bool (Pdf.fontSize font) 14 = true → y <= H - 120)
  | Pdf.Image _ _ _ y _ h => y + h <= H - 50
  | Pdf.Rect _ y _ h _ _ => y + h <= H - 38
  | Pdf.Line _ y1 _ y2 _ _ => y1 <= H - 5 ∧ y2 <= H - 5
  end.

Definition wellPlaced (H : Q) (d : Pdf.Doc) : Prop :=
  Forall (withinPage H) (Pdf.ops d).










(** ** Sample inputs *)

Module Sample.
Import ExportReport.

Definition noDates : Props :=
  {| apiUrl := "http://localhost:8000"; dateFrom := None; dateTo := None |}.

Definition year2024 : Props :=
  {| apiUrl := "http://localhost:8000";
     dateFrom := Some "2024-01-01"; dateTo := Some "2024-12-31" |}.

(** A canvas of the given pixel size that can be read back, as a PNG
    file jsPDF can decode. *)
Definition bitmap (w h : positive) : Canvas :=
  {| width := w; height := h; dataURL := inr onePixel |}.

(** A service that answers every request with the same text, and one
    that cannot be reached. *)
Definition answers (txt : string) : InsightsRequest → JsError + Response :=
  λ _, inr {| insights := Some txt |}.
Definition offline : InsightsRequest → JsError + Response :=
  λ _, inl "Network Error".

(** The card number [n], with one export button, the element [n]. *)
Definition card (n : nat) (heading : string) : Card :=
  {| cardId := n; hasKPIClass := false; titleText := Some heading; exportButtons := [n] |}.

Definition chart (n : nat) (heading : string) (rendering : JsError + Canvas)
    (service : InsightsRequest → JsError + Response) : Chart :=
  {| closest := Some (card n heading); rendering := rendering; service := service |}.

(** A page that shows one panel with the given charts. *)
Definition panel (charts : list Chart) : Page :=
  {| containers := [ {| boundingRect := {| rectWidth := 1200; rectHeight := 800 |};
                        charts := charts |} ];
     activeTabText := Some "Overview" |}.

(** A page on which no container is displayed. *)
Definition hiddenPanel : Page :=
  {| containers := [ {| boundingRect := {| rectWidth := 0; rectHeight := 0 |};
                        charts := [] |} ];
     activeTabText := Some "Overview" |}.

(** The insight text of the specification. *)
Definition headerAndBullets : string :=
  "Header:" +:+ String "010" ("- bullet one" +:+ String "010" "- bullet two").


(** A service that answers without insights. *)
Definition silent : InsightsRequest → JsError + Response :=
  λ _, inr {| insights := None |}.

(** A flat chart whose insights cannot be fetched. *)
Definition unexplained : Chart := chart 1 "Volume" (inr (bitmap 1800 300)) offline.

(** A chart whose capture throws. *)
Definition broken : Chart := chart 1 "Volume" (inl "capture failed") (answers "Stable.").

(** A chart whose bitmap is read back as a file jsPDF cannot decode. *)
Definition garbled : Chart :=
  chart 3 "Risk" (inr {| width := 1800; height := 300; dataURL := inr truncated |})
    (answers "Stable.").

(** A chart 30mm high on an A4 page, and a square one, 180mm high
    before the limit. *)
Definition flat : Chart := chart 1 "Volume" (inr (bitmap 1800 300)) (answers "Stable.").
Definition square : Chart := chart 2 "Sentiment" (inr (bitmap 1000 1000)) (answers "Stable.").


(** A document in which the element "a" is rendered. *)
Definition renderedPage : gmap string ExportUtils.Element :=
  {[ "a" := {| ExportUtils.boundingRect := {| rectWidth := 600; rectHeight := 400 |};
               ExportUtils.rendering := inr (bitmap 1800 300) |} ]}.

(** A document in which the element "a" is rendered as a file jsPDF
    cannot decode. *)
Definition garbledPage : gmap string ExportUtils.Element :=
  {[ "a" := {| ExportUtils.boundingRect := {| rectWidth := 600; rectHeight := 400 |};
               ExportUtils.rendering :=
                 inr {| width := 1800; height := 300; dataURL := inr truncated |} |} ]}.

End Sample.

(** The machine an export leaves behind. *)
Definition after {A} (m : JS A) (st : Machine) : Machine := (m st).2.

(** A heading that is the last block of its page while blocks follow on
    the next one. *)
Fixpoint danglingHeading (placed : list (nat * Pdf.Op)) : bool :=
  match placed with
  | (page, Pdf.Text _ _ _ Pdf.AlignLeft font _) :: (((page', _) :: _) as rest) =>
      (Qeq_bool (Pdf.fontSize font) 14 && negb (page =? page')%nat) || danglingHeading rest
  | _ :: rest => danglingHeading rest
  | [] => false
  end.

(** * More of the export code *)

From stdpp Require Import pretty.
Open Scope Q_scope.

(** ** Reading strings and styles *)

(** A white-space character somewhere in the string. *)
Fixpoint hasWhiteSpace (s : string) : bool :=
  match s with
  | EmptyString => false
  | String c r => JsString.isWhiteSpace c || hasWhiteSpace r
  end.

(** [element.style.display] as a script reads it in a machine. *)
Definition shownStyle (st : Machine) (element : nat) : string :=
  default EmptyString (display st !! element).

(** ** Reading the layout of a report *)

Definition isImage (placed : nat * Pdf.Op) : bool :=
  match placed.2 with Pdf.Image _ _ _ _ _ _ => true | _ => false end.

(** [below], when it is a picture, sits right under its heading: the
    block drawn before it is a 14pt text on the same page, 10mm higher. *)
Definition headedBy (above : option (nat * Pdf.Op)) (below : nat * Pdf.Op) : Prop :=
  match below.2 with
  | Pdf.Image _ _ _ y _ _ =>
      match above with
      | Some (page, Pdf.Text _ _ y0 _ font _) =>
          page = below.1 ∧ y = y0 + 10 ∧ Pdf.fontSize font = 14
      | _ => False
      end
  | _ => True
  end.

(** Every picture of the list sits right under its heading; [above] is
    the block drawn before the list. *)
Fixpoint wellHeaded (above : option (nat * Pdf.Op)) (placed : list (nat * Pdf.Op)) : Prop :=
  match placed with
  | [] => True
  | below :: rest => headedBy above below ∧ wellHeaded (Some below) rest
  end.

(** A picture that is at most [H - 40] high ends at least 10mm above the
    foot of a page of height [H]. *)
Definition fitsReport (H : Q) (placed : nat * Pdf.Op) : Prop :=
  match placed.2 with
  | Pdf.Image _ _ _ y _ h => h <= H - 40 → y + h <= H - 10
  | _ => True
  end.

(** What [generatePDFReport] keeps true of its document while it adds
    sections: pictures under their headings, pictures that can fit clear
    of the foot. *)
Definition reportInv (H : Q) (st : Machine) : Prop :=
  wellHeaded None (Pdf.ops (pdf st))
  ∧ Forall (fitsReport H) (Pdf.ops (pdf st)).

(** The bitmap of a section that [generatePDFReport] does not pass over
    and whose [html2canvas] and [toDataURL] went through: the section
    whose heading is drawn. *)
Definition rasterised (document : gmap string ExportUtils.Element)
    (section : ExportUtils.Section) : option Canvas :=
  match ReportSpec.present document section with
  | None => None
  | Some element =>
      match captured (ExportUtils.rendering element) with
      | inr (canvas, _) => Some canvas
      | inl _ => None
      end
  end.

(** A document in which the element "a" is rendered as a bitmap
    higher than an A4 page, read back as a file jsPDF cannot decode. *)
Definition tallPage : gmap string ExportUtils.Element :=
  {[ "a" := {| ExportUtils.boundingRect := {| rectWidth := 600; rectHeight := 1200 |};
               ExportUtils.rendering :=
                 inr {| width := 600; height := 1200; dataURL := inr truncated |} |} ]}.

(** ** utils/exportUtils: the single-file exports *)

Module ExportFiles.

(** What the [href] of a clicked link points to: the data URL of a
    canvas, or the object URL of a [Blob] with its type and its text. *)
Inductive Href :=
| DataURL (data : string)
| BlobURL (mime : string) (content : string).

(** The [<a>] element the exports create and click. *)
Record Link := { download : string; href : Href }.

(** What an export does to the page, in the order it does it. *)
Inductive Event :=
| Logged (entry : LogEntry)
| Clicked (link : Link)
| Revoked (url : Href).

(** An element of the document as the exports read it: what html2canvas
    does on it, and the serialisation of the first [svg] element below
    it, if there is one. *)
Record Element := {
  rendering : JsError + Canvas;
  svg : option string
}.

Definition exportChartAsPNG (document : gmap string Element)
    (elementId filename : string) : list Event :=
  match document !! elementId with
  | None => [Logged (ConsoleError "Element not found" None)]
  | Some element =>
      match captured (rendering element) with
      | inr (canvas, data) =>
          [Clicked {| download := filename +:+ ".png"; href := DataURL data |}]
      | inl error => [Logged (ConsoleError "Error exporting chart:" (Some error))]
      end
  end.

Definition exportChartAsSVG (document : gmap string Element)
    (elementId filename : string) : list Event :=
  match document !! elementId with
  | None => [Logged (ConsoleError "Element not found" None)]
  | Some element =>
      match svg element with
      | None => [Logged (ConsoleError "SVG element not found" None)]
      | Some svgString =>
          let url := BlobURL "image/svg+xml" svgString in
          [Clicked {| download := filename +:+ ".svg"; href := url |}; Revoked url]
      end
  end.

(** A value of a row, as [Array.prototype.join] tells values apart: a
    string, [null] or [undefined], or anything else, given by the string
    [ToString] makes of it, [None] when [ToString] throws (as it does on
    a symbol). *)
Inductive JsValue :=
| VString (s : string)
| VNullish
| VOther (rendering : option string).

(** A row that is not [null] or [undefined], as the export reads it:
    its own enumerable string keys, in the order of [Object.keys], with
    their values; and what [row[key]] gives for any other key, that is
    the value of a property the row inherits (like [toString] for a
    plain object) or that is not enumerable, [undefined] when there is
    none. *)
Record Obj := {
  own : list (string * JsValue);
  other : string -> JsValue
}.

(** A row of the table: [None] for [null] or [undefined]. *)
Definition Row := option Obj.

(** [Object.keys(row)] and [row[header]]; both throw a [TypeError] on
    [null] and [undefined]. Here and below [None] stands for an
    exception. *)
Definition keysOf (object : Obj) : list string := (own object).*1.

Definition keys (row : Row) : option (list string) := keysOf <$> row.

Definition read (object : Obj) (header : string) : JsValue :=
  match find (λ entry, String.eqb entry.1 header) (own object) with
  | Some entry => entry.2
  | None => other object header
  end.

Definition get (row : Row) (header : string) : option JsValue :=
  object ← row; Some (read object header).

(** [parts.join(sep)] for strings. *)
Fixpoint join (sep : ascii) (parts : list string) : string :=
  match parts with
  | [] => EmptyString
  | part :: rest =>
      match rest with
      | [] => part
      | _ :: _ => part +:+ String sep (join sep rest)
      end
  end.

Definition quote : ascii := "034".

(** What [join] writes for the value the inner [map] returns: a string
    with a comma is put between quotes, [null] and [undefined] are
    written as nothing, anything else as [ToString] prints it. *)
Definition cell (value : JsValue) : option string :=
  match value with
  | VString s =>
      Some (if JsString.includes "," s
            then String quote (s +:+ String quote EmptyString) else s)
  | VNullish => Some EmptyString
  | VOther rendering => rendering
  end.

(** The cell of a row under a header. *)
Definition printed (row : Row) (header : string) : option string :=
  value ← get row header; cell value.

(** [headers.map(header => ...).join(',')]: the row is read once for
    every header, so not at all when there is none. *)
Definition csvLine (headers : list string) (row : Row) : option string :=
  cells ← mapM (printed row) headers;
  Some (join "," cells).

Definition csvContent (data : list Row) : option string :=
  first ← head data;
  headers ← keys first;
  lines ← mapM (csvLine headers) data;
  Some (join "010" (join "," headers :: lines)).

(** [data] is [None] for [null] or [undefined]. The function has no
    [try]: an exception raised while the text is composed leaves it
    before anything is logged or clicked. *)
Definition exportDataAsCSV (data : option (list Row)) (filename : string)
    : option (list Event) :=
  match data with
  | None | Some [] => Some [Logged (ConsoleError "No data to export" None)]
  | Some rows =>
      content ← csvContent rows;
      Some [Clicked {| download := filename +:+ ".csv";
                       href := BlobURL "text/csv;charset=utf-8;" content |}]
  end.

(** [Object.prototype], which a plain object inherits from, as V8
    prints its members. *)
Definition objectPrototype (key : string) : JsValue :=
  if String.eqb key "constructor" then VOther (Some "function Object() { [native code] }")
  else if String.eqb key "__proto__" then VOther (Some "[object Object]")
  else if bool_decide (key ∈ ["toString"; "toLocaleString"; "valueOf"; "hasOwnProperty";
                              "isPrototypeOf"; "propertyIsEnumerable"; "__defineGetter__";
                              "__defineSetter__"; "__lookupGetter__"; "__lookupSetter__"])
  then VOther (Some ("function " +:+ key +:+ "() { [native code] }"))
  else VNullish.

(** The object literal with the given entries. *)
Definition literal (entries : list (string * JsValue)) : Obj :=
  {| own := entries; other := objectPrototype |}.

(** The files an export hands over, and the errors it logs. *)
Definition files (events : list Event) : list Link :=
  omap (λ event, match event with Clicked link => Some link | _ => None end) events.

Definition errors (events : list Event) : list LogEntry :=
  omap (λ event, match event with Logged entry => Some entry | _ => None end) events.

(** The table a reader of the file gets who cuts it at line feeds and
    commas. *)
Definition readCSV (content : string) : list (list string) :=
  map (JsString.split ",") (JsString.split "010" content).

(** A cell that holds neither a comma nor a line feed. *)
Definition plain (text : string) : bool :=
  negb (JsString.includes "," text) && negb (JsString.includes "010" text).

End ExportFiles.

(** ** app/page.tsx: the export of the active tab *)

Module HomePage.
Import ExportUtils.

(** [{ from: string; to: string }] *)
Record DateRange := { from : string; to : string }.

Record Tab := { tabId : string; label : string }.

Definition tabs : list Tab :=
  [ {| tabId := "overview"; label := "Overview" |};
    {| tabId := "sentiment"; label := "Sentiment Analysis" |};
    {| tabId := "trend"; label := "Trend Analysis" |};
    {| tabId := "authority"; label := "Authority Analysis" |};
    {| tabId := "geographic"; label := "Geographic Analysis" |};
    {| tabId := "document"; label := "Document Analytics" |};
    {| tabId := "advanced"; label := "Advanced Analytics" |} ].

(** The [switch (activeTab)]. *)
Definition sectionsOf (activeTab : string) : list Section :=
  if String.eqb activeTab "overview" then
    [ {| id := "document-volume-chart"; title := "Document Volume Over Time" |};
      {| id := "sentiment-distribution-chart"; title := "Sentiment Distribution" |} ]
  else if String.eqb activeTab "sentiment" then
    [ {| id := "sentiment-trend-chart"; title := "Sentiment Trends Over Time" |};
      {| id := "authority-sentiment-chart"; title := "Authority Sentiment Patterns" |} ]
  else if String.eqb activeTab "trend" then
    [ {| id := "risk-level-chart"; title := "Risk Level Progression" |};
      {| id := "monthly-volume-chart"; title := "Monthly Document Volume" |} ]
  else if String.eqb activeTab "authority" then
    [ {| id := "authority-volume-chart"; title := "Authority Volume Comparison" |};
      {| id := "authority-activity-chart"; title := "Authority Activity Timeline" |} ]
  else if String.eqb activeTab "geographic" then
    [ {| id := "country-activity-chart"; title := "Country Regulation Activity" |};
      {| id := "regional-comparison-chart"; title := "Regional Comparison" |} ]
  else if String.eqb activeTab "document" then
    [ {| id := "document-type-chart"; title := "Document Type Distribution" |};
      {| id := "status-distribution-chart"; title := "Status Distribution" |};
      {| id := "document-length-chart"; title := "Document Length Distribution" |};
      {| id := "language-distribution-chart"; title := "Language Distribution" |} ]
  else if String.eqb activeTab "advanced" then
    [ {| id := "risk-over-time-chart"; title := "Risk Over Time" |};
      {| id := "sentiment-risk-correlation-chart"; title := "Sentiment-Risk Correlation" |};
      {| id := "confidence-metrics-chart"; title := "Confidence Metrics" |};
      {| id := "quarterly-comparison-chart"; title := "Quarterly Comparison" |};
      {| id := "topic-wordcloud-chart"; title := "Topic Word Cloud" |};
      {| id := "tags-trends-chart"; title := "Tags Trends" |};
      {| id := "authority-network-chart"; title := "Authority Network" |} ]
  else
    [ {| id := "document-volume-chart"; title := "Document Volume Over Time" |};
      {| id := "sentiment-distribution-chart"; title := "Sentiment Distribution" |} ].

(** [tabs.find(t => t.id === activeTab)?.label || 'Report'] *)
Definition labelOf (activeTab : string) : string :=
  match find (λ tab, String.eqb (tabId tab) activeTab) tabs with
  | Some tab => if JsString.isEmpty (label tab) then "Report" else label tab
  | None => "Report"
  end.

Definition reportTitle (activeTab : string) : string :=
  "AI Regulation Analytics - " +:+ labelOf activeTab.

(** The object literal passed as [metadata]. Its second key is
    [totalDocuments]; [generatePDFReport] reads [totalDocs], which the
    literal does not have, so whatever [overview] holds, the callee finds
    [totalDocs] undefined. *)
Definition metadataOf (dateRange : DateRange) (totalDocuments : Z) : Metadata :=
  {| ExportUtils.dateRange := Some (from dateRange +:+ " to " +:+ to dateRange);
     totalDocs := None |}.

Section Page.
Context `{Pdf.JsPDF}.

(** [totalDocuments] is [overview?.total_documents || 0]. *)
Definition handleExportReport (host : Host) (document : gmap string Element)
    (activeTab : string) (dateRange : DateRange) (totalDocuments : Z) : JS unit :=
  result ← generatePDFReport host document (reportTitle activeTab) (sectionsOf activeTab)
              (Some (metadataOf dateRange totalDocuments));
  match result with
  | Success capturedCount =>
      Js.alert ("PDF report generated successfully! Captured "
                +:+ pretty capturedCount +:+ " charts.")
  | Failure _ => mret tt
  end.

End Page.

End HomePage.

(** ** components/ExportReport: the export of the whole dashboard *)

Module Dashboard.
Import ExportReport.

(** A button of [nav[aria-label="Tabs"]]: its [textContent] and what
    [mainContent.querySelectorAll('.space-y-6, .grid')] finds once the
    button has been clicked and the tab has rendered. In the cards of
    these containers [titleText] is the text of the first element
    matched by ['h3, h2, .font-semibold'], the selector of this
    function. *)
Record TabButton := {
  textContent : option string;
  view : list Container
}.

Definition eight_and_a_half : Q := 17 # 2.

Section Compositor.
Context `{Pdf.JsPDF}.

(** Body of [for (const textLine of wrappedText)]. *)
Definition drawTextLine (textLine : string) : JS unit :=
  y ← Js.gets yPosition;
  Js.when (JsNumber.gt y (Pdf.pageHeight - 15)) Js.newPage;;
  Js.textAtY textLine 15 Pdf.AlignLeft;;
  Js.advance 4.

(** Body of [for (const line of lines)]. *)
Definition drawInsightLine (line : string) : JS unit :=
  y ← Js.gets yPosition;
  Js.when (JsNumber.gt y (Pdf.pageHeight - 15)) Js.newPage;;
  let trimmedLine := JsString.trim line in
  if JsString.isEmpty trimmedLine then Js.advance 2
  else if isSectionHeader trimmedLine then
    Js.onPdf (Pdf.setFontSize 9);;
    Js.onPdf (Pdf.setFont "helvetica" "bold");;
    Js.onPdf (Pdf.setTextColor 60 60 60);;
    Js.textAtY trimmedLine 15 Pdf.AlignLeft;;
    Js.advance 5
  else
    Js.onPdf (Pdf.setFontSize eight_and_a_half);;
    Js.onPdf (Pdf.setFont "helvetica" "normal");;
    Js.onPdf (Pdf.setTextColor 50 50 50);;
    wrappedText ← Js.gets (λ m,
      Pdf.splitTextToSize (Pdf.font (pdf m)) trimmedLine (Pdf.pageWidth - 30));
    Js.forOf wrappedText drawTextLine;;
    Js.advance 2.

Definition drawInsights (insights : string) : JS unit :=
  let cleanedInsights := cleanInsights insights in
  let lines := JsString.split "010" cleanedInsights in
  Js.forOf lines drawInsightLine.

(** Body of the [try] block of a chart in [exportWholeDashboard]. *)
Definition renderChart (props : Props) (tabName : string)
    (chartParent : Card) (chart : Chart) (chartTitle : string) : JS unit :=
  canvas ← captureChart chartParent chart;
  imgData ← Js.toDataURL canvas;
  let imgWidth := Pdf.pageWidth - 30 in
  let imgHeight := Js.scaledHeight canvas imgWidth in
  let maxHeight := 100 in
  y ← Js.gets yPosition;
  Js.when (JsNumber.gt (y + JsNumber.min imgHeight maxHeight) (Pdf.pageHeight - 50))
    Js.newPage;;
  y ← Js.gets yPosition;
  Js.addImage imgData "PNG" 15 y imgWidth (JsNumber.min imgHeight maxHeight);;
  Js.advance (JsNumber.min imgHeight maxHeight + 8);;
  Js.onPdf (Pdf.setFillColor 250 250 250);;
  y ← Js.gets yPosition;
  Js.onPdf (Pdf.rect 10 (y - 3) (Pdf.pageWidth - 20) 5 "F");;
  Js.onPdf (Pdf.setFontSize 10);;
  Js.onPdf (Pdf.setFont "helvetica" "bold");;
  Js.onPdf (Pdf.setTextColor 20 184 166);;
  Js.textAtY "KEY INSIGHTS & ANALYSIS" 15 Pdf.AlignLeft;;
  Js.advance 6;;
  insights ← generateAIInsights props (service chart) chartTitle tabName;
  drawInsights insights;;
  Js.advance 2;;
  Js.onPdf (Pdf.setDrawColor 230 230 230);;
  Js.onPdf (Pdf.setLineWidth JsNumber.three_tenths);;
  y ← Js.gets yPosition;
  Js.onPdf (Pdf.line 15 y (Pdf.pageWidth - 15) y);;
  Js.advance 8.

(** Body of [for (const chart of Array.from(charts))] in
    [exportWholeDashboard]. *)
Definition processChart (props : Props) (tabName : string) (chart : Chart) : JS unit :=
  match closest chart with
  | None => mret tt
  | Some chartParent =>
      processed ← Js.gets processedCharts;
      if decide (cardId chartParent ∈ processed) then mret tt
      else if hasKPIClass chartParent then mret tt
      else
        Js.modify (Js.withProcessedCharts (λ s, s ∪ {[cardId chartParent]}));;
        let chartTitle := chartTitleOf chartParent in
        y ← Js.gets yPosition;
        Js.when (JsNumber.gt y (Pdf.pageHeight - 100)) Js.newPage;;
        Js.onPdf (Pdf.setFontSize 12);;
        Js.onPdf (Pdf.setFont "helvetica" "bold");;
        Js.onPdf (Pdf.setTextColor 20 184 166);;
        Js.textAtY chartTitle 15 Pdf.AlignLeft;;
        Js.advance 8;;
        Js.tryCatch
          (renderChart props tabName chartParent chart chartTitle)
          (λ err, Js.consoleError "Failed to capture chart:" err)
  end.

(** [button.textContent?.trim() || 'Tab'] *)
Definition tabNameOf (tabButton : TabButton) : string :=
  JsString.orElse (JsString.optTrim (textContent tabButton)) "Tab".

(** The cover page. *)
Definition drawCover (props : Props) (host : Host) : JS unit :=
  Js.onPdf (Pdf.setFontSize 24);;
  Js.onPdf (Pdf.setTextColor 20 184 166);;
  Js.onPdf (Pdf.text "AI Regulation Analytics" (Pdf.pageWidth / 2)
              (Pdf.pageHeight / 2 - 20) Pdf.AlignCenter);;
  Js.onPdf (Pdf.setFontSize 18);;
  Js.onPdf (Pdf.text "Comprehensive Dashboard Report" (Pdf.pageWidth / 2)
              (Pdf.pageHeight / 2) Pdf.AlignCenter);;
  Js.onPdf (Pdf.setFontSize 12);;
  Js.onPdf (Pdf.setTextColor 100 100 100);;
  Js.onPdf (Pdf.text ("Generated: " +:+ localeNow host) (Pdf.pageWidth / 2)
              (Pdf.pageHeight / 2 + 20) Pdf.AlignCenter);;
  Js.when (JsString.truthy (dateFrom props) && JsString.truthy (dateTo props))
    (Js.onPdf (Pdf.text ("Period: " +:+ default EmptyString (dateFrom props) +:+ " to "
                         +:+ default EmptyString (dateTo props))
                 (Pdf.pageWidth / 2) (Pdf.pageHeight / 2 + 30) Pdf.AlignCenter)).

(** Body of [for (const tabButton of Array.from(tabButtons))]. *)
Definition processTab (props : Props) (tabButton : TabButton) : JS unit :=
  let tabName := tabNameOf tabButton in
  Js.newPage;;
  Js.onPdf (Pdf.setFontSize 18);;
  Js.onPdf (Pdf.setTextColor 20 184 166);;
  Js.textAtY tabName (Pdf.pageWidth / 2) Pdf.AlignCenter;;
  Js.advance 15;;
  match List.find isDisplayed (view tabButton) with
  | None => mret tt
  | Some activeContainer =>
      Js.modify (Js.withProcessedCharts (λ _, ∅));;
      Js.forOf (charts activeContainer) (processChart props tabName)
  end.

Definition exportWholeDashboard (props : Props) (host : Host)
    (tabButtons : list TabButton) : JS unit :=
  Js.setIsExporting true;;
  Js.tryFinally
    (Js.tryCatch
       (Js.newPdf;;
        drawCover props host;;
        Js.forOf tabButtons (processTab props);;
        Js.save host ("AI_Regulation_Complete_Report_" +:+ Js.isoDate host +:+ ".pdf"))
       (λ error,
          Js.consoleError "Export failed:" error;;
          Js.alert "Failed to export complete report. Please try again."))
    (Js.setIsExporting false;; Js.setShowDropdown false).

End Compositor.

(** *** Reading a dashboard report *)

(** What stands out of a report: a centred title with its size, or a
    picture with its width and height as drawn. *)
Inductive Feature :=
| Title (txt : string) (size : Q)
| Figure (data : string) (w h : Q).

Definition featureOf (b : Block) : option Feature :=
  match b with
  | TextBlock txt _ Pdf.AlignCenter font _ => Some (Title txt (Pdf.fontSize font))
  | ImageBlock data _ _ w h => Some (Figure data w h)
  | _ => None
  end.

Definition outline (d : Pdf.Doc) : list Feature := omap featureOf (contents d).

Section Outline.
Context `{Pdf.JsPDF}.

Definition coverOutline (props : Props) (host : Host) : list Feature :=
  [ Title "AI Regulation Analytics" 24;
    Title "Comprehensive Dashboard Report" 18;
    Title ("Generated: " +:+ localeNow host) 12 ]
  ++ (if JsString.truthy (dateFrom props) && JsString.truthy (dateTo props)
      then [ Title ("Period: " +:+ default EmptyString (dateFrom props) +:+ " to "
                    +:+ default EmptyString (dateTo props)) 12 ]
      else []).

(** The picture of a section, when its bitmap reaches the document. *)
Definition figureOf (section : Card * Chart) : list Feature :=
  match drawn (rendering section.2) with
  | inr (canvas, data) =>
      [ Figure data (Pdf.pageWidth - 30)
          (JsNumber.min (Js.scaledHeight canvas (Pdf.pageWidth - 30)) 100) ]
  | inl _ => []
  end.

(** The sections of a tab: those of its first displayed container. *)
Definition sectionsOfTab (tabButton : TabButton) : list (Card * Chart) :=
  match List.find isDisplayed (view tabButton) with
  | None => []
  | Some activeContainer => PanelSpec.sectionsOf ∅ (charts activeContainer)
  end.

Definition tabOutline (tabButton : TabButton) : list Feature :=
  Title (tabNameOf tabButton) 18 :: flat_map figureOf (sectionsOfTab tabButton).

(** What the console receives for the sections of a tab. *)
Definition tabLog (props : Props) (tabButton : TabButton) : list LogEntry :=
  flat_map (PanelSpec.chartLog props (tabNameOf tabButton)) (sectionsOfTab tabButton).

End Outline.

Definition dashboardName (host : Host) : string :=
  "AI_Regulation_Complete_Report_" +:+ Js.isoDate host +:+ ".pdf".

(** Where a block of the dashboard report may land on a page of height
    [H]: the baseline of a text at most 15mm above the foot of the page,
    and 100mm above it for the heading of a chart (12pt, flush left); the
    lower edge of a picture at least 50mm above the foot; the grey band
    and the separator line above the foot as well. *)
Definition withinSheet (H : Q) (placed : nat * Pdf.Op) : Prop :=
  match placed.2 with
  | Pdf.Text _ _ y align font _ =>
      y <= H - 15
      ∧ (align = Pdf.AlignLeft → Qeq_bool (Pdf.fontSize font) 12 = true → y <= H - 100)
  | Pdf.Image _ _ _ y _ h => y + h <= H - 50
  | Pdf.Rect _ y _ h _ _ => y + h <= H - 40
  | Pdf.Line _ y1 _ y2 _ _ => y1 <= H - 7 ∧ y2 <= H - 7
  end.

(** The highest page of [page] and of the pages of the blocks. *)
Definition lastPage (page : nat) (placed : list (nat * Pdf.Op)) : nat :=
  foldl (λ highest block, Nat.max highest block.1) page placed.

(** Every centred text of the list is at the head of a page, with every
    block drawn before it on an earlier page. [page] is the highest page
    reached before the list. *)
Fixpoint opensPages (page : nat) (placed : list (nat * Pdf.Op)) : Prop :=
  match placed with
  | [] => True
  | block :: rest =>
      match block.2 with
      | Pdf.Text _ _ y Pdf.AlignCenter _ _ => (page < block.1)%nat ∧ y = 20
      | _ => True
      end
      ∧ opensPages (Nat.max page block.1) rest
  end.

(** Anything drawn but a centred text. *)
Definition plainOp (op : Pdf.Op) : Prop :=
  match op with
  | Pdf.Text _ _ _ Pdf.AlignCenter _ _ => False
  | _ => True
  end.

(** The blocks [placed] are those of [cover] and, after them, blocks
    whose centred texts open pages, on no more than [pages] pages. *)
Definition pagedFrom (cover : list (nat * Pdf.Op)) (pages : nat)
    (placed : list (nat * Pdf.Op)) : Prop :=
  ∃ body,
    placed = cover ++ body ∧ opensPages 1 body ∧ (lastPage 1 body ≤ pages)%nat.

(** The invariants of the walk through [exportWholeDashboard]: every
    block drawn so far within its page; the blocks drawn so far paged
    after [cover]; and the same with no page lost since [st]. *)
Definition sheets (H : Q) (st : Machine) : Prop :=
  Forall (withinSheet H) (Pdf.ops (pdf st)).

Definition paged (cover : list (nat * Pdf.Op)) (st : Machine) : Prop :=
  pagedFrom cover (Pdf.pageCount (pdf st)) (Pdf.ops (pdf st)).

Definition grown (cover : list (nat * Pdf.Op)) (st st' : Machine) : Prop :=
  paged cover st' ∧ (Pdf.pageCount (pdf st) ≤ Pdf.pageCount (pdf st'))%nat.

End Dashboard.

(** Two tabs: one that shows a flat and a square chart, and one, without
    a label, that shows nothing. *)
Definition twoTabs : list Dashboard.TabButton :=
  [ {| Dashboard.textContent := Some " Overview ";
       Dashboard.view :=
         ExportReport.containers (Sample.panel [Sample.flat; Sample.square]) |};
    {| Dashboard.textContent := None; Dashboard.view := [] |} ].

(** * Proofs *)

(** ** Rules of the weakest-precondition calculus *)

Section WpRules.
Context {A B : Type}.
Implicit Types (st : Machine).

Lemma wp_ret (a : A) post st : post (Returned a) st → wp (mret a) post st.
Proof. done. Qed.

Lemma wp_throw (e : JsError) (post : outcome A → Machine → Prop) st :
  post (Thrown e) st → wp (Js.throw e) post st.
Proof. done. Qed.

Lemma wp_gets (f : Machine → A) post st :
  post (Returned (f st)) st → wp (Js.gets f) post st.
Proof. done. Qed.

Lemma wp_bind (m : JS A) (k : A → JS B) post st :
  wp m (λ r st', match r with
                 | Returned a => wp (k a) post st'
                 | Thrown e => post (Thrown e) st'
                 end) st →
  wp (m ≫= k) post st.
Proof.
  unfold wp, mbind, JS_bind. destruct (m st) as [[a|e] st']; simpl; auto.
Qed.

Lemma wp_tryCatch (body : JS A) (handler : JsError → JS A) post st :
  wp body (λ r st', match r with
                    | Returned a => post (Returned a) st'
                    | Thrown e => wp (handler e) post st'
                    end) st →
  wp (Js.tryCatch body handler) post st.
Proof.
  unfold wp, Js.tryCatch. destruct (body st) as [[a|e] st']; simpl; auto.
Qed.

Lemma wp_tryFinally (body : JS A) (cleanup : JS unit) post st :
  wp body (λ r st',
             wp cleanup (λ r' st'', match r' with
                                    | Returned _ => post r st''
                                    | Thrown e => post (Thrown e) st''
                                    end) st') st →
  wp (Js.tryFinally body cleanup) post st.
Proof.
  unfold wp, Js.tryFinally. destruct (body st) as [r st']; simpl.
  destruct (cleanup st') as [[[]|e] st'']; simpl; auto.
Qed.

Lemma wp_weaken (m : JS A) (post post' : outcome A → Machine → Prop) st :
  wp m post st → (∀ r st', post r st' → post' r st') → wp m post' st.
Proof. unfold wp. auto. Qed.

Lemma wp_run (m : JS A) (post : outcome A → Machine → Prop) st r st' :
  m st = (r, st') → post r st' → wp m post st.
Proof. unfold wp. by intros ->. Qed.

Lemma wp_elim (m : JS A) (post : outcome A → Machine → Prop) st :
  wp m post st → ∃ r st', m st = (r, st') ∧ post r st'.
Proof. unfold wp. destruct (m st) as [r st']. eauto. Qed.

End WpRules.

Lemma wp_modify (f : Machine → Machine) post st :
  post (Returned tt) (f st) → wp (Js.modify f) post st.
Proof. done. Qed.

Lemma wp_when (c : bool) (m : JS unit) post st :
  (c = true → wp m post st) → (c = false → post (Returned tt) st) →
  wp (Js.when c m) post st.
Proof. intros Ht Hf. destruct c; [by apply Ht | by apply Hf]. Qed.

Lemma wp_forOf {A} (inv : list A → Machine → Prop) (body : A → JS unit) (l : list A) st :
  inv l st →
  (∀ x rest st, inv (x :: rest) st →
     wp (body x) (λ r st', r = Returned tt ∧ inv rest st') st) →
  wp (Js.forOf l body) (λ r st', r = Returned tt ∧ inv [] st') st.
Proof.
  intros Hinv Hbody. revert st Hinv.
  induction l as [|x rest IH]; intros st Hinv; simpl.
  - by apply wp_ret.
  - apply wp_bind. eapply wp_weaken; [by apply Hbody|].
    intros r st' [-> Hrest]. by apply IH.
Qed.

Lemma omap_flat_map {A B C} (f : B → option C) (g : A → list B) (l : list A) :
  omap f (flat_map g l) = flat_map (λ x, omap f (g x)) l.
Proof.
  induction l as [|x l IH]; [done|]. cbn [flat_map]. by rewrite omap_app, IH.
Qed.

Lemma flat_map_ext_eq {A B} (f g : A → list B) (l : list A) :
  (∀ x, f x = g x) → flat_map f l = flat_map g l.
Proof. intros Hfg. induction l as [|x l IH]; [done|]. cbn [flat_map]. by rewrite Hfg, IH. Qed.

Lemma flat_map_nil {A B} (f : A → list B) (l : list A) :
  (∀ x, f x = []) → flat_map f l = [].
Proof. intros Hf. induction l as [|x l IH]; [done|]. cbn [flat_map]. by rewrite Hf, IH. Qed.

Lemma sublist_flat_map {A B} (f g : A → list B) (l : list A) :
  (∀ x, sublist (f x) (g x)) → sublist (flat_map f l) (flat_map g l).
Proof.
  intros Hfg. induction l as [|x l IH]; [done|]. cbn [flat_map]. by apply sublist_app.
Qed.

Lemma omap_cons_app {A B} (f : A → option B) (x : A) (l : list A) :
  omap f (x :: l) = option_list (f x) ++ omap f l.
Proof. unfold omap. simpl. by destruct (f x). Qed.

Lemma length_omap_cons {A B} (f : A → option B) (x : A) (l : list A) :
  length (omap f (x :: l)) = (length (option_list (f x)) + length (omap f l))%nat.
Proof. unfold omap. simpl. destruct (f x); done. Qed.

Lemma wp_toDataURL (canvas : Canvas) post st :
  match dataURL canvas with
  | inl e => post (Thrown e) st
  | inr data => post (Returned data) st
  end →
  wp (Js.toDataURL canvas) post st.
Proof.
  intros Hk. unfold Js.toDataURL.
  destruct (dataURL canvas); [by apply wp_throw | by apply wp_ret].
Qed.

Lemma wp_save (host : Host) (filename : string) post st :
  match saveError host with
  | Some e => post (Thrown e) st
  | None => post (Returned tt) (Js.withDownloads (λ l, l ++ [(filename, pdf st)]) st)
  end →
  wp (Js.save host filename) post st.
Proof.
  intros Hk. unfold Js.save.
  destruct (saveError host); [by apply wp_throw | by apply wp_modify].
Qed.

Lemma wp_addImage `{Pdf.JsPDF} (data format : string) (x y w h : Q) post st :
  match Pdf.imageError data format with
  | Some e => post (Thrown e) st
  | None => post (Returned tt) (Js.withPdf (Pdf.addImage data format x y w h) st)
  end →
  wp (Js.addImage data format x y w h) post st.
Proof.
  intros Hk. unfold Js.addImage.
  destruct (Pdf.imageError data format); [by apply wp_throw | by apply wp_modify].
Qed.

Lemma world_withPdf f st : world (Js.withPdf f st) = world st.
Proof. done. Qed.
Lemma world_withYPosition f st : world (Js.withYPosition f st) = world st.
Proof. done. Qed.
Lemma world_withConsole f st : world (Js.withConsole f st) = world st.
Proof. done. Qed.
Lemma world_withDisplay f st : world (Js.withDisplay f st) = world st.
Proof. done. Qed.

Lemma scaledHeight_ratio (canvas : Canvas) (w : Q) :
  ¬ w == 0 → Js.scaledHeight canvas w / w == pixelRatio canvas.
Proof.
  intros Hw. unfold Js.scaledHeight, pixelRatio. field. split; [|done].
  intros Hz. unfold Qeq in Hz. simpl in Hz. lia.
Qed.

Lemma gt_false (a b : Q) : JsNumber.gt a b = false → a <= b.
Proof.
  unfold JsNumber.gt. intros Hg. apply negb_false_iff in Hg. by apply Qle_bool_iff.
Qed.

Lemma gt_true (a b : Q) : JsNumber.gt a b = true → b < a.
Proof.
  unfold JsNumber.gt. intros Hg. apply negb_true_iff in Hg.
  apply Qnot_le_lt. intros Hle. apply Qle_bool_iff in Hle. congruence.
Qed.

Lemma min_limit (a b : Q) : JsNumber.min a b <= b.
Proof. apply Q.le_min_r. Qed.

(** Symbolic execution of straight-line code. *)

Create Rewrite HintDb machine.
#[local] Hint Rewrite world_withPdf world_withYPosition world_withConsole
  world_withDisplay : machine.

Ltac machine_simpl :=
  autorewrite with machine in *;
  cbn [display console alerts isExporting showDropdown pdf yPosition
       capturedCount processedCharts downloads
       Js.withDisplay Js.withConsole Js.withAlerts Js.withIsExporting
       Js.withShowDropdown Js.withPdf Js.withYPosition Js.withCapturedCount
       Js.withProcessedCharts Js.withDownloads fst snd] in *.

Ltac wp_head m :=
  lazymatch m with
  | mbind _ _ => apply wp_bind
  | mret _ => apply wp_ret
  | Js.gets _ => apply wp_gets
  | Js.modify _ => apply wp_modify
  | Js.throw _ => apply wp_throw
  | Js.consoleError _ _ => apply wp_modify
  | Js.consoleWarn _ => apply wp_modify
  | Js.alert _ => apply wp_modify
  | Js.setIsExporting _ => apply wp_modify
  | Js.setShowDropdown _ => apply wp_modify
  | Js.styleDisplay _ => apply wp_gets
  | Js.setStyleDisplay _ _ => apply wp_modify
  | Js.newPdf => apply wp_modify
  | Js.onPdf _ => apply wp_modify
  | Js.setY _ => apply wp_modify
  | Js.advance _ => apply wp_modify
  | Js.textAtY _ _ _ => unfold Js.textAtY
  | Js.newPage => unfold Js.newPage
  | Js.tryCatch _ _ => apply wp_tryCatch
  | Js.tryFinally _ _ => apply wp_tryFinally
  | Js.when _ _ => apply wp_when; intros ?
  | Js.toDataURL _ => apply wp_toDataURL
  | Js.save _ _ => apply wp_save
  | Js.addImage _ _ _ _ _ _ =>
      apply wp_addImage;
      try match goal with Hdec : Pdf.imageError _ _ = _ |- _ => rewrite Hdec end
  | Js.html2canvas (inl _) => apply wp_throw
  | Js.html2canvas (inr _) => apply wp_ret
  end.

Ltac wp_step :=
  cbv beta iota;
  lazymatch goal with
  | |- wp ?m _ _ => wp_head m
  end; cbv beta iota; machine_simpl.

Ltac wp_steps := repeat wp_step.

Ltac pdf_simpl :=
  unfold contents in *;
  cbn [Pdf.put Pdf.addPage Pdf.withFont Pdf.setFontSize Pdf.setFont
       Pdf.setTextColor Pdf.setFillColor Pdf.setDrawColor Pdf.setLineWidth
       Pdf.text Pdf.addImage Pdf.rect Pdf.line Pdf.blank
       Pdf.pageCount Pdf.font Pdf.textColor Pdf.fillColor Pdf.drawColor
       Pdf.lineWidth Pdf.ops Pdf.fontSize Pdf.fontName Pdf.fontStyle] in *;
  rewrite ?map_app in *;
  cbn [map blockOf fst snd] in *.

(** ** Rules for two runs side by side *)

Section RwpRules.
Context {A B : Type}.










End RwpRules.












(** ** Strings without asterisks *)

Lemma includes_removeAsterisks s :
  JsString.includes "*" (JsString.removeAsterisks s) = false.
Proof.
  induction s as [|c s IH]; [done|]. simpl.
  destruct (Ascii.eqb c "*") eqn:Hc; [done|]. simpl. by rewrite Hc.
Qed.

Lemma includes_trimStart c s :
  JsString.includes c s = false → JsString.includes c (JsString.trimStart s) = false.
Proof.
  induction s as [|d s IH]; [done|]. simpl. intros Hs.
  destruct (JsString.isWhiteSpace d); [|done].
  apply IH. by apply orb_false_iff in Hs as [_ ?].
Qed.

Lemma includes_trimEnd c s :
  JsString.includes c s = false → JsString.includes c (JsString.trimEnd s) = false.
Proof.
  induction s as [|d s IH]; [done|]. simpl. intros Hs.
  apply orb_false_iff in Hs as [Hd Hs].
  destruct (_ && _); [done|]. simpl. by rewrite Hd, IH.
Qed.

Lemma includes_trim c s :
  JsString.includes c s = false → JsString.includes c (JsString.trim s) = false.
Proof. intros Hs. by apply includes_trimEnd, includes_trimStart. Qed.

Lemma includes_split c sep s :
  JsString.includes c s = false →
  Forall (λ line, JsString.includes c line = false) (JsString.split sep s).
Proof.
  induction s as [|d s IH]; simpl; intros Hs; [by repeat constructor|].
  apply orb_false_iff in Hs as [Hd Hs]. specialize (IH Hs).
  destruct (Ascii.eqb d sep); [by constructor|].
  destruct (JsString.split sep s) as [|h t]; [by repeat constructor; simpl; rewrite Hd|].
  inversion IH as [|? ? Hh Ht]; subst. constructor; [|done]. simpl. by rewrite Hd, Hh.
Qed.

(** ** generatePDFReport *)

Section ReportProofs.
Context `{Pdf.JsPDF}.
Import ExportUtils ReportSpec.

Lemma addSection_spec document section st :
  Pdf.textColor (pdf st) = black →
  wp (addSection document section)
     (λ r st',
        r = Returned tt
        ∧ contents (pdf st') = contents (pdf st) ++ sectionBlocks document section
        ∧ Pdf.textColor (pdf st') = black
        ∧ capturedCount st'
          = (capturedCount st + length (option_list (capturedCanvas document section)))%nat
        ∧ console st' = console st ++ sectionLog document section
        ∧ alerts st' = alerts st ∧ downloads st' = downloads st ∧ display st' = display st)
     st.
Proof.
  intros Hcol.
  unfold addSection, sectionBlocks, capturedCanvas, sectionLog, present,
    headingBlock, noteBlock.
  destruct (document !! id section) as [element|]; [|wp_steps].
  2:{ rewrite app_nil_r, Nat.add_0_r. done. }
  destruct (_ || _); [wp_steps|].
  { rewrite app_nil_r, Nat.add_0_r. done. }
  wp_step. wp_step. unfold drawn, captured.
  destruct (rendering element) as [e|canvas]; wp_step.
  { wp_steps. pdf_simpl. rewrite Nat.add_0_r. done. }
  wp_steps. destruct (dataURL canvas) as [e|data].
  { wp_steps. pdf_simpl. rewrite Nat.add_0_r. done. }
  destruct (Pdf.imageError data "PNG") as [e|] eqn:Hdec.
  all: wp_steps; pdf_simpl.
  all: rewrite ?Hcol, <- ?app_assoc, ?app_nil_r; simpl; repeat split; try done; lia.
Qed.

Lemma addSections_spec document sections st :
  Pdf.textColor (pdf st) = black →
  wp (Js.forOf sections (addSection document))
     (λ r st',
        r = Returned tt
        ∧ contents (pdf st')
          = contents (pdf st) ++ flat_map (sectionBlocks document) sections
        ∧ Pdf.textColor (pdf st') = black
        ∧ capturedCount st'
          = (capturedCount st + length (omap (capturedCanvas document) sections))%nat
        ∧ console st' = console st ++ flat_map (sectionLog document) sections
        ∧ alerts st' = alerts st ∧ downloads st' = downloads st ∧ display st' = display st)
     st.
Proof.
  revert st. induction sections as [|section rest IH]; intros st Hcol;
    cbn [Js.forOf flat_map].
  - apply wp_ret. simpl. rewrite !app_nil_r, Nat.add_0_r. done.
  - apply wp_bind. eapply wp_weaken; [by apply addSection_spec|].
    intros r st1 (-> & Hc & Hcol1 & Hn & Hlog & Ha & Hd & Hdisp).
    eapply wp_weaken; [by apply IH|].
    intros r st2 (-> & Hc2 & Hcol2 & Hn2 & Hlog2 & Ha2 & Hd2 & Hdisp2).
    rewrite Hc2, Hc, Hn2, Hn, Hlog2, Hlog, Ha2, Hd2, Hdisp2, <- !app_assoc.
    repeat split; try done.
    rewrite length_omap_cons. lia.
Qed.

Lemma drawMetadata_spec host title metadata st :
  contents (pdf st)
  = [TextBlock title (Pdf.pageWidth / 2) Pdf.AlignCenter
       {| Pdf.fontSize := 20; Pdf.fontName := "helvetica"; Pdf.fontStyle := "bold" |} black] →
  Pdf.textColor (pdf st) = black →
  Pdf.fontName (Pdf.font (pdf st)) = "helvetica" →
  wp (drawMetadata host metadata)
     (λ r st',
        r = Returned tt
        ∧ contents (pdf st') = headerBlocks host title metadata
        ∧ Pdf.textColor (pdf st') = black
        ∧ console st' = console st ∧ alerts st' = alerts st
        ∧ downloads st' = downloads st ∧ display st' = display st)
     st.
Proof.
  intros Hc Hcol Hname. unfold drawMetadata, headerBlocks.
  destruct metadata as [md|]; [|by wp_steps].
  wp_steps; pdf_simpl; rewrite ?Hc, ?Hcol; simpl;
    repeat match goal with Hb : _ = _ |- _ => rewrite Hb end; done.
Qed.

Lemma generatePDFReport_spec host document title sections metadata st :
  wp (generatePDFReport host document title sections metadata)
     (λ r st',
        let n := length (omap (capturedCanvas document) sections) in
        (∃ font,
           Pdf.fontSize font = 12
           ∧ contents (pdf st')
             = headerBlocks host title metadata
               ++ flat_map (sectionBlocks document) sections
               ++ (if (n =? 0)%nat then noChartsBlocks font else []))
        ∧ console st'
          = console st ++ flat_map (sectionLog document) sections
            ++ match saveError host with
               | Some e => [ConsoleError "Error generating PDF report:" (Some e)]
               | None => []
               end
        ∧ display st' = display st
        ∧ match saveError host with
          | None =>
              r = Returned (Success n)
              ∧ downloads st' = downloads st ++ [(reportName host title, pdf st')]
              ∧ alerts st' = alerts st
          | Some e =>
              r = Returned (Failure e)
              ∧ downloads st' = downloads st
              ∧ alerts st' = alerts st ++ ["Failed to generate PDF report. Please try again."]
          end)
     st.
Proof.
  unfold generatePDFReport. wp_steps.
  eapply wp_weaken; [by apply (drawMetadata_spec host title)|].
  intros r st1 (-> & Hc1 & Hcol1 & Hlog1 & Ha1 & Hd1 & Hdisp1). wp_steps.
  eapply wp_weaken; [by apply addSections_spec|].
  intros r st2 (-> & Hc2 & Hcol2 & Hn2 & Hlog2 & Ha2 & Hd2 & Hdisp2).
  machine_simpl. rewrite Hc1 in Hc2. simpl in Hn2.
  rewrite Hlog1 in Hlog2. rewrite Ha1 in Ha2. rewrite Hd1 in Hd2. rewrite Hdisp1 in Hdisp2.
  machine_simpl.
  wp_step. wp_step. wp_step. rewrite Hn2.
  set (n := length _) in *.
  wp_step; (wp_steps; destruct (saveError host) as [e|]; wp_steps).
  all: pdf_simpl; rewrite Hc2, ?Hcol2, Hlog2, Ha2, Hd2, Hdisp2, ?Hn2, ?app_nil_r.
  all: match goal with Hz : (_ =? 0)%nat = _ |- _ => rewrite Hz end.
  all: split;
    [ exists {| Pdf.fontSize := 12;
                Pdf.fontName := Pdf.fontName (Pdf.font (pdf st2));
                Pdf.fontStyle := Pdf.fontStyle (Pdf.font (pdf st2)) |};
      split; [done|]; rewrite <- ?app_assoc, ?app_nil_r; done
    | rewrite <- ?app_assoc; done ].
Qed.

Lemma sectionBlocks_pictures document sections :
  length (List.filter isPicture (flat_map (sectionBlocks document) sections))
  = length (omap (capturedCanvas document) sections).
Proof.
  induction sections as [|section rest IH]; [done|].
  rewrite length_omap_cons. cbn [flat_map].
  rewrite List.filter_app, length_app, IH. f_equal.
  unfold sectionBlocks, capturedCanvas, drawn.
  destruct (present document section) as [element|]; [|done].
  destruct (captured (rendering element)) as [e|[canvas data]]; [done|].
  by destruct (Pdf.imageError data "PNG").
Qed.

Lemma headerBlocks_pictures host title metadata :
  List.filter isPicture (headerBlocks host title metadata) = [].
Proof.
  unfold headerBlocks. destruct metadata as [md|]; [|done].
  by destruct (JsString.truthy _), (truthyNumber _).
Qed.

(** C9. [generatePDFReport] never throws: whatever the page, the
    sections, jsPDF and the host do, it returns a result.  The result is
    [Success n], with [n] the number of pictures in the document it has
    just handed to the browser (one per section for which [html2canvas],
    [toDataURL] and [addImage] all went through), or [Failure e] with the
    error [e] raised at top level, which is logged and reported by an
    alert. *)
Theorem generatePDFReport_always_returns host document title sections metadata st :
  ∃ result st',
    generatePDFReport host document title sections metadata st = (Returned result, st')
    ∧ match result with
      | Success n =>
          n = length (pictures (pdf st'))
          ∧ n = length (omap (capturedCanvas document) sections)
          ∧ downloads st' = downloads st ++ [(reportName host title, pdf st')]
      | Failure e =>
          saveError host = Some e
          ∧ last (console st') = Some (ConsoleError "Error generating PDF report:" (Some e))
          ∧ last (alerts st') = Some "Failed to generate PDF report. Please try again."
      end.
Proof.
  destruct (wp_elim _ _ _ (generatePDFReport_spec host document title sections metadata st))
    as (r & st' & Hrun & (font & _ & Hc) & Hlog & _ & Hres).
  destruct (saveError host) as [e|] eqn:Hsave.
  - destruct Hres as (-> & _ & Ha). exists (Failure e), st'. split; [done|].
    split; [done|]. rewrite Hlog, Ha, !app_assoc, !last_snoc. done.
  - destruct Hres as (-> & Hd & _). eexists _, st'. split; [done|].
    split; [|done]. unfold pictures. rewrite Hc, !List.filter_app, !length_app.
    rewrite headerBlocks_pictures, sectionBlocks_pictures. simpl.
    destruct (_ =? _)%nat; simpl; lia.
Qed.

(** C10. A section whose element is not in the document, or whose
    bounding rectangle has width or height zero, leaves the document, the
    vertical position and the count of captured charts as they were (no
    heading, no picture, no note is drawn); only a warning goes to the
    console, and the loop goes on with the sections that follow. *)
Theorem skipped_section_contributes_nothing document section st :
  document !! id section = None
  ∨ (∃ element, document !! id section = Some element
       ∧ (rectWidth (boundingRect element) == 0
          ∨ rectHeight (boundingRect element) == 0)) →
  ∃ st',
    addSection document section st = (Returned tt, st')
    ∧ pdf st' = pdf st
    ∧ yPosition st' = yPosition st
    ∧ capturedCount st' = capturedCount st
    ∧ ∀ rest, Js.forOf (section :: rest) (addSection document) st
              = Js.forOf rest (addSection document) st'.
Proof.
  intros Hskip.
  assert (∃ msg, addSection document section st
                 = (Returned tt, Js.withConsole (λ l, l ++ [ConsoleWarn msg]) st))
    as [msg Hrun].
  { unfold addSection. destruct Hskip as [->|(element & -> & Hzero)]; [by eexists|].
    unfold JsNumber.isZero.
    assert (Qeq_bool (rectWidth (boundingRect element)) 0
            || Qeq_bool (rectHeight (boundingRect element)) 0 = true) as ->.
    { apply orb_true_iff. rewrite !Qeq_bool_iff. done. }
    by eexists. }
  eexists. split; [exact Hrun|]. repeat split.
  intros rest. cbn [Js.forOf]. unfold mbind, JS_bind. by rewrite Hrun.
Qed.

Lemma headerBlocks_marks host title metadata :
  omap markOf (headerBlocks host title metadata) = [].
Proof.
  unfold headerBlocks. destruct metadata as [md|]; [|done].
  by destruct (JsString.truthy _), (truthyNumber _).
Qed.

Lemma sectionBlocks_marks document section :
  omap markOf (sectionBlocks document section) = reportMarks document section.
Proof.
  unfold sectionBlocks, reportMarks.
  destruct (present document section) as [element|]; [|done].
  destruct (captured (rendering element)) as [e|[canvas data]]; [done|].
  by destruct (Pdf.imageError data "PNG").
Qed.

Lemma noChartsBlocks_marks font : Pdf.fontSize font = 12 → omap markOf (noChartsBlocks font) = [].
Proof. intros Hsize. unfold noChartsBlocks. cbn. rewrite Hsize. done. Qed.

Lemma failureLog_sectionLog document section :
  sublist (ReportSpec.failureLog document section) (sectionLog document section).
Proof.
  unfold ReportSpec.failureLog, sectionLog, present.
  destruct (document !! id section) as [element|]; [|apply sublist_nil_l].
  destruct (_ || _); [apply sublist_nil_l|].
  by destruct (drawn (rendering element)).
Qed.

Lemma generatePDFReport_marks host document title sections metadata st :
  ∃ result st',
    generatePDFReport host document title sections metadata st = (Returned result, st')
    ∧ marks (pdf st') = flat_map (reportMarks document) sections
    ∧ sublist (flat_map (ReportSpec.failureLog document) sections) (console st').
Proof.
  destruct (wp_elim _ _ _ (generatePDFReport_spec host document title sections metadata st))
    as (r & st' & Hrun & (font & Hsize & Hc) & Hlog & _ & Hres).
  assert (∃ result, r = Returned result) as [result ->].
  { destruct (saveError host); destruct Hres as [-> _]; eauto. }
  exists result, st'. split; [done|]. split.
  - unfold marks. rewrite Hc, !omap_app, headerBlocks_marks, omap_flat_map.
    rewrite (flat_map_ext_eq _ _ _ (sectionBlocks_marks document)).
    destruct (_ =? _)%nat; [rewrite noChartsBlocks_marks by done|]; by rewrite app_nil_r.
  - rewrite Hlog. apply sublist_inserts_l, sublist_inserts_r, sublist_flat_map.
    apply failureLog_sectionLog.
Qed.

Lemma sectionBlocks_keep_ratio document sections :
  40 < Pdf.pageWidth →
  Forall2 (λ b canvas, widthOf b = Pdf.pageWidth - 40 ∧ ratioOf b == pixelRatio canvas)
    (List.filter isPicture (flat_map (sectionBlocks document) sections))
    (omap (capturedCanvas document) sections).
Proof.
  intros Hwide. induction sections as [|section rest IH]; [constructor|].
  cbn [flat_map]. rewrite List.filter_app.
  rewrite omap_cons_app.
  apply Forall2_app; [|exact IH].
  unfold sectionBlocks, capturedCanvas, drawn.
  destruct (present document section) as [element|]; [|constructor].
  destruct (captured (rendering element)) as [e|[canvas data]]; [constructor|].
  destruct (Pdf.imageError data "PNG"); [constructor|].
  repeat constructor. unfold ratioOf. cbn [widthOf heightOf].
  apply scaledHeight_ratio. lra.
Qed.

Lemma generatePDFReport_pictures host document title sections metadata st :
  40 < Pdf.pageWidth →
  ∃ result st',
    generatePDFReport host document title sections metadata st = (Returned result, st')
    ∧ Forall2 (λ b canvas, widthOf b = Pdf.pageWidth - 40 ∧ ratioOf b == pixelRatio canvas)
        (pictures (pdf st')) (omap (capturedCanvas document) sections).
Proof.
  intros Hwide.
  destruct (wp_elim _ _ _ (generatePDFReport_spec host document title sections metadata st))
    as (r & st' & Hrun & (font & Hsize & Hc) & _ & _ & Hres).
  assert (∃ result, r = Returned result) as [result ->].
  { destruct (saveError host); destruct Hres as [-> _]; eauto. }
  exists result, st'. split; [done|].
  unfold pictures. rewrite Hc, !List.filter_app, headerBlocks_pictures.
  assert (List.filter isPicture
            (if (length (omap (capturedCanvas document) sections) =? 0)%nat
             then noChartsBlocks font else []) = []) as ->.
  { by destruct (_ =? _)%nat. }
  rewrite app_nil_r. by apply sectionBlocks_keep_ratio.
Qed.

End ReportProofs.

(** The section "a" of a document without elements is such a section. *)
Lemma skipped_section_witness :
  (∅ : gmap string ExportUtils.Element) !! ExportUtils.id ReportSpec.volume = None
  ∧ ∃ st',
      @ExportUtils.addSection a4 ∅ ReportSpec.volume idle = (Returned tt, st')
      ∧ pdf st' = pdf idle
      ∧ yPosition st' = yPosition idle
      ∧ capturedCount st' = capturedCount idle
      ∧ ∀ rest, Js.forOf (ReportSpec.volume :: rest) (@ExportUtils.addSection a4 ∅) idle
                = Js.forOf rest (@ExportUtils.addSection a4 ∅) st'.
Proof.
  split; [reflexivity|].
  apply (@skipped_section_contributes_nothing a4 ∅ ReportSpec.volume idle).
  left. reflexivity.
Defined.

(** ** The ExportReport component *)

Section PanelProofs.
Context `{Pdf.JsPDF}.
Import ExportReport PanelSpec.

Lemma generateAIInsights_spec props service chartTitle tabName st :
  generateAIInsights props service chartTitle tabName st
  = (Returned (insightsOf props service chartTitle tabName),
     Js.withConsole (λ l, l ++ insightsLog props service chartTitle tabName) st).
Proof.
  unfold generateAIInsights, insightsOf, insightsLog, Js.tryCatch, axiosPost, requestFor,
    mbind, JS_bind.
  destruct (service _) as [e|response]; simpl; [done|].
  unfold Js.withConsole. rewrite app_nil_r. by destruct st.
Qed.

(** Hiding and showing buttons touches nothing but their inline styles. *)
Lemma hideExportButtons_frame buttons hidden st :
  ∃ hidden' shown,
    hideExportButtons buttons hidden st
    = (Returned hidden', Js.withDisplay (λ _, shown) st).
Proof.
  revert hidden st. induction buttons as [|element rest IH]; intros hidden st; simpl.
  - exists hidden, (display st). by destruct st.
  - unfold mbind, JS_bind. simpl. destruct (String.eqb _ _).
    + apply IH.
    + destruct (IH (hidden ++ [element])
                  (Js.withDisplay (λ d, <[element:="none"]> d) st))
        as (hidden' & shown & ->).
      by exists hidden', shown.
Qed.

Lemma restore_frame hidden st :
  ∃ shown,
    Js.forOf hidden (λ element, Js.setStyleDisplay element EmptyString) st
    = (Returned tt, Js.withDisplay (λ _, shown) st).
Proof.
  revert st. induction hidden as [|element rest IH]; intros st; simpl.
  - exists (display st). by destruct st.
  - unfold mbind, JS_bind. simpl.
    destruct (IH (Js.withDisplay (λ d, <[element:=EmptyString]> d) st)) as (shown & ->).
    by exists shown.
Qed.

Lemma captureChart_frame chartParent chart st :
  ∃ shown,
    captureChart chartParent chart st
    = (match rendering chart with inl e => Thrown e | inr canvas => Returned canvas end,
       Js.withDisplay (λ _, shown) st).
Proof.
  unfold captureChart, mbind, JS_bind.
  destruct (hideExportButtons_frame (exportButtons chartParent) [] st)
    as (hidden & shown & ->).
  destruct (rendering chart) as [e|canvas]; simpl; [by exists shown|].
  destruct (restore_frame hidden (Js.withDisplay (λ _, shown) st)) as (shown' & ->).
  by exists shown'.
Qed.

Lemma drawTextLine_spec textLine st :
  wp (drawTextLine textLine)
     (λ r st',
        r = Returned tt
        ∧ contents (pdf st')
          = contents (pdf st)
            ++ [TextBlock textLine 15 Pdf.AlignLeft (Pdf.font (pdf st)) (Pdf.textColor (pdf st))]
        ∧ Pdf.font (pdf st') = Pdf.font (pdf st)
        ∧ Pdf.textColor (pdf st') = Pdf.textColor (pdf st)
        ∧ console st' = console st ∧ display st' = display st ∧ world st' = world st)
     st.
Proof. unfold drawTextLine. wp_steps; pdf_simpl; done. Qed.

Lemma drawTextLines_spec wrappedText st :
  wp (Js.forOf wrappedText drawTextLine)
     (λ r st',
        r = Returned tt
        ∧ contents (pdf st')
          = contents (pdf st)
            ++ map (λ textLine, TextBlock textLine 15 Pdf.AlignLeft
                                  (Pdf.font (pdf st)) (Pdf.textColor (pdf st)))
                   wrappedText
        ∧ console st' = console st ∧ display st' = display st ∧ world st' = world st)
     st.
Proof.
  revert st. induction wrappedText as [|textLine rest IH]; intros st; cbn [Js.forOf map].
  - apply wp_ret. by rewrite app_nil_r.
  - apply wp_bind. eapply wp_weaken; [apply drawTextLine_spec|].
    intros r st1 (-> & Hc & Hf & Hcol & Hlog & Hd & Hw).
    eapply wp_weaken; [apply IH|].
    intros r st2 (-> & Hc2 & Hlog2 & Hd2 & Hw2).
    rewrite Hc2, Hc, Hf, Hcol, Hlog2, Hd2, Hw2, <- app_assoc. done.
Qed.

Lemma drawInsightLine_spec line st :
  wp (drawInsightLine line)
     (λ r st',
        r = Returned tt
        ∧ contents (pdf st') = contents (pdf st) ++ insightLineBlocks line
        ∧ console st' = console st ∧ display st' = display st ∧ world st' = world st)
     st.
Proof.
  unfold drawInsightLine, insightLineBlocks.
  wp_step. wp_step. wp_step.
  all: destruct (JsString.isEmpty _); [wp_steps; pdf_simpl; by rewrite app_nil_r|].
  all: destruct (isSectionHeader _); [wp_steps; pdf_simpl; done|].
  all: wp_steps.
  all: eapply wp_weaken; [apply drawTextLines_spec|].
  all: intros r st1 (-> & Hc & Hlog & Hd & Hw); wp_steps.
  all: rewrite Hc; pdf_simpl; done.
Qed.

Lemma drawInsights_spec insights st :
  wp (drawInsights insights)
     (λ r st',
        r = Returned tt
        ∧ contents (pdf st') = contents (pdf st) ++ insightsBlocks insights
        ∧ console st' = console st ∧ display st' = display st ∧ world st' = world st)
     st.
Proof.
  unfold drawInsights, insightsBlocks.
  generalize (JsString.split "010" (cleanInsights insights)). intros lines.
  revert st. induction lines as [|line rest IH]; intros st; cbn [Js.forOf flat_map].
  - apply wp_ret. by rewrite app_nil_r.
  - apply wp_bind. eapply wp_weaken; [apply drawInsightLine_spec|].
    intros r st1 (-> & Hc & Hlog & Hd & Hw).
    eapply wp_weaken; [apply IH|].
    intros r st2 (-> & Hc2 & Hlog2 & Hd2 & Hw2).
    rewrite Hc2, Hc, Hlog2, Hd2, Hw2, <- app_assoc. done.
Qed.

Lemma renderChart_spec props tabName chartParent chart st :
  wp (renderChart props tabName chartParent chart (chartTitleOf chartParent))
     (λ r st',
        match drawn (rendering chart) with
        | inl e =>
            r = Thrown e ∧ contents (pdf st') = contents (pdf st)
            ∧ console st' = console st
        | inr (canvas, data) =>
            r = Returned tt
            ∧ contents (pdf st')
              = contents (pdf st)
                ++ tail (chartBlocks props tabName (chartParent, chart))
            ∧ console st'
              = console st
                ++ insightsLog props (service chart) (chartTitleOf chartParent) tabName
        end
        ∧ world st' = world st)
     st.
Proof.
  unfold renderChart, chartBlocks, drawn, captured. wp_step.
  destruct (captureChart_frame chartParent chart st) as (shown & Hcapture).
  eapply wp_run; [exact Hcapture|].
  destruct (rendering chart) as [e|canvas]; [done|].
  wp_steps. destruct (dataURL canvas) as [e|data]; [done|].
  destruct (Pdf.imageError data "PNG") as [e|] eqn:Hdec; [by wp_steps|].
  wp_steps.
  all: eapply wp_run; [apply generateAIInsights_spec|]; wp_steps.
  all: eapply wp_weaken; [apply drawInsights_spec|].
  all: intros r st1 (-> & Hc & Hlog & Hd & Hw); wp_steps.
  all: pdf_simpl; rewrite Hc, Hlog, Hw; pdf_simpl.
  all: cbn [tail]; rewrite <- !app_assoc; done.
Qed.

Lemma processChart_spec props tabName chart st :
  wp (processChart props tabName chart)
     (λ r st',
        r = Returned tt
        ∧ (∀ rest,
             contents (pdf st')
             ++ flat_map (chartBlocks props tabName) (sectionsOf (processedCharts st') rest)
             = contents (pdf st)
               ++ flat_map (chartBlocks props tabName)
                    (sectionsOf (processedCharts st) (chart :: rest)))
        ∧ (∀ rest,
             console st'
             ++ flat_map (chartLog props tabName) (sectionsOf (processedCharts st') rest)
             = console st
               ++ flat_map (chartLog props tabName)
                    (sectionsOf (processedCharts st) (chart :: rest)))
        ∧ alerts st' = alerts st ∧ downloads st' = downloads st
        ∧ isExporting st' = isExporting st ∧ showDropdown st' = showDropdown st)
     st.
Proof.
  unfold processChart. cbn [sectionsOf].
  destruct (closest chart) as [chartParent|]; [|by wp_steps].
  wp_step. wp_step. destruct (decide _) as [Hseen|Hnew]; [by wp_steps|].
  destruct (hasKPIClass chartParent); [by wp_steps|].
  wp_steps.
  all: eapply wp_weaken; [apply renderChart_spec|].
  all: intros r st1 [Hr Hw]; cbn [flat_map chartBlocks chartLog] in *.
  all: destruct (drawn (rendering chart)) as [e|[canvas data]].
  all: destruct Hr as (-> & Hc & Hlog).
  all: wp_steps; unfold world in Hw; machine_simpl.
  all: injection Hw as Ha Hexp Hshow Hcount Hproc Hdl.
  all: rewrite ?Hc, ?Hlog, Hproc; pdf_simpl; cbn [tail].
  all: repeat split; try done; intros rest; rewrite <- ?app_assoc; try done.
  all: f_equal; simpl; rewrite <- ?app_assoc; done.
Qed.

Lemma processCharts_spec props tabName charts st :
  wp (Js.forOf charts (processChart props tabName))
     (λ r st',
        r = Returned tt
        ∧ contents (pdf st')
          = contents (pdf st)
            ++ flat_map (chartBlocks props tabName) (sectionsOf (processedCharts st) charts)
        ∧ console st'
          = console st
            ++ flat_map (chartLog props tabName) (sectionsOf (processedCharts st) charts)
        ∧ alerts st' = alerts st ∧ downloads st' = downloads st
        ∧ isExporting st' = isExporting st ∧ showDropdown st' = showDropdown st)
     st.
Proof.
  revert st. induction charts as [|chart rest IH]; intros st; cbn [Js.forOf].
  - apply wp_ret. simpl. by rewrite !app_nil_r.
  - apply wp_bind. eapply wp_weaken; [apply processChart_spec|].
    intros r st1 (-> & Hc & Hlog & Ha & Hd & He & Hs).
    eapply wp_weaken; [apply IH|].
    intros r st2 (-> & Hc2 & Hlog2 & Ha2 & Hd2 & He2 & Hs2).
    rewrite Hc2, Hlog2, Hc, Hlog, Ha2, Hd2, He2, Hs2. done.
Qed.

Lemma drawTitleBlock_spec props host tabName st :
  pdf st = Pdf.blank →
  wp (drawTitleBlock props host tabName)
     (λ r st',
        r = Returned tt
        ∧ contents (pdf st') = titleBlocks props host tabName
        ∧ console st' = console st ∧ display st' = display st ∧ world st' = world st)
     st.
Proof.
  intros Hblank. unfold drawTitleBlock, titleBlocks.
  wp_steps; rewrite Hblank; pdf_simpl;
    match goal with Hb : _ && _ = _ |- _ => rewrite Hb end; done.
Qed.

Lemma exportCurrentPanel_spec props host page st :
  wp (exportCurrentPanel props host page)
     (λ r st',
        r = Returned tt
        ∧ isExporting st' = false ∧ showDropdown st' = false
        ∧ match List.find isDisplayed (containers page) with
          | None =>
              pdf st' = pdf st
              ∧ console st' = console st
              ∧ downloads st' = downloads st
              ∧ alerts st'
                = alerts st
                  ++ ["No active panel found. Please make sure you are viewing a tab with charts."]
          | Some activeContainer =>
              let tabName := tabNameOf page in
              let sections := sectionsOf ∅ (charts activeContainer) in
              contents (pdf st')
              = titleBlocks props host tabName
                ++ flat_map (chartBlocks props tabName) sections
              ∧ console st'
                = console st ++ flat_map (chartLog props tabName) sections
                  ++ match saveError host with
                     | Some e => [ConsoleError "Export failed:" (Some e)]
                     | None => []
                     end
              ∧ match saveError host with
                | None =>
                    downloads st' = downloads st ++ [(panelName host tabName, pdf st')]
                    ∧ alerts st' = alerts st
                | Some e =>
                    downloads st' = downloads st
                    ∧ alerts st' = alerts st ++ ["Failed to export report. Please try again."]
                end
          end)
     st.
Proof.
  unfold exportCurrentPanel. wp_step. wp_step. wp_step. wp_step.
  destruct (List.find isDisplayed (containers page)) as [activeContainer|];
    [|by wp_steps].
  wp_steps.
  eapply wp_weaken; [by apply drawTitleBlock_spec|].
  intros r st1 (-> & Hc & Hlog & Hd & Hw). wp_steps.
  eapply wp_weaken; [apply processCharts_spec|].
  intros r st2 (-> & Hc2 & Hlog2 & Ha2 & Hd2 & He2 & Hs2).
  unfold world in Hw. machine_simpl. injection Hw as Ha1 He1 Hs1 Hn1 Hp1 Hd1.
  rewrite Hc in Hc2. rewrite Hlog in Hlog2. rewrite Ha1 in Ha2. rewrite Hd1 in Hd2.
  wp_steps. destruct (saveError host) as [e|]; wp_steps.
  all: rewrite Hc2, Hlog2, Ha2, Hd2, <- ?app_assoc, ?app_nil_r; done.
Qed.

Lemma insightLineBlocks_marks line : omap markOf (insightLineBlocks line) = [].
Proof.
  unfold insightLineBlocks. destruct (JsString.isEmpty _); [done|].
  destruct (isSectionHeader _); [done|].
  induction (Pdf.splitTextToSize _ _ _) as [|textLine rest IH]; [done|]. exact IH.
Qed.

Lemma chartBlocks_marks props tabName section :
  omap markOf (chartBlocks props tabName section) = panelMarks section.
Proof.
  destruct section as [chartParent chart]. unfold chartBlocks, panelMarks. cbn [fst snd].
  destruct (drawn (rendering chart)) as [e|[canvas data]]; [done|].
  match goal with
  | |- omap markOf (?a :: ?l1 ++ ?l2 ++ ?l3) = _ =>
      change (omap markOf ([a] ++ l1 ++ l2 ++ l3) = [Heading (chartTitleOf chartParent)]
                ++ [Picture data] ++ [] ++ [])
  end.
  rewrite !omap_app. unfold insightsBlocks. rewrite omap_flat_map.
  by rewrite (flat_map_nil _ _ insightLineBlocks_marks).
Qed.

Lemma titleBlocks_marks props host tabName : omap markOf (titleBlocks props host tabName) = [].
Proof. unfold titleBlocks. by destruct (_ && _). Qed.

Lemma failureLog_chartLog props tabName section :
  sublist (PanelSpec.failureLog section) (chartLog props tabName section).
Proof.
  destruct section as [chartParent chart]. unfold PanelSpec.failureLog, chartLog. cbn [fst snd].
  destruct (drawn (rendering chart)); [done|apply sublist_nil_l].
Qed.

Lemma exportCurrentPanel_marks props host page st :
  ∃ st',
    exportCurrentPanel props host page st = (Returned tt, st')
    ∧ match List.find isDisplayed (containers page) with
      | None => pdf st' = pdf st
      | Some activeContainer =>
          let sections := sectionsOf ∅ (charts activeContainer) in
          marks (pdf st') = flat_map panelMarks sections
          ∧ sublist (flat_map PanelSpec.failureLog sections) (console st')
      end.
Proof.
  destruct (wp_elim _ _ _ (exportCurrentPanel_spec props host page st))
    as (r & st' & Hrun & -> & _ & _ & Hres).
  exists st'. split; [done|].
  destruct (List.find isDisplayed (containers page)) as [activeContainer|].
  - destruct Hres as (Hc & Hlog & _). split.
    + unfold marks. rewrite Hc, omap_app, titleBlocks_marks, omap_flat_map.
      apply flat_map_ext_eq, chartBlocks_marks.
    + rewrite Hlog. apply sublist_inserts_l, sublist_inserts_r, sublist_flat_map.
      apply failureLog_chartLog.
  - by destruct Hres as (Hpdf & _).
Qed.

Lemma insightsBlocks_pictures insights : List.filter isPicture (insightsBlocks insights) = [].
Proof.
  unfold insightsBlocks.
  induction (JsString.split _ _) as [|line rest IH]; [done|].
  cbn [flat_map]. rewrite List.filter_app, IH, app_nil_r.
  unfold insightLineBlocks. destruct (JsString.isEmpty _); [done|].
  destruct (isSectionHeader _); [done|].
  by induction (Pdf.splitTextToSize _ _ _).
Qed.

Lemma chartBlocks_limit_height props tabName sections :
  30 < Pdf.pageWidth →
  Forall2 (λ b canvas,
             widthOf b = Pdf.pageWidth - 30
             ∧ heightOf b = JsNumber.min (Js.scaledHeight canvas (Pdf.pageWidth - 30)) 120
             ∧ (Js.scaledHeight canvas (Pdf.pageWidth - 30) <= 120 →
                ratioOf b == pixelRatio canvas))
    (List.filter isPicture (flat_map (chartBlocks props tabName) sections))
    (omap panelCanvas sections).
Proof.
  intros Hwide. induction sections as [|[chartParent chart] rest IH]; [constructor|].
  cbn [flat_map]. rewrite List.filter_app.
  rewrite omap_cons_app.
  apply Forall2_app; [|exact IH].
  unfold chartBlocks, panelCanvas. cbn [fst snd].
  destruct (drawn (rendering chart)) as [e|[canvas data]]; [constructor|].
  match goal with
  | |- Forall2 _ (List.filter isPicture (?a :: ?l1 ++ ?l2 ++ ?l3)) _ =>
      change (List.filter isPicture (a :: l1 ++ l2 ++ l3))
        with (List.filter isPicture ([a] ++ l1 ++ l2 ++ l3))
  end.
  rewrite !List.filter_app, insightsBlocks_pictures. simpl.
  repeat constructor. intros Hfits. unfold ratioOf. cbn [widthOf heightOf].
  unfold JsNumber.min. rewrite Q.min_l by done.
  apply scaledHeight_ratio. lra.
Qed.

Lemma titleBlocks_pictures props host tabName :
  List.filter isPicture (titleBlocks props host tabName) = [].
Proof. unfold titleBlocks. by destruct (_ && _). Qed.

Lemma exportCurrentPanel_pictures props host page st :
  30 < Pdf.pageWidth →
  ∃ st',
    exportCurrentPanel props host page st = (Returned tt, st')
    ∧ match List.find isDisplayed (containers page) with
      | None => pdf st' = pdf st
      | Some activeContainer =>
          Forall2 (λ b canvas,
                     widthOf b = Pdf.pageWidth - 30
                     ∧ heightOf b
                       = JsNumber.min (Js.scaledHeight canvas (Pdf.pageWidth - 30)) 120
                     ∧ (Js.scaledHeight canvas (Pdf.pageWidth - 30) <= 120 →
                        ratioOf b == pixelRatio canvas))
            (pictures (pdf st'))
            (omap panelCanvas (sectionsOf ∅ (charts activeContainer)))
      end.
Proof.
  intros Hwide.
  destruct (wp_elim _ _ _ (exportCurrentPanel_spec props host page st))
    as (r & st' & Hrun & -> & _ & _ & Hres).
  exists st'. split; [done|].
  destruct (List.find isDisplayed (containers page)) as [activeContainer|].
  - destruct Hres as (Hc & _). unfold pictures.
    rewrite Hc, List.filter_app, titleBlocks_pictures.
    by apply chartBlocks_limit_height.
  - by destruct Hres as (Hpdf & _).
Qed.

(** *** Where the blocks land *)

Ltac bounds :=
  repeat match goal with
         | Hg : JsNumber.gt _ _ = false |- _ => apply gt_false in Hg
         | Hg : JsNumber.gt _ _ = true |- _ => apply gt_true in Hg
         end;
  machine_simpl; pdf_simpl;
  repeat match goal with
         | |- _ ∧ _ => split
         | |- Forall _ (_ ++ _) => apply Forall_app
         | |- Forall _ [_] => apply Forall_singleton
         | |- Forall _ [] => constructor
         | |- withinPage _ _ => unfold withinPage; cbn [fst snd]
         | |- Qeq_bool _ _ = true → _ => intros ?
         end;
  try done;
  try match goal with Hs : Qeq_bool _ _ = true |- _ => by vm_compute in Hs end;
  try match goal with
      | Hs : Qeq_bool _ _ = true, Hf : Pdf.font _ = _ |- _ =>
          rewrite Hf in Hs; by vm_compute in Hs
      end;
  try lra.

Lemma drawTextLine_bounds textLine st :
  190 <= Pdf.pageHeight →
  wellPlaced Pdf.pageHeight (pdf st) → Pdf.font (pdf st) = bodyFont →
  wp (drawTextLine textLine)
     (λ r st', r = Returned tt ∧ wellPlaced Pdf.pageHeight (pdf st')
               ∧ Pdf.font (pdf st') = bodyFont
               ∧ yPosition st' <= Pdf.pageHeight - 10)
     st.
Proof.
  intros Htall Hinv Hfont. unfold drawTextLine, wellPlaced in *.
  wp_steps; bounds.
Qed.

Lemma drawTextLines_bounds wrappedText st :
  190 <= Pdf.pageHeight →
  wellPlaced Pdf.pageHeight (pdf st) → Pdf.font (pdf st) = bodyFont →
  yPosition st <= Pdf.pageHeight - 10 →
  wp (Js.forOf wrappedText drawTextLine)
     (λ r st', r = Returned tt ∧ wellPlaced Pdf.pageHeight (pdf st')
               ∧ yPosition st' <= Pdf.pageHeight - 10)
     st.
Proof.
  intros Htall. revert st.
  induction wrappedText as [|textLine rest IH]; intros st Hinv Hfont Hy; cbn [Js.forOf].
  - by apply wp_ret.
  - apply wp_bind. eapply wp_weaken; [by apply drawTextLine_bounds|].
    intros r st1 (-> & Hinv1 & Hfont1 & Hy1). by apply IH.
Qed.

Lemma drawInsightLine_bounds line st :
  190 <= Pdf.pageHeight →
  wellPlaced Pdf.pageHeight (pdf st) →
  wp (drawInsightLine line)
     (λ r st', r = Returned tt ∧ wellPlaced Pdf.pageHeight (pdf st')
               ∧ yPosition st' <= Pdf.pageHeight - 7)
     st.
Proof.
  intros Htall Hinv. unfold drawInsightLine, wellPlaced in *.
  wp_step. wp_step. wp_step.
  all: destruct (JsString.isEmpty _); [wp_steps; bounds|].
  all: destruct (isSectionHeader _); [wp_steps; bounds|].
  all: wp_steps.
  all: eapply wp_weaken; [apply drawTextLines_bounds; unfold wellPlaced; bounds|].
  all: intros r st1 (-> & Hinv1 & Hy1); wp_steps; unfold wellPlaced in *; bounds.
Qed.

Lemma drawInsights_bounds insights st :
  190 <= Pdf.pageHeight →
  wellPlaced Pdf.pageHeight (pdf st) →
  yPosition st <= Pdf.pageHeight - 7 →
  wp (drawInsights insights)
     (λ r st', r = Returned tt ∧ wellPlaced Pdf.pageHeight (pdf st')
               ∧ yPosition st' <= Pdf.pageHeight - 7)
     st.
Proof.
  intros Htall. unfold drawInsights.
  generalize (JsString.split "010" (cleanInsights insights)). intros lines. revert st.
  induction lines as [|line rest IH]; intros st Hinv Hy; cbn [Js.forOf].
  - by apply wp_ret.
  - apply wp_bind. eapply wp_weaken; [by apply drawInsightLine_bounds|].
    intros r st1 (-> & Hinv1 & Hy1). by apply IH.
Qed.

Lemma renderChart_bounds props tabName chartParent chart chartTitle st :
  190 <= Pdf.pageHeight →
  wellPlaced Pdf.pageHeight (pdf st) →
  wp (renderChart props tabName chartParent chart chartTitle)
     (λ r st', wellPlaced Pdf.pageHeight (pdf st'))
     st.
Proof.
  intros Htall Hinv. unfold renderChart. wp_step.
  destruct (captureChart_frame chartParent chart st) as (shown & Hcapture).
  eapply wp_run; [exact Hcapture|].
  destruct (rendering chart) as [e|canvas]; [done|].
  wp_steps. destruct (dataURL canvas) as [e|data]; [done|].
  pose proof (min_limit (Js.scaledHeight canvas (Pdf.pageWidth - 30)) 120) as Hmin.
  destruct (Pdf.imageError data "PNG") as [e|] eqn:Hdec.
  { wp_steps; unfold wellPlaced in *; bounds. }
  wp_steps.
  all: eapply wp_run; [apply generateAIInsights_spec|]; wp_steps.
  all: eapply wp_weaken; [apply drawInsights_bounds; unfold wellPlaced in *; bounds|].
  all: intros r st1 (-> & Hinv1 & Hy1); wp_steps; unfold wellPlaced in *; bounds.
Qed.

Lemma processChart_bounds props tabName chart st :
  190 <= Pdf.pageHeight →
  wellPlaced Pdf.pageHeight (pdf st) →
  wp (processChart props tabName chart)
     (λ r st', r = Returned tt ∧ wellPlaced Pdf.pageHeight (pdf st'))
     st.
Proof.
  intros Htall Hinv. unfold processChart.
  destruct (closest chart) as [chartParent|]; [|by wp_steps].
  wp_step. wp_step. destruct (decide _); [by wp_steps|].
  destruct (hasKPIClass chartParent); [by wp_steps|].
  wp_steps.
  all: eapply wp_weaken; [apply renderChart_bounds; unfold wellPlaced in *; bounds|].
  all: intros [[]|e] st1 Hinv1; wp_steps; done.
Qed.

Lemma exportCurrentPanel_bounds props host page st :
  190 <= Pdf.pageHeight →
  ∃ st',
    exportCurrentPanel props host page st = (Returned tt, st')
    ∧ match List.find isDisplayed (containers page) with
      | None => pdf st' = pdf st
      | Some _ => wellPlaced Pdf.pageHeight (pdf st')
      end.
Proof.
  intros Htall.
  destruct (wp_elim _ _ _ (exportCurrentPanel_spec props host page st))
    as (r & st' & Hrun & -> & _ & _ & Hnone).
  exists st'. split; [done|].
  destruct (List.find isDisplayed (containers page)) as [activeContainer|] eqn:Hfind;
    [|by destruct Hnone].
  clear Hnone.
  assert (wp (exportCurrentPanel props host page)
            (λ _ st', wellPlaced Pdf.pageHeight (pdf st')) st) as Hwp.
  2:{ unfold wp in Hwp. by rewrite Hrun in Hwp. }
  unfold exportCurrentPanel. rewrite Hfind. unfold drawTitleBlock.
  wp_step. wp_step. wp_step. wp_step. wp_steps.
  all: eapply wp_weaken;
    [apply (wp_forOf (λ _ st, wellPlaced Pdf.pageHeight (pdf st)));
       [unfold wellPlaced; bounds
       |intros chart rest st1 Hinv1; by apply processChart_bounds]|].
  all: intros r st2 (-> & Hinv2); wp_steps.
  all: destruct (saveError host); wp_steps; done.
Qed.

(** *** Two runs on the same sections *)







End PanelProofs.

(** A bitmap that jsPDF cannot decode makes [addImage] throw inside the
    [try] of the section. [generatePDFReport] has drawn the heading by
    then: it adds the note, counts nothing and logs the error.
    [exportCurrentPanel] leaves the heading alone, logs the error and goes
    on with the next chart. *)
Lemma undecodable_bitmap_is_caught :
  (∃ st',
     @ExportUtils.generatePDFReport a4 noon Sample.garbledPage "My Report"
       [ReportSpec.volume] None idle = (Returned (ExportUtils.Success 0), st')
     ∧ marks (pdf st')
       = [Heading "Volume"; Note "[Chart could not be captured: Volume]"]
     ∧ console st'
       = [ConsoleError "Error adding section Volume:"
            (Some "Incomplete or corrupt PNG file")])
  ∧ (∃ st',
       @ExportReport.exportCurrentPanel a4 Sample.noDates noon
         (Sample.panel [Sample.garbled; Sample.flat]) idle = (Returned tt, st')
       ∧ marks (pdf st') = [Heading "Risk"; Heading "Volume"; Picture onePixel]
       ∧ console st'
         = [ConsoleError "Failed to capture chart:"
              (Some "Incomplete or corrupt PNG file")]).
Proof. split; eexists; vm_compute; done. Qed.

(** C1. A capture that throws, in [html2canvas], in [toDataURL] or in
    [addImage], is caught and logged, and the export goes on: both
    exports return normally whatever the captures do; the document holds,
    in the order of the list, the heading of every section of the panel
    (resp. the heading, the note, or both, of every rendered section of
    the report) and the picture of every section whose bitmap was drawn,
    the sections after a failed one included; and the console holds the
    error of every failed capture, in the same order. *)
Theorem capture_failure_is_not_fatal (lib : Pdf.JsPDF) :
  (∀ props host page st,
     ∃ st',
       ExportReport.exportCurrentPanel props host page st = (Returned tt, st')
       ∧ match List.find ExportReport.isDisplayed (ExportReport.containers page) with
         | None => pdf st' = pdf st
         | Some activeContainer =>
             let sections := PanelSpec.sectionsOf ∅ (ExportReport.charts activeContainer) in
             marks (pdf st') = flat_map PanelSpec.panelMarks sections
             ∧ sublist (flat_map PanelSpec.failureLog sections) (console st')
         end)
  ∧ (∀ host document title sections metadata st,
       ∃ result st',
         ExportUtils.generatePDFReport host document title sections metadata st
         = (Returned result, st')
         ∧ marks (pdf st') = flat_map (ReportSpec.reportMarks document) sections
         ∧ sublist (flat_map (ReportSpec.failureLog document) sections) (console st')).
Proof.
  split.
  - intros. apply exportCurrentPanel_marks.
  - intros. apply generatePDFReport_marks.
Qed.


(** C5, as stated, fails: when the service cannot be reached the text
    handed back is not "analysis unavailable". *)
Lemma fallback_is_not_analysis_unavailable :
  ∃ st',
    ExportReport.generateAIInsights Sample.noDates Sample.offline "Volume" "Overview" idle
    = (Returned "Unable to generate insights at this time.", st')
    ∧ "Unable to generate insights at this time." ≠ "analysis unavailable".
Proof. eexists. split; [reflexivity|discriminate]. Qed.

(** C5, amended. When the request for insights fails,
    [generateAIInsights] logs the error and returns the fixed text
    "Unable to generate insights at this time." instead of throwing; when
    the service answers without insights it returns "Analysis unavailable
    for this chart." and logs nothing. In an export of the current panel,
    a section whose picture is drawn and whose request fails gets the
    first text under its picture, the error is in the console, and the
    blocks of the sections that follow it are drawn after it. *)
Theorem insight_failure_yields_fallback (lib : Pdf.JsPDF) :
  (∀ props service chartTitle tabName e st,
     service (PanelSpec.requestFor props chartTitle tabName) = inl e →
     ExportReport.generateAIInsights props service chartTitle tabName st
     = (Returned "Unable to generate insights at this time.",
        Js.withConsole
          (λ l, l ++ [ConsoleError "Failed to generate insights:" (Some e)]) st))
  ∧ (∀ props service chartTitle tabName response st,
       service (PanelSpec.requestFor props chartTitle tabName) = inr response →
       JsString.truthy (ExportReport.insights response) = false →
       ExportReport.generateAIInsights props service chartTitle tabName st
       = (Returned "Analysis unavailable for this chart.", st))
  ∧ (∀ props host page activeContainer before chartParent chart following
       canvas data e st,
       List.find ExportReport.isDisplayed (ExportReport.containers page)
       = Some activeContainer →
       PanelSpec.sectionsOf ∅ (ExportReport.charts activeContainer)
       = before ++ (chartParent, chart) :: following →
       drawn (ExportReport.rendering chart) = inr (canvas, data) →
       ExportReport.service chart
         (PanelSpec.requestFor props (ExportReport.chartTitleOf chartParent)
            (ExportReport.tabNameOf page)) = inl e →
       ∃ st',
         ExportReport.exportCurrentPanel props host page st = (Returned tt, st')
         ∧ contents (pdf st')
           = PanelSpec.titleBlocks props host (ExportReport.tabNameOf page)
             ++ flat_map (PanelSpec.chartBlocks props (ExportReport.tabNameOf page)) before
             ++ [ TextBlock (ExportReport.chartTitleOf chartParent) 15 Pdf.AlignLeft
                    PanelSpec.headingFont ExportReport.teal;
                  ImageBlock data "PNG" 15 (Pdf.pageWidth - 30)
                    (JsNumber.min (Js.scaledHeight canvas (Pdf.pageWidth - 30)) 120);
                  RectBlock 10 (Pdf.pageWidth - 20) 5 "F" (250, 250, 250)%Z;
                  TextBlock "KEY INSIGHTS & ANALYSIS" 15 Pdf.AlignLeft
                    PanelSpec.insightsTitleFont ExportReport.teal ]
             ++ PanelSpec.insightsBlocks "Unable to generate insights at this time."
             ++ [ LineBlock 15 (Pdf.pageWidth - 15) JsNumber.three_tenths
                    (230, 230, 230)%Z ]
             ++ flat_map (PanelSpec.chartBlocks props (ExportReport.tabNameOf page))
                  following
         ∧ ConsoleError "Failed to generate insights:" (Some e) ∈ console st').
Proof.
  split; [|split].
  - intros props service chartTitle tabName e st Hfail.
    rewrite generateAIInsights_spec.
    unfold PanelSpec.insightsOf, PanelSpec.insightsLog. by rewrite Hfail.
  - intros props service chartTitle tabName response st Hanswer Hnone.
    unfold ExportReport.generateAIInsights, Js.tryCatch, ExportReport.axiosPost,
      mbind, JS_bind.
    unfold PanelSpec.requestFor in Hanswer. rewrite Hanswer. cbn.
    by destruct (ExportReport.insights response) as [[|c s]|].
  - intros props host page activeContainer before chartParent chart following
      canvas data e st Hfind Hsections Hdrawn Hfail.
    destruct (wp_elim _ _ _ (exportCurrentPanel_spec props host page st))
      as (r & st' & Hrun & -> & _ & _ & Hres).
    rewrite Hfind in Hres. cbv zeta in Hres. rewrite Hsections in Hres.
    destruct Hres as (Hcontents & Hlog & _).
    exists st'. split; [done|]. split.
    + rewrite Hcontents, flat_map_app. cbn [flat_map PanelSpec.chartBlocks].
      rewrite Hdrawn. unfold PanelSpec.insightsOf. rewrite Hfail.
      cbn [app]. rewrite <- ?app_assoc. done.
    + rewrite Hlog, flat_map_app. cbn [flat_map PanelSpec.chartLog].
      rewrite Hdrawn. unfold PanelSpec.insightsLog. rewrite Hfail.
      rewrite !elem_of_app. right. left. right. left. by left.
Qed.

(** A service that cannot be reached, a service that answers without
    insights, and a panel whose first chart cannot be explained. *)
Lemma insight_failure_witness :
  (Sample.offline (PanelSpec.requestFor Sample.noDates "Volume" "Overview")
   = inl "Network Error"
   ∧ ExportReport.generateAIInsights Sample.noDates Sample.offline "Volume" "Overview" idle
     = (Returned "Unable to generate insights at this time.",
        Js.withConsole
          (λ l, l ++ [ConsoleError "Failed to generate insights:" (Some "Network Error")])
          idle))
  ∧ (Sample.silent (PanelSpec.requestFor Sample.noDates "Volume" "Overview")
     = inr {| ExportReport.insights := None |}
     ∧ ExportReport.generateAIInsights Sample.noDates Sample.silent "Volume" "Overview" idle
       = (Returned "Analysis unavailable for this chart.", idle))
  ∧ (@drawn a4 (ExportReport.rendering Sample.unexplained)
     = inr (Sample.bitmap 1800 300, onePixel)
     ∧ ∃ st',
         @ExportReport.exportCurrentPanel a4 Sample.noDates noon
           (Sample.panel [Sample.unexplained; Sample.square]) idle = (Returned tt, st')
         ∧ contents (pdf st')
           = @PanelSpec.titleBlocks a4 Sample.noDates noon "Overview"
             ++ [ TextBlock "Volume" 15 Pdf.AlignLeft PanelSpec.headingFont
                    ExportReport.teal;
                  ImageBlock onePixel "PNG" 15 (@Pdf.pageWidth a4 - 30)
                    (JsNumber.min
                       (Js.scaledHeight (Sample.bitmap 1800 300) (@Pdf.pageWidth a4 - 30))
                       120);
                  RectBlock 10 (@Pdf.pageWidth a4 - 20) 5 "F" (250, 250, 250)%Z;
                  TextBlock "KEY INSIGHTS & ANALYSIS" 15 Pdf.AlignLeft
                    PanelSpec.insightsTitleFont ExportReport.teal ]
             ++ @PanelSpec.insightsBlocks a4 "Unable to generate insights at this time."
             ++ [ LineBlock 15 (@Pdf.pageWidth a4 - 15) JsNumber.three_tenths
                    (230, 230, 230)%Z ]
             ++ flat_map (@PanelSpec.chartBlocks a4 Sample.noDates "Overview")
                  [(Sample.card 2 "Sentiment", Sample.square)]
         ∧ ConsoleError "Failed to generate insights:" (Some "Network Error")
           ∈ console st').
Proof.
  split; [|split].
  - split; [reflexivity|].
    apply (proj1 (insight_failure_yields_fallback a4)). reflexivity.
  - split; [reflexivity|].
    apply (proj1 (proj2 (insight_failure_yields_fallback a4)) Sample.noDates Sample.silent
             "Volume" "Overview" {| ExportReport.insights := None |} idle);
      reflexivity.
  - split; [reflexivity|].
    apply (proj2 (proj2 (insight_failure_yields_fallback a4)) Sample.noDates noon
             (Sample.panel [Sample.unexplained; Sample.square])
             {| ExportReport.boundingRect := {| rectWidth := 1200; rectHeight := 800 |};
                ExportReport.charts := [Sample.unexplained; Sample.square] |}
             [] (Sample.card 1 "Volume") Sample.unexplained
             [(Sample.card 2 "Sentiment", Sample.square)]
             (Sample.bitmap 1800 300) onePixel "Network Error" idle);
      vm_compute; reflexivity.
Defined.

(** C6 fails on the code. The export button of a card (element 1, shown
    before the export) is hidden before the chart is captured; when
    [html2canvas] throws, the capture step ends with the button still
    hidden, and so does the whole export, which returns normally. *)
Theorem export_button_stays_hidden_when_capture_throws :
  default EmptyString (display idle !! 1%nat) = EmptyString
  ∧ (ExportReport.captureChart (Sample.card 1 "Volume") Sample.broken idle).1
    = Thrown "capture failed"
  ∧ default EmptyString
      (display (after (ExportReport.captureChart (Sample.card 1 "Volume") Sample.broken) idle)
       !! 1%nat) = "none"
  ∧ (@ExportReport.exportCurrentPanel a4 Sample.noDates noon (Sample.panel [Sample.broken])
       idle).1 = Returned tt
  ∧ default EmptyString
      (display (after (@ExportReport.exportCurrentPanel a4 Sample.noDates noon
                         (Sample.panel [Sample.broken])) idle)
       !! 1%nat) = "none".
Proof. vm_compute. done. Qed.

(** C4, as stated, fails: with no section at all [generatePDFReport]
    still hands a file to the browser and shows no message, and so does
    [exportCurrentPanel] on a displayed panel without charts. *)
Lemma file_saved_without_sections :
  (∃ st',
     @ExportUtils.generatePDFReport a4 noon ∅ "My Report" [] None idle
     = (Returned (ExportUtils.Success 0), st')
     ∧ map fst (downloads st') = ["My_Report_2025-01-01.pdf"]
     ∧ alerts st' = [])
  ∧ (∃ st',
       @ExportReport.exportCurrentPanel a4 Sample.noDates noon (Sample.panel []) idle
       = (Returned tt, st')
       ∧ map fst (downloads st') = ["AI_Regulation_Overview_2025-01-01.pdf"]
       ∧ alerts st' = []).
Proof. split; eexists; vm_compute; done. Qed.

(** C4, amended. [exportCurrentPanel] alerts "No active panel found..."
    and saves nothing when no container is displayed. When a container is
    displayed but holds no section, it saves a report made of the title
    block alone and shows no message. [generatePDFReport], when no section
    is captured, writes "No charts available to export." into the document
    and saves it all the same, returning success with a count of zero. *)
Theorem export_without_sections (lib : Pdf.JsPDF) :
  (∀ props host page st,
     List.find ExportReport.isDisplayed (ExportReport.containers page) = None →
     ∃ st',
       ExportReport.exportCurrentPanel props host page st = (Returned tt, st')
       ∧ downloads st' = downloads st
       ∧ alerts st'
         = alerts st
           ++ ["No active panel found. Please make sure you are viewing a tab with charts."])
  ∧ (∀ props host page activeContainer st,
       List.find ExportReport.isDisplayed (ExportReport.containers page) = Some activeContainer →
       PanelSpec.sectionsOf ∅ (ExportReport.charts activeContainer) = [] →
       saveError host = None →
       ∃ st',
         ExportReport.exportCurrentPanel props host page st = (Returned tt, st')
         ∧ downloads st'
           = downloads st ++ [(PanelSpec.panelName host (ExportReport.tabNameOf page), pdf st')]
         ∧ contents (pdf st') = PanelSpec.titleBlocks props host (ExportReport.tabNameOf page)
         ∧ alerts st' = alerts st)
  ∧ (∀ host document title sections metadata st,
       omap (ReportSpec.capturedCanvas document) sections = [] →
       saveError host = None →
       ∃ st' font,
         ExportUtils.generatePDFReport host document title sections metadata st
         = (Returned (ExportUtils.Success 0), st')
         ∧ downloads st' = downloads st ++ [(ReportSpec.reportName host title, pdf st')]
         ∧ contents (pdf st')
           = ReportSpec.headerBlocks host title metadata
             ++ flat_map (ReportSpec.sectionBlocks document) sections
             ++ ReportSpec.noChartsBlocks font
         ∧ alerts st' = alerts st).
Proof.
  split; [|split].
  - intros props host page st Hnone.
    destruct (wp_elim _ _ _ (exportCurrentPanel_spec props host page st))
      as (r & st' & Hrun & -> & _ & _ & Hres).
    rewrite Hnone in Hres. destruct Hres as (_ & _ & Hd & Ha). by exists st'.
  - intros props host page activeContainer st Hsome Hnil Hsave.
    destruct (wp_elim _ _ _ (exportCurrentPanel_spec props host page st))
      as (r & st' & Hrun & -> & _ & _ & Hres).
    rewrite Hsome in Hres. cbv zeta in Hres. rewrite Hnil, Hsave in Hres.
    destruct Hres as (Hc & _ & Hd & Ha). exists st'.
    rewrite Hc. simpl. by rewrite app_nil_r.
  - intros host document title sections metadata st Hnil Hsave.
    destruct (wp_elim _ _ _ (generatePDFReport_spec host document title sections metadata st))
      as (r & st' & Hrun & (font & _ & Hc) & _ & _ & Hres).
    rewrite Hsave in Hres. cbv zeta in Hc, Hres. rewrite Hnil in Hc, Hres.
    destruct Hres as (-> & Hd & Ha). by exists st', font.
Qed.

(** A page without a displayed container, a displayed panel without
    charts, and a report whose only section is not rendered. *)
Lemma export_without_sections_witness :
  (List.find ExportReport.isDisplayed (ExportReport.containers Sample.hiddenPanel) = None
   ∧ ∃ st',
       @ExportReport.exportCurrentPanel a4 Sample.noDates noon Sample.hiddenPanel idle
       = (Returned tt, st')
       ∧ downloads st' = downloads idle
       ∧ alerts st'
         = alerts idle
           ++ ["No active panel found. Please make sure you are viewing a tab with charts."])
  ∧ (saveError noon = None
     ∧ ∃ st',
         @ExportReport.exportCurrentPanel a4 Sample.noDates noon (Sample.panel []) idle
         = (Returned tt, st')
         ∧ downloads st'
           = downloads idle
             ++ [(PanelSpec.panelName noon (ExportReport.tabNameOf (Sample.panel [])),
                  pdf st')]
         ∧ contents (pdf st')
           = @PanelSpec.titleBlocks a4 Sample.noDates noon
               (ExportReport.tabNameOf (Sample.panel []))
         ∧ alerts st' = alerts idle)
  ∧ (omap (@ReportSpec.capturedCanvas a4 ∅) [ReportSpec.volume] = []
     ∧ saveError noon = None
     ∧ ∃ st' font,
         @ExportUtils.generatePDFReport a4 noon ∅ "My Report" [ReportSpec.volume] None idle
         = (Returned (ExportUtils.Success 0), st')
         ∧ downloads st' = downloads idle ++ [(ReportSpec.reportName noon "My Report", pdf st')]
         ∧ contents (pdf st')
           = @ReportSpec.headerBlocks a4 noon "My Report" None
             ++ flat_map (@ReportSpec.sectionBlocks a4 ∅) [ReportSpec.volume]
             ++ ReportSpec.noChartsBlocks font
         ∧ alerts st' = alerts idle).
Proof.
  split; [|split].
  - split; [reflexivity|].
    apply (proj1 (export_without_sections a4) Sample.noDates noon Sample.hiddenPanel idle).
    reflexivity.
  - split; [reflexivity|].
    apply (proj1 (proj2 (export_without_sections a4)) Sample.noDates noon (Sample.panel [])
             {| ExportReport.boundingRect := {| rectWidth := 1200; rectHeight := 800 |};
                ExportReport.charts := [] |} idle); reflexivity.
  - split; [reflexivity|]. split; [reflexivity|].
    apply (proj2 (proj2 (export_without_sections a4)) noon ∅ "My Report"
             [ReportSpec.volume] None idle); reflexivity.
Defined.

(** C8, as stated, fails: the picture of a square canvas is drawn as
    wide as the A4 page of jsPDF less 30mm (180.0016mm) and 120mm high by
    [exportCurrentPanel]. *)
Lemma square_chart_is_flattened :
  ∃ b,
    pictures (pdf (after (@ExportReport.exportCurrentPanel a4 Sample.noDates noon
                            (Sample.panel [Sample.square])) idle)) = [b]
    ∧ widthOf b == @Pdf.pageWidth a4 - 30 ∧ 180 < widthOf b ∧ heightOf b == 120
    ∧ pixelRatio (Sample.bitmap 1000 1000) == 1
    ∧ ¬ ratioOf b == pixelRatio (Sample.bitmap 1000 1000).
Proof.
  eexists. split; [vm_compute; reflexivity|].
  repeat split; try reflexivity. intros Heq. vm_compute in Heq. discriminate.
Qed.

(** C8, amended. [generatePDFReport] draws every bitmap that reaches the
    document (captured, read back and decoded by jsPDF) at the printable
    width (page width less 40mm) with a height over width equal, in exact
    arithmetic, to the pixel height over the pixel width of the canvas.
    [exportCurrentPanel] draws it at the page width less 30mm and at the
    height that keeps this ratio or 120mm, whichever is smaller: the
    ratio is kept when that height does not exceed 120mm. *)
Theorem pictures_scaled_to_page_width (lib : Pdf.JsPDF) :
  40 < Pdf.pageWidth →
  (∀ host document title sections metadata st,
     ∃ result st',
       ExportUtils.generatePDFReport host document title sections metadata st
       = (Returned result, st')
       ∧ Forall2 (λ b canvas,
                    widthOf b = Pdf.pageWidth - 40 ∧ ratioOf b == pixelRatio canvas)
           (pictures (pdf st')) (omap (ReportSpec.capturedCanvas document) sections))
  ∧ (∀ props host page st,
       ∃ st',
         ExportReport.exportCurrentPanel props host page st = (Returned tt, st')
         ∧ match List.find ExportReport.isDisplayed (ExportReport.containers page) with
           | None => pdf st' = pdf st
           | Some activeContainer =>
               Forall2 (λ b canvas,
                          widthOf b = Pdf.pageWidth - 30
                          ∧ heightOf b
                            = JsNumber.min (Js.scaledHeight canvas (Pdf.pageWidth - 30)) 120
                          ∧ (Js.scaledHeight canvas (Pdf.pageWidth - 30) <= 120 →
                             ratioOf b == pixelRatio canvas))
                 (pictures (pdf st'))
                 (omap PanelSpec.panelCanvas
                    (PanelSpec.sectionsOf ∅ (ExportReport.charts activeContainer)))
           end).
Proof.
  intros Hwide. split.
  - intros. by apply generatePDFReport_pictures.
  - intros. apply exportCurrentPanel_pictures. lra.
Qed.

(** A report of one rendered section on an A4 page. *)
Lemma pictures_scaled_witness :
  40 < @Pdf.pageWidth a4
  ∧ (∃ result st',
       @ExportUtils.generatePDFReport a4 noon Sample.renderedPage "My Report"
         [ReportSpec.volume] None idle = (Returned result, st')
       ∧ Forall2 (λ b canvas,
                    widthOf b = @Pdf.pageWidth a4 - 40 ∧ ratioOf b == pixelRatio canvas)
           (pictures (pdf st'))
           (omap (@ReportSpec.capturedCanvas a4 Sample.renderedPage) [ReportSpec.volume])).
Proof.
  split; [reflexivity|].
  apply (proj1 (pictures_scaled_to_page_width a4 eq_refl)).
Defined.

(** C2, as stated, fails: the lines that start with a dash are drawn
    as they are, dash included, in the font of ordinary paragraphs. *)
Lemma bullets_are_drawn_with_their_dash :
  contents (pdf (after (@ExportReport.drawInsights a4 Sample.headerAndBullets) idle))
  = [ TextBlock "Header:" 15 Pdf.AlignLeft PanelSpec.headerFont PanelSpec.headerGrey;
      TextBlock "- bullet one" 15 Pdf.AlignLeft PanelSpec.bodyFont PanelSpec.bodyGrey;
      TextBlock "- bullet two" 15 Pdf.AlignLeft PanelSpec.bodyFont PanelSpec.bodyGrey ].
Proof. vm_compute. reflexivity. Qed.

(** C2, amended. The compositor removes every asterisk from the insight
    text, trims it and splits it at line feeds. A blank line draws
    nothing. A line that, trimmed, ends with a colon, is shorter than 50
    characters and holds no full stop is drawn whole (its colon included,
    once) as one bold 10pt block. Every other line, a line with a leading
    dash included, is handed unchanged to [splitTextToSize] and each piece
    is drawn as a 9.5pt block. So "Header:\n- bullet one\n- bullet two"
    gives one header block, then the pieces of "- bullet one", then those
    of "- bullet two". *)
Theorem insights_are_cleaned_and_reflowed (lib : Pdf.JsPDF) insights st :
  (∃ st',
     ExportReport.drawInsights insights st = (Returned tt, st')
     ∧ contents (pdf st') = contents (pdf st) ++ PanelSpec.insightsBlocks insights)
  ∧ Forall (λ line, JsString.includes "*" line = false)
      (JsString.split "010" (ExportReport.cleanInsights insights))
  ∧ (∀ line,
       PanelSpec.insightLineBlocks line
       = if JsString.isEmpty (JsString.trim line) then []
         else if ExportReport.isSectionHeader (JsString.trim line)
              then [TextBlock (JsString.trim line) 15 Pdf.AlignLeft
                      PanelSpec.headerFont PanelSpec.headerGrey]
              else map (λ textLine, TextBlock textLine 15 Pdf.AlignLeft
                                      PanelSpec.bodyFont PanelSpec.bodyGrey)
                       (Pdf.splitTextToSize PanelSpec.bodyFont (JsString.trim line)
                          (Pdf.pageWidth - 30)))
  ∧ PanelSpec.insightsBlocks Sample.headerAndBullets
    = TextBlock "Header:" 15 Pdf.AlignLeft PanelSpec.headerFont PanelSpec.headerGrey
      :: map (λ textLine, TextBlock textLine 15 Pdf.AlignLeft
                            PanelSpec.bodyFont PanelSpec.bodyGrey)
           (Pdf.splitTextToSize PanelSpec.bodyFont "- bullet one" (Pdf.pageWidth - 30)
            ++ Pdf.splitTextToSize PanelSpec.bodyFont "- bullet two" (Pdf.pageWidth - 30)).
Proof.
  split; [|split; [|split]].
  - destruct (wp_elim _ _ _ (drawInsights_spec insights st))
      as (r & st' & Hrun & -> & Hc & _).
    by exists st'.
  - apply includes_split, includes_trim, includes_removeAsterisks.
  - done.
  - rewrite map_app. unfold PanelSpec.insightsBlocks.
    change (JsString.split "010" (ExportReport.cleanInsights Sample.headerAndBullets))
      with ["Header:"; "- bullet one"; "- bullet two"].
    cbn [flat_map]. by rewrite app_nil_r.
Qed.

(** C3, as stated, fails: on an A4 page the heading of the second chart
    is the last block of page 1 and its picture is the first block of
    page 2. *)
Lemma heading_left_at_the_foot_of_a_page :
  let d := pdf (after (@ExportReport.exportCurrentPanel a4 Sample.noDates noon
                         (Sample.panel [Sample.flat; Sample.square])) idle) in
  danglingHeading (Pdf.ops d) = true
  ∧ omap (λ placed, pair placed.1 <$> markOf (blockOf placed)) (Pdf.ops d)
    = [ (1%nat, Heading "Volume");
        (1%nat, Picture onePixel);
        (1%nat, Heading "Sentiment");
        (2%nat, Picture onePixel) ].
Proof. vm_compute. done. Qed.

(** C3, amended. The compositor decides each page break from the
    vertical position alone, against fixed limits: a new page before a
    chart heading when the position is beyond H - 120, before a picture
    when the position plus its height (at most 120) is beyond H - 50,
    before each line of insights when the position is beyond H - 15. On a
    page at least 190mm high every text is therefore drawn with its
    baseline at most at H - 15, every chart heading at most at H - 120 and
    every picture ends at most at H - 50: no block runs over the foot of
    its page. Nothing keeps a heading and its picture on the same page. *)
Theorem blocks_stay_within_their_page (lib : Pdf.JsPDF) props host page st :
  190 <= Pdf.pageHeight →
  ∃ st',
    ExportReport.exportCurrentPanel props host page st = (Returned tt, st')
    ∧ match List.find ExportReport.isDisplayed (ExportReport.containers page) with
      | None => pdf st' = pdf st
      | Some _ => Forall (withinPage Pdf.pageHeight) (Pdf.ops (pdf st'))
      end.
Proof. apply exportCurrentPanel_bounds. Qed.

(** The two charts of the example above, on an A4 page. *)
Lemma blocks_stay_within_their_page_witness :
  190 <= @Pdf.pageHeight a4
  ∧ ∃ st',
      @ExportReport.exportCurrentPanel a4 Sample.noDates noon
        (Sample.panel [Sample.flat; Sample.square]) idle = (Returned tt, st')
      ∧ Forall (withinPage (@Pdf.pageHeight a4)) (Pdf.ops (pdf st')).
Proof.
  assert (190 <= @Pdf.pageHeight a4) as Htall by (unfold Qle; simpl; lia).
  split; [exact Htall|].
  exact (blocks_stay_within_their_page a4 Sample.noDates noon
           (Sample.panel [Sample.flat; Sample.square]) idle Htall).
Defined.



(** * More of the export code: proofs *)

(** ** Cleaning and naming *)

Lemma removeDoubleAsterisks_cons2 c d s :
  JsString.removeDoubleAsterisks (String c (String d s))
  = if Ascii.eqb c "*" && Ascii.eqb d "*" then JsString.removeDoubleAsterisks s
    else String c (JsString.removeDoubleAsterisks (String d s)).
Proof. done. Qed.

Lemma removeAsterisks_cons c s :
  JsString.removeAsterisks (String c s)
  = if Ascii.eqb c "*" then JsString.removeAsterisks s
    else String c (JsString.removeAsterisks s).
Proof. done. Qed.

Lemma removeAsterisks_after_pairs s :
  JsString.removeAsterisks (JsString.removeDoubleAsterisks s) = JsString.removeAsterisks s
  ∧ ∀ c, JsString.removeAsterisks (JsString.removeDoubleAsterisks (String c s))
         = JsString.removeAsterisks (String c s).
Proof.
  induction s as [|d s [IH1 IH2]].
  - split; [done|]. intros c. done.
  - split; [apply IH2|]. intros c.
    rewrite removeDoubleAsterisks_cons2, (removeAsterisks_cons c), (removeAsterisks_cons d).
    destruct (Ascii.eqb c "*") eqn:Hc, (Ascii.eqb d "*") eqn:Hd; cbn [andb].
    + apply IH1.
    + rewrite removeAsterisks_cons, Hc, IH2, removeAsterisks_cons, Hd. done.
    + rewrite removeAsterisks_cons, Hc, IH2, removeAsterisks_cons, Hd. done.
    + rewrite removeAsterisks_cons, Hc, IH2, removeAsterisks_cons, Hd. done.
Qed.

Lemma removeAsterisks_clean s :
  JsString.includes "*" s = false → JsString.removeAsterisks s = s.
Proof.
  induction s as [|c s IH]; [done|]. simpl. intros Hs.
  apply orb_false_iff in Hs as [Hc Hs]. rewrite Hc. f_equal. by apply IH.
Qed.

Lemma trimStart_fixed s :
  match s with
  | EmptyString => True
  | String c _ => JsString.isWhiteSpace c = false
  end →
  JsString.trimStart s = s.
Proof. destruct s as [|c s]; [done|]. simpl. by intros ->. Qed.

Lemma trimStart_head s :
  match JsString.trimStart s with
  | EmptyString => True
  | String c _ => JsString.isWhiteSpace c = false
  end.
Proof.
  induction s as [|c s IH]; [done|]. simpl.
  destruct (JsString.isWhiteSpace c) eqn:Hc; [done|]. simpl. done.
Qed.

Lemma trimEnd_head s :
  match s with
  | EmptyString => True
  | String c _ => JsString.isWhiteSpace c = false
  end →
  match JsString.trimEnd s with
  | EmptyString => True
  | String c _ => JsString.isWhiteSpace c = false
  end.
Proof. destruct s as [|c s]; [done|]. simpl. intros Hc. rewrite Hc. simpl. exact Hc. Qed.

Lemma trimEnd_idempotent s : JsString.trimEnd (JsString.trimEnd s) = JsString.trimEnd s.
Proof.
  induction s as [|c s IH]; [done|]. simpl.
  destruct (JsString.isWhiteSpace c && JsString.isEmpty (JsString.trimEnd s)) eqn:Hc; [done|].
  simpl. rewrite IH, Hc. done.
Qed.

Lemma trim_idempotent s : JsString.trim (JsString.trim s) = JsString.trim s.
Proof.
  unfold JsString.trim.
  rewrite (trimStart_fixed (JsString.trimEnd (JsString.trimStart s))).
  - apply trimEnd_idempotent.
  - apply trimEnd_head, trimStart_head.
Qed.

Lemma includes_cleanInsights s :
  JsString.includes "*" (ExportReport.cleanInsights s) = false.
Proof. apply includes_trim, includes_removeAsterisks. Qed.

(** X1. Cleaning the insight text a second time changes nothing, and the
    first of its two replacements is subsumed by the second: the cleaned
    text is the text without any asterisk, trimmed. *)
Theorem cleanInsights_idempotent insights :
  ExportReport.cleanInsights (ExportReport.cleanInsights insights)
  = ExportReport.cleanInsights insights
  ∧ ExportReport.cleanInsights insights
    = JsString.trim (JsString.removeAsterisks insights).
Proof.
  assert (ExportReport.cleanInsights insights
          = JsString.trim (JsString.removeAsterisks insights)) as Hclean.
  { unfold ExportReport.cleanInsights. f_equal. apply removeAsterisks_after_pairs. }
  split; [|exact Hclean].
  unfold ExportReport.cleanInsights at 1.
  rewrite (proj1 (removeAsterisks_after_pairs _)).
  rewrite removeAsterisks_clean by apply includes_cleanInsights.
  rewrite Hclean. apply trim_idempotent.
Qed.

Lemma isWhiteSpace_underscore : JsString.isWhiteSpace "_" = false.
Proof. done. Qed.

Lemma hasWhiteSpace_underscoreRuns inRun s :
  hasWhiteSpace (JsString.underscoreRuns inRun s) = false.
Proof.
  revert inRun. induction s as [|c s IH]; intros inRun; [done|]. simpl.
  destruct (JsString.isWhiteSpace c) eqn:Hc.
  - destruct inRun; [apply IH|]. simpl. apply IH.
  - simpl. rewrite Hc. apply IH.
Qed.

Lemma hasWhiteSpace_app a b :
  hasWhiteSpace (a +:+ b) = hasWhiteSpace a || hasWhiteSpace b.
Proof.
  induction a as [|c a IH]; [done|]. simpl. by rewrite IH, orb_assoc.
Qed.

(** X2. Provided the date the host prints holds no white space, an
    export of the current panel and a report of [generatePDFReport] each
    add at most one file to the downloads, and the name of that file
    holds no white space, whatever the name of the tab or the title of
    the report. *)
Theorem file_names_hold_no_white_space (lib : Pdf.JsPDF) host :
  hasWhiteSpace (Js.isoDate host) = false →
  (∀ props page st,
     ∃ files,
       downloads (after (ExportReport.exportCurrentPanel props host page) st)
       = downloads st ++ files
       ∧ (length files ≤ 1)%nat
       ∧ Forall (λ file, hasWhiteSpace file.1 = false) files)
  ∧ (∀ document title sections metadata st,
       ∃ files,
         downloads (after (ExportUtils.generatePDFReport host document title sections metadata) st)
         = downloads st ++ files
         ∧ (length files ≤ 1)%nat
         ∧ Forall (λ file, hasWhiteSpace file.1 = false) files).
Proof.
  intros Hdate. split.
  - intros props page st. unfold after.
    destruct (wp_elim _ _ _ (exportCurrentPanel_spec props host page st))
      as (r & st' & Hrun & _ & _ & _ & Hres).
    rewrite Hrun. cbn [snd].
    destruct (List.find _ _).
    + destruct Hres as (_ & _ & Hsave). destruct (saveError host).
      * exists []. destruct Hsave as [-> _].
        repeat split; [by rewrite app_nil_r | simpl; lia | constructor].
      * eexists [_]. destruct Hsave as [-> _]. split; [done|]. split; [simpl; lia|].
        apply Forall_singleton. cbn [fst]. unfold PanelSpec.panelName.
        rewrite !hasWhiteSpace_app, Hdate.
        unfold JsString.replaceWhiteSpace. by rewrite hasWhiteSpace_underscoreRuns.
    + exists []. destruct Hres as (_ & _ & -> & _).
      repeat split; [by rewrite app_nil_r | simpl; lia | constructor].
  - intros document title sections metadata st. unfold after.
    destruct (wp_elim _ _ _ (generatePDFReport_spec host document title sections metadata st))
      as (r & st' & Hrun & _ & _ & _ & Hres).
    rewrite Hrun. cbn [snd]. destruct (saveError host).
    + exists []. destruct Hres as (_ & -> & _).
      repeat split; [by rewrite app_nil_r | simpl; lia | constructor].
    + eexists [_]. destruct Hres as (_ & -> & _). split; [done|]. split; [simpl; lia|].
      apply Forall_singleton. cbn [fst]. unfold ReportSpec.reportName.
      rewrite !hasWhiteSpace_app, Hdate.
      unfold JsString.replaceWhiteSpace. by rewrite hasWhiteSpace_underscoreRuns.
Qed.

(** The host of the examples prints its date as 2025-01-01. *)
Lemma file_names_witness :
  hasWhiteSpace (Js.isoDate noon) = false
  ∧ ∃ files,
      downloads (after (@ExportReport.exportCurrentPanel a4 Sample.noDates noon
                          (Sample.panel [Sample.flat])) idle)
      = downloads idle ++ files
      ∧ (length files ≤ 1)%nat
      ∧ Forall (λ file, hasWhiteSpace file.1 = false) files.
Proof.
  split; [reflexivity|].
  apply (proj1 (file_names_hold_no_white_space a4 noon eq_refl)).
Defined.

(** ** The sections of a panel *)

Lemma sectionsOf_facts seen charts :
  NoDup (map (λ section, ExportReport.cardId section.1) (PanelSpec.sectionsOf seen charts))
  ∧ Forall (λ section, (ExportReport.cardId section.1 ∉ seen)
                       ∧ ExportReport.hasKPIClass section.1 = false
                       ∧ ExportReport.closest section.2 = Some section.1)
      (PanelSpec.sectionsOf seen charts)
  ∧ sublist (map snd (PanelSpec.sectionsOf seen charts)) charts.
Proof.
  revert seen. induction charts as [|chart rest IH]; intros seen; cbn [PanelSpec.sectionsOf].
  - split; [constructor|]. split; constructor.
  - destruct (ExportReport.closest chart) as [chartParent|] eqn:Hclosest.
    2:{ destruct (IH seen) as (Hnd & Hall & Hsub). repeat split; [done..|].
        by apply sublist_cons. }
    destruct (decide _) as [Hseen|Hnew].
    { destruct (IH seen) as (Hnd & Hall & Hsub). repeat split; [done..|].
      by apply sublist_cons. }
    destruct (ExportReport.hasKPIClass chartParent) eqn:Hkpi.
    { destruct (IH seen) as (Hnd & Hall & Hsub). repeat split; [done..|].
      by apply sublist_cons. }
    destruct (IH (seen ∪ {[ExportReport.cardId chartParent]})) as (Hnd & Hall & Hsub).
    split; [|split].
    + cbn [map fst]. constructor; [|done].
      intros Hin. apply list_elem_of_fmap in Hin as (section & Hid & Hin).
      rewrite Forall_forall in Hall. destruct (Hall _ Hin) as (Hfresh & _).
      rewrite <- Hid in Hfresh. apply Hfresh, elem_of_union_r. by apply elem_of_singleton.
    + constructor; [done|].
      eapply Forall_impl; [exact Hall|]. intros section (Hfresh & ? & ?).
      split; [|done]. intros Hin. by apply Hfresh, elem_of_union_l.
    + cbn [map snd]. by apply sublist_skip.
Qed.

(** X3. In the report of a panel every card is exported at most once,
    a card with a KPI grid never: the blocks after the title block are
    those of a list of sections that follows the order of the charts, with
    pairwise distinct cards, none of them a KPI card. *)
Theorem every_card_is_exported_once (lib : Pdf.JsPDF) props host page st :
  ∃ st',
    ExportReport.exportCurrentPanel props host page st = (Returned tt, st')
    ∧ match List.find ExportReport.isDisplayed (ExportReport.containers page) with
      | None => pdf st' = pdf st
      | Some activeContainer =>
          ∃ sections,
            contents (pdf st')
            = PanelSpec.titleBlocks props host (ExportReport.tabNameOf page)
              ++ flat_map (PanelSpec.chartBlocks props (ExportReport.tabNameOf page)) sections
            ∧ sublist (map snd sections) (ExportReport.charts activeContainer)
            ∧ NoDup (map (λ section, ExportReport.cardId section.1) sections)
            ∧ Forall (λ section, ExportReport.hasKPIClass section.1 = false
                                 ∧ ExportReport.closest section.2 = Some section.1)
                sections
      end.
Proof.
  destruct (wp_elim _ _ _ (exportCurrentPanel_spec props host page st))
    as (r & st' & Hrun & -> & _ & _ & Hres).
  exists st'. split; [done|].
  destruct (List.find _ _) as [activeContainer|]; [|by destruct Hres].
  destruct Hres as (Hc & _).
  destruct (sectionsOf_facts ∅ (ExportReport.charts activeContainer)) as (Hnd & Hall & Hsub).
  eexists. split; [exact Hc|]. split; [done|]. split; [done|].
  eapply Forall_impl; [exact Hall|]. by intros section (_ & ? & ?).
Qed.

(** X4. An export of the current panel always ends with the component
    idle again, whatever failed on the way: it returns normally, and
    [isExporting] and [showDropdown] are false. *)
Theorem export_leaves_component_idle (lib : Pdf.JsPDF) props host page st :
  ∃ st',
    ExportReport.exportCurrentPanel props host page st = (Returned tt, st')
    ∧ isExporting st' = false
    ∧ showDropdown st' = false.
Proof.
  destruct (wp_elim _ _ _ (exportCurrentPanel_spec props host page st))
    as (r & st' & Hrun & -> & He & Hs & _).
  by exists st'.
Qed.

(** ** Hiding and showing the export buttons *)

Lemma shownStyle_insert st element value b :
  shownStyle (Js.withDisplay (λ d, <[element:=value]> d) st) b
  = if decide (b = element) then value else shownStyle st b.
Proof.
  unfold shownStyle. cbn [display Js.withDisplay].
  destruct (decide (b = element)) as [->|Hne].
  - by rewrite lookup_insert_eq.
  - by rewrite lookup_insert_ne.
Qed.

Lemma withDisplay_twice f g st :
  Js.withDisplay g (Js.withDisplay f st) = Js.withDisplay (λ d, g (f d)) st.
Proof. done. Qed.

Lemma hideExportButtons_styles buttons hidden st :
  ∃ new st',
    ExportReport.hideExportButtons buttons hidden st = (Returned (hidden ++ new), st')
    ∧ st' = Js.withDisplay (λ _, display st') st
    ∧ (∀ b, shownStyle st' b = if decide (b ∈ buttons) then "none" else shownStyle st b)
    ∧ (∀ b, b ∈ new ↔ b ∈ buttons ∧ shownStyle st b ≠ "none").
Proof.
  revert hidden st. induction buttons as [|x rest IH]; intros hidden st;
    cbn [ExportReport.hideExportButtons].
  - exists [], st. rewrite app_nil_r. split; [done|]. split; [by destruct st|].
    split.
    + intros b. destruct (decide (b ∈ [])) as [Hin|]; [by apply elem_of_nil in Hin|done].
    + intros b. split; [by intros Hin%elem_of_nil|]. by intros [Hin%elem_of_nil _].
  - unfold mbind, JS_bind, Js.styleDisplay, Js.gets. cbn [fst snd].
    fold (shownStyle st x).
    destruct (String.eqb (shownStyle st x) "none") eqn:Hshown.
    + apply String.eqb_eq in Hshown.
      destruct (IH hidden st) as (new & st' & Hrun & Hframe & Hstyle & Hnew).
      exists new, st'. split; [done|]. split; [done|]. split.
      * intros b. rewrite Hstyle.
        destruct (decide (b ∈ rest)) as [Hin|Hout].
        { rewrite decide_True; [done|apply elem_of_cons; by right]. }
        destruct (decide (b = x)) as [->|Hne].
        { rewrite decide_True; [done|apply elem_of_cons; by left]. }
        rewrite decide_False; [done|]. by intros [?|?]%elem_of_cons.
      * intros b. rewrite Hnew, elem_of_cons. split; [intros [? ?]; auto|].
        intros [[->|?] ?]; [done|auto].
    + apply String.eqb_neq in Hshown.
      unfold Js.setStyleDisplay, Js.modify. cbn [fst snd].
      destruct (IH (hidden ++ [x]) (Js.withDisplay (λ d, <[x:="none"]> d) st))
        as (new & st' & Hrun & Hframe & Hstyle & Hnew).
      exists (x :: new), st'. split; [by rewrite Hrun, <- app_assoc|].
      split; [by rewrite Hframe, withDisplay_twice|]. split.
      * intros b. rewrite Hstyle, shownStyle_insert.
        destruct (decide (b ∈ rest)) as [Hin|Hout].
        { rewrite decide_True; [done|apply elem_of_cons; by right]. }
        destruct (decide (b = x)) as [->|Hne].
        { rewrite decide_True; [done|apply elem_of_cons; by left]. }
        rewrite decide_False; [done|]. by intros [?|?]%elem_of_cons.
      * intros b. rewrite !elem_of_cons, Hnew, shownStyle_insert.
        destruct (decide (b = x)) as [->|Hne].
        -- split; [auto|]. auto.
        -- split.
           ++ intros [?|[? ?]]; [done|auto].
           ++ intros [[?|?] ?]; [done|auto].
Qed.

Lemma restore_styles hidden st :
  ∃ st',
    Js.forOf hidden (λ element, Js.setStyleDisplay element EmptyString) st = (Returned tt, st')
    ∧ st' = Js.withDisplay (λ _, display st') st
    ∧ ∀ b, shownStyle st' b = if decide (b ∈ hidden) then EmptyString else shownStyle st b.
Proof.
  revert st. induction hidden as [|x rest IH]; intros st; cbn [Js.forOf].
  - exists st. split; [done|]. split; [by destruct st|]. intros b.
    destruct (decide (b ∈ [])) as [Hin|]; [by apply elem_of_nil in Hin|done].
  - unfold mbind, JS_bind, Js.setStyleDisplay, Js.modify. cbn [fst snd].
    destruct (IH (Js.withDisplay (λ d, <[x:=EmptyString]> d) st))
      as (st' & Hrun & Hframe & Hstyle).
    exists st'. split; [done|]. split; [by rewrite Hframe, withDisplay_twice|].
    intros b. rewrite Hstyle, shownStyle_insert.
    destruct (decide (b ∈ rest)) as [Hin|Hout].
    { rewrite decide_True; [done|apply elem_of_cons; by right]. }
    destruct (decide (b = x)) as [->|Hne].
    { rewrite decide_True; [done|apply elem_of_cons; by left]. }
    rewrite decide_False; [done|]. by intros [?|?]%elem_of_cons.
Qed.

(** X5. When the capture goes through, the capture step gives back the
    canvas and leaves every inline style as it found it, but for the
    export buttons of the card that were not hidden already: those read
    [''] afterwards. A button the page itself had hidden stays hidden, and
    nothing else in the machine changes. *)
Theorem captured_chart_shows_its_buttons_again chartParent chart canvas st :
  ExportReport.rendering chart = inr canvas →
  ∃ st',
    ExportReport.captureChart chartParent chart st = (Returned canvas, st')
    ∧ st' = Js.withDisplay (λ _, display st') st
    ∧ ∀ b,
        shownStyle st' b
        = if decide (b ∈ ExportReport.exportButtons chartParent)
          then (if decide (shownStyle st b = "none") then "none" else EmptyString)
          else shownStyle st b.
Proof.
  intros Hok. unfold ExportReport.captureChart, mbind, JS_bind.
  destruct (hideExportButtons_styles (ExportReport.exportButtons chartParent) [] st)
    as (new & st1 & Hhide & Hframe1 & Hstyle1 & Hnew).
  rewrite Hhide, Hok. cbn [Js.html2canvas mret JS_ret app].
  destruct (restore_styles new st1) as (st2 & Hrestore & Hframe2 & Hstyle2).
  rewrite Hrestore. exists st2. split; [done|].
  split; [by rewrite Hframe2, Hframe1, withDisplay_twice|].
  intros b. rewrite Hstyle2, Hstyle1.
  destruct (decide (b ∈ new)) as [Hin|Hout].
  - apply Hnew in Hin as [Hb Hshown]. rewrite decide_True by done.
    by rewrite decide_False.
  - destruct (decide (b ∈ ExportReport.exportButtons chartParent)) as [Hb|Hb]; [|done].
    destruct (decide (shownStyle st b = "none")) as [Hshown|Hshown]; [done|].
    exfalso. apply Hout, Hnew. done.
Qed.

(** The flat chart of the examples is captured. *)
Lemma captured_chart_witness :
  ExportReport.rendering Sample.flat = inr (Sample.bitmap 1800 300)
  ∧ ∃ st',
      ExportReport.captureChart (Sample.card 1 "Volume") Sample.flat idle
      = (Returned (Sample.bitmap 1800 300), st')
      ∧ st' = Js.withDisplay (λ _, display st') idle
      ∧ ∀ b,
          shownStyle st' b
          = if decide (b ∈ ExportReport.exportButtons (Sample.card 1 "Volume"))
            then (if decide (shownStyle idle b = "none") then "none" else EmptyString)
            else shownStyle idle b.
Proof.
  split; [reflexivity|].
  apply (captured_chart_shows_its_buttons_again (Sample.card 1 "Volume") Sample.flat
           (Sample.bitmap 1800 300) idle).
  reflexivity.
Defined.

(** ** The layout of a report *)

Lemma wellHeaded_app above l d :
  wellHeaded above (l ++ d)
  ↔ wellHeaded above l ∧ wellHeaded (from_option Some above (last l)) d.
Proof.
  revert above. induction l as [|x l IH]; intros above.
  - simpl. tauto.
  - cbn [app wellHeaded]. rewrite IH.
    assert (from_option Some (Some x) (last l) = from_option Some above (last (x :: l))) as ->.
    { destruct l as [|y l']; [done|].
      change (last (x :: y :: l')) with (last (y :: l')).
      destruct (last (y :: l')) eqn:Hlast; [done|]. by apply last_None in Hlast. }
    tauto.
Qed.

Lemma wellHeaded_snoc above l x :
  isImage x = false → wellHeaded above l → wellHeaded above (l ++ [x]).
Proof.
  intros Hx Hl. apply wellHeaded_app. split; [done|]. simpl. split; [|done].
  unfold headedBy. unfold isImage in Hx. by destruct (x.2).
Qed.

Lemma fitsReport_snoc H l x :
  isImage x = false → Forall (fitsReport H) l → Forall (fitsReport H) (l ++ [x]).
Proof.
  intros Hx Hl. apply Forall_app. split; [done|]. apply Forall_singleton.
  unfold fitsReport. unfold isImage in Hx. by destruct (x.2).
Qed.

Section ReportLayout.
Context `{Pdf.JsPDF}.
Import ExportUtils ReportSpec.

Lemma addSection_layout document section st :
  reportInv Pdf.pageHeight st →
  wp (addSection document section)
     (λ r st',
        r = Returned tt ∧ reportInv Pdf.pageHeight st'
        ∧ (Pdf.pageCount (pdf st')
           ≤ Pdf.pageCount (pdf st) + length (option_list (rasterised document section)))%nat)
     st.
Proof.
  intros (Hhead & Hfit). unfold addSection, reportInv, rasterised, present.
  destruct (document !! id section) as [element|]; [|wp_steps; repeat split; try done; lia].
  destruct (_ || _); [wp_steps; repeat split; try done; lia|].
  wp_step. wp_step. unfold captured.
  destruct (rendering element) as [e|canvas]; wp_step.
  { wp_steps. pdf_simpl. split; [done|]. split; [|simpl; lia].
    split; [by apply wellHeaded_snoc|]. by apply fitsReport_snoc. }
  wp_steps. destruct (dataURL canvas) as [e|data].
  { wp_steps. pdf_simpl. split; [done|]. split; [|simpl; lia].
    split; [by apply wellHeaded_snoc|]. by apply fitsReport_snoc. }
  destruct (Pdf.imageError data "PNG") as [e|] eqn:Hdec.
  { wp_steps; pdf_simpl.
    all: split; [done|]; split; [|simpl; lia]; split.
    all: repeat (first [apply wellHeaded_snoc | apply fitsReport_snoc]; [done|]); done. }
  wp_steps; pdf_simpl.
  all: split; [done|]; split; [|simpl; lia]; split.
  all: try (apply wellHeaded_app; split; [by apply wellHeaded_snoc|];
            rewrite last_snoc; simpl; done).
  all: apply Forall_app; split; [by apply fitsReport_snoc|]; apply Forall_singleton.
  all: unfold fitsReport; cbn [fst snd].
  all: repeat match goal with
         | Hg : JsNumber.gt _ _ = false |- _ => apply gt_false in Hg
         | Hg : JsNumber.gt _ _ = true |- _ => apply gt_true in Hg
         end; intros Hsmall; lra.
Qed.

Lemma drawMetadata_layout host metadata st :
  wellHeaded None (Pdf.ops (pdf st)) →
  Pdf.pageCount (pdf st) = 1%nat →
  Forall (fitsReport Pdf.pageHeight) (Pdf.ops (pdf st)) →
  wp (drawMetadata host metadata)
     (λ r st',
        r = Returned tt
        ∧ wellHeaded None (Pdf.ops (pdf st'))
        ∧ Pdf.pageCount (pdf st') = 1%nat
        ∧ Forall (fitsReport Pdf.pageHeight) (Pdf.ops (pdf st')))
     st.
Proof.
  intros Hhead Hpage Hfit. unfold drawMetadata.
  destruct metadata as [md|]; [|by wp_steps].
  wp_steps; pdf_simpl; split; [done| |done| |done| |done|].
  all: split; [|split; [done|]].
  all: repeat (apply wellHeaded_snoc; [done|]); try done.
  all: repeat (apply fitsReport_snoc; [done|]); done.
Qed.

(** X6. In the report of [generatePDFReport] every picture sits right
    under its own heading, on the same page and 10mm lower (the page
    break is decided before the heading is drawn); the report has at most
    one page more than sections whose bitmap was captured and read back,
    the sections whose heading is drawn: a section that is passed over,
    or whose [html2canvas] or [toDataURL] throws, never starts a page;
    and a picture at most [pageHeight - 40] high ends at least 10mm above
    the foot of its page. *)
Theorem report_pictures_follow_their_heading host document title sections metadata st :
  ∃ result st',
    generatePDFReport host document title sections metadata st = (Returned result, st')
    ∧ wellHeaded None (Pdf.ops (pdf st'))
    ∧ (Pdf.pageCount (pdf st') ≤ 1 + length (omap (rasterised document) sections))%nat
    ∧ Forall (fitsReport Pdf.pageHeight) (Pdf.ops (pdf st')).
Proof.
  destruct (wp_elim _ _ _ (generatePDFReport_spec host document title sections metadata st))
    as (r & st' & Hrun & _ & _ & _ & Hres).
  assert (∃ result, r = Returned result) as [result ->].
  { destruct (saveError host); destruct Hres as [-> _]; eauto. }
  exists result, st'. split; [done|]. clear Hres.
  assert (wp (generatePDFReport host document title sections metadata)
            (λ _ st', wellHeaded None (Pdf.ops (pdf st'))
                      ∧ (Pdf.pageCount (pdf st')
                         ≤ 1 + length (omap (rasterised document) sections))%nat
                      ∧ Forall (fitsReport Pdf.pageHeight) (Pdf.ops (pdf st'))) st) as Hwp.
  2:{ unfold wp in Hwp. by rewrite Hrun in Hwp. }
  unfold generatePDFReport. wp_steps.
  eapply wp_weaken; [apply drawMetadata_layout; pdf_simpl; by repeat constructor|].
  intros r st1 (-> & Hhead & Hpage & Hfit). wp_steps.
  eapply wp_weaken.
  { apply (wp_forOf
             (λ rest st, reportInv Pdf.pageHeight st
                         ∧ (Pdf.pageCount (pdf st) + length (omap (rasterised document) rest)
                            ≤ 1 + length (omap (rasterised document) sections))%nat)).
    - unfold reportInv. machine_simpl. repeat split; try done. rewrite Hpage. lia.
    - intros section rest st2 [Hinv Hcount].
      eapply wp_weaken; [by apply addSection_layout|].
      intros r st3 (-> & Hinv3 & Hcount3). split; [done|]. split; [done|].
      rewrite length_omap_cons in Hcount. lia. }
  intros r st2 (-> & (Hhead2 & Hfit2) & Hcount2). simpl in Hcount2.
  wp_steps; destruct (saveError host); wp_steps; pdf_simpl.
  all: split; [|split; [lia|]].
  all: repeat (apply wellHeaded_snoc; [done|]); try done.
  all: repeat (apply fitsReport_snoc; [done|]); done.
Qed.

(** X6, on a sample: a bitmap jsPDF cannot decode, too high for what is
    left of the first page, starts a second page although no chart is
    captured. *)
Lemma undecodable_bitmap_starts_a_page :
  ∃ st',
    @generatePDFReport a4 noon tallPage "My Report" [ReportSpec.volume] None idle
    = (Returned (Success 0), st')
    ∧ Pdf.pageCount (pdf st') = 2%nat.
Proof. eexists. vm_compute. done. Qed.

End ReportLayout.

(** ** The single-file exports *)

Lemma includes_app c s t :
  JsString.includes c (s +:+ t) = JsString.includes c s || JsString.includes c t.
Proof. induction s as [|d s IH]; simpl; [done|]. by rewrite IH, orb_assoc. Qed.

Lemma split_plain sep s :
  JsString.includes sep s = false → JsString.split sep s = [s].
Proof.
  induction s as [|c s IH]; simpl; [done|]. intros Hs.
  apply orb_false_iff in Hs as [Hc Hs]. by rewrite Hc, IH.
Qed.

Lemma split_app sep s r :
  JsString.includes sep s = false →
  JsString.split sep (s +:+ String sep r) = s :: JsString.split sep r.
Proof.
  induction s as [|c s IH]; simpl; [by rewrite Ascii.eqb_refl|]. intros Hs.
  apply orb_false_iff in Hs as [Hc Hs]. by rewrite Hc, IH.
Qed.

Lemma join_cons2 sep p q rest :
  ExportFiles.join sep (p :: q :: rest)
  = p +:+ String sep (ExportFiles.join sep (q :: rest)).
Proof. done. Qed.

Lemma split_join sep parts :
  parts ≠ [] →
  Forall (λ part, JsString.includes sep part = false) parts →
  JsString.split sep (ExportFiles.join sep parts) = parts.
Proof.
  induction parts as [|p rest IH]; [done|]. intros _ Hall.
  inversion Hall as [|? ? Hp Hrest]; subst.
  destruct rest as [|q rest]; [by apply split_plain|].
  rewrite join_cons2, split_app by done. f_equal. by apply IH.
Qed.

Lemma includes_join c sep parts :
  Ascii.eqb sep c = false →
  Forall (λ part, JsString.includes c part = false) parts →
  JsString.includes c (ExportFiles.join sep parts) = false.
Proof.
  intros Hsep. induction parts as [|p rest IH]; [done|]. intros Hall.
  inversion Hall as [|? ? Hp Hrest]; subst.
  destruct rest as [|q rest]; [done|].
  rewrite join_cons2, includes_app, Hp. cbn [JsString.includes orb].
  rewrite Hsep. by apply IH.
Qed.

Lemma plain_spec text :
  ExportFiles.plain text = true
  ↔ JsString.includes "," text = false ∧ JsString.includes "010" text = false.
Proof.
  unfold ExportFiles.plain.
  destruct (JsString.includes "," text), (JsString.includes "010" text); simpl.
  all: split; try done; by intros [? ?].
Qed.

Lemma mapM_None {A B} (f : A → option B) (l : list A) :
  mapM f l = None ↔ ∃ x, x ∈ l ∧ f x = None.
Proof.
  induction l as [|x l IH].
  - split; [done|]. by intros (? & ?%elem_of_nil & _).
  - cbn. destruct (f x) as [y|] eqn:Hx; cbn.
    + destruct (mapM f l) as [k|]; cbn.
      * split; [done|]. intros (z & [->|Hz]%elem_of_cons & Hfz); [congruence|].
        assert (Some k = None) as Hnone by (apply IH; eauto). done.
      * split; [|done]. intros _. destruct (proj1 IH eq_refl) as (z & Hz & Hfz).
        exists z. split; [by apply elem_of_cons; right|done].
    + split; [|done]. intros _. exists x. split; [by apply elem_of_cons; left|done].
Qed.

Lemma csvLine_object headers object line :
  Forall2 (λ header text, ExportFiles.cell (ExportFiles.read object header) = Some text)
    headers line →
  ExportFiles.csvLine headers (Some object) = Some (ExportFiles.join "," line).
Proof.
  intros Hline. unfold ExportFiles.csvLine.
  assert (mapM (ExportFiles.printed (Some object)) headers = Some line) as ->; [|done].
  by apply mapM_Some.
Qed.

Lemma csvLines_objects headers objects table :
  Forall2 (λ object line,
             Forall2 (λ header text,
                        ExportFiles.cell (ExportFiles.read object header) = Some text)
               headers line)
    objects table →
  mapM (ExportFiles.csvLine headers) (map Some objects)
  = Some (map (ExportFiles.join ",") table).
Proof.
  intros Htable. apply mapM_Some.
  induction Htable as [|object line objects table Hline _ IH]; [constructor|].
  cbn [map]. constructor; [by apply csvLine_object|exact IH].
Qed.

Lemma csvLine_throws headers row :
  ExportFiles.csvLine headers row = None
  ↔ ∃ header, header ∈ headers ∧ ExportFiles.printed row header = None.
Proof.
  unfold ExportFiles.csvLine. rewrite <- mapM_None.
  by destruct (mapM (ExportFiles.printed row) headers).
Qed.

Lemma exportDataAsCSV_objects first rest filename table :
  Forall2 (λ object line,
             Forall2 (λ header text,
                        ExportFiles.cell (ExportFiles.read object header) = Some text)
               (ExportFiles.keysOf first) line)
    (first :: rest) table →
  ExportFiles.exportDataAsCSV (Some (map Some (first :: rest))) filename
  = Some [ExportFiles.Clicked
            {| ExportFiles.download := filename +:+ ".csv";
               ExportFiles.href :=
                 ExportFiles.BlobURL "text/csv;charset=utf-8;"
                   (ExportFiles.join "010"
                      (ExportFiles.join "," (ExportFiles.keysOf first)
                       :: map (ExportFiles.join ",") table)) |}].
Proof.
  intros Htable. unfold ExportFiles.exportDataAsCSV, ExportFiles.csvContent.
  change (map Some (first :: rest)) with (Some first :: map Some rest) at 1. cbv iota.
  change (head (map Some (first :: rest))) with (Some (Some first)).
  cbn [mbind option_bind ExportFiles.keys fmap option_fmap option_map].
  by rewrite (csvLines_objects _ _ table).
Qed.

(** X7. The file [exportDataAsCSV] writes for a table of rows that are
    objects reads back as the table: cut at line feeds and commas it
    gives the keys of the first row, then one line per row with what
    [row[key]] gives for those keys in that order, as [join] writes it
    (for a key a row lacks that is what the row inherits, the text of the
    function [toString] for instance, and nothing when it inherits
    nothing; a key the first row lacks is not written), provided the
    first row has a key, every cell can be printed, and no key and no
    written cell holds a comma or a line feed. *)
Theorem csv_file_reads_back first rest filename table :
  let headers := ExportFiles.keysOf first in
  headers ≠ [] →
  Forall (λ header, ExportFiles.plain header = true) headers →
  Forall2 (λ object line,
             Forall2 (λ header text,
                        ExportFiles.cell (ExportFiles.read object header) = Some text
                        ∧ ExportFiles.plain text = true)
               headers line)
    (first :: rest) table →
  ∃ content,
    ExportFiles.exportDataAsCSV (Some (map Some (first :: rest))) filename
    = Some [ExportFiles.Clicked
              {| ExportFiles.download := filename +:+ ".csv";
                 ExportFiles.href := ExportFiles.BlobURL "text/csv;charset=utf-8;" content |}]
    ∧ ExportFiles.readCSV content = headers :: table.
Proof.
  intros headers Hkeys Hheaders Htable.
  assert (Forall (λ line, line ≠ [] ∧ Forall (λ text, ExportFiles.plain text = true) line)
            table) as Hplain.
  { eapply Forall2_Forall_r; [exact Htable|]. apply Forall_forall.
    intros object _ line Hline. split.
    - intros ->. apply Forall2_nil_inv_r in Hline. done.
    - eapply Forall2_Forall_r; [exact Hline|]. apply Forall_forall. by intros ? _ ? [_ ?]. }
  rewrite (exportDataAsCSV_objects _ _ _ table).
  2:{ eapply Forall2_impl; [exact Htable|]. intros object line Hline.
      eapply Forall2_impl; [exact Hline|]. by intros ? ? [? _]. }
  eexists. split; [done|]. fold headers. unfold ExportFiles.readCSV.
  assert (Forall (λ line, JsString.includes "010" line = false)
            (ExportFiles.join "," headers :: map (ExportFiles.join ",") table))
    as Hlines.
  { constructor.
    - apply includes_join; [done|].
      eapply Forall_impl; [exact Hheaders|]. intros h Hh. by apply plain_spec in Hh as [_ ?].
    - apply Forall_map. eapply Forall_impl; [exact Hplain|]. intros line [_ Hline].
      apply includes_join; [done|].
      eapply Forall_impl; [exact Hline|]. intros t Ht. by apply plain_spec in Ht as [_ ?]. }
  rewrite split_join by done. cbn [map]. f_equal.
  - apply split_join; [done|].
    eapply Forall_impl; [exact Hheaders|]. intros h Hh. by apply plain_spec in Hh as [? _].
  - rewrite map_map. clear Hlines Htable.
    induction Hplain as [|line lines [Hsome Hline] _ IH]; [done|].
    cbn [map]. f_equal; [|exact IH].
    apply split_join; [done|].
    eapply Forall_impl; [exact Hline|]. intros t Ht. by apply plain_spec in Ht as [? _].
Qed.

(** Two object literals, the second without the key [toString] of the
    first: its cell holds the function it inherits. *)
Lemma csv_file_witness :
  ∃ content,
    ExportFiles.exportDataAsCSV
      (Some [ Some (ExportFiles.literal
                      [("toString", ExportFiles.VString "label");
                       ("n", ExportFiles.VOther (Some "1"))]);
              Some (ExportFiles.literal [("n", ExportFiles.VOther (Some "2"))]) ])
      "table"
    = Some [ExportFiles.Clicked
              {| ExportFiles.download := "table.csv";
                 ExportFiles.href := ExportFiles.BlobURL "text/csv;charset=utf-8;" content |}]
    ∧ ExportFiles.readCSV content
      = [ ["toString"; "n"]; ["label"; "1"];
          ["function toString() { [native code] }"; "2"] ].
Proof.
  apply (csv_file_reads_back
           (ExportFiles.literal
              [("toString", ExportFiles.VString "label");
               ("n", ExportFiles.VOther (Some "1"))])
           [ExportFiles.literal [("n", ExportFiles.VOther (Some "2"))]]
           "table"
           [ ["label"; "1"]; ["function toString() { [native code] }"; "2"] ]).
  - done.
  - by repeat constructor.
  - by repeat constructor.
Defined.

(** X8. An export of a chart as PNG or as SVG either hands over exactly
    one file, named after [filename] with the extension of the format, and
    logs nothing, or hands over no file and logs exactly one error. So
    does the export of a table as CSV when it returns; a table that is
    [null] or empty gives the error. But this export has no [try]: it
    throws, with no file and no log, exactly when the first row is
    [null] or [undefined], or the first row has a key under which some
    row cannot be read ([null], [undefined]) or holds a value that cannot
    be printed. *)
Theorem one_file_one_error_or_a_throw document elementId filename data :
  let outcomeOf events extension :=
    (∃ target, ExportFiles.files events
               = [{| ExportFiles.download := filename +:+ extension;
                     ExportFiles.href := target |}]
               ∧ ExportFiles.errors events = [])
    ∨ (ExportFiles.files events = [] ∧ length (ExportFiles.errors events) = 1%nat) in
  outcomeOf (ExportFiles.exportChartAsPNG document elementId filename) ".png"
  ∧ outcomeOf (ExportFiles.exportChartAsSVG document elementId filename) ".svg"
  ∧ (∀ events, ExportFiles.exportDataAsCSV data filename = Some events →
               outcomeOf events ".csv")
  ∧ (length (default [] data) = 0%nat →
     ExportFiles.exportDataAsCSV data filename
     = Some [ExportFiles.Logged (ConsoleError "No data to export" None)])
  ∧ (ExportFiles.exportDataAsCSV data filename = None
     ↔ ∃ first rest,
         data = Some (first :: rest)
         ∧ (first = None
            ∨ ∃ object header row,
                first = Some object
                ∧ header ∈ ExportFiles.keysOf object
                ∧ row ∈ first :: rest
                ∧ ExportFiles.printed row header = None)).
Proof.
  cbv zeta. unfold ExportFiles.exportChartAsPNG, ExportFiles.exportChartAsSVG.
  split; [|split; [|split; [|split]]].
  - destruct (document !! elementId) as [element|]; [|by right].
    destruct (captured _) as [e|[canvas png]]; [by right|left; by eexists].
  - destruct (document !! elementId) as [element|]; [|by right].
    destruct (ExportFiles.svg element); [left; by eexists|by right].
  - intros events. unfold ExportFiles.exportDataAsCSV.
    destruct data as [[|row rows]|]; [intros [= <-]; by right| |intros [= <-]; by right].
    destruct (ExportFiles.csvContent (row :: rows)) as [content|]; [|done].
    intros [= <-]. left. by eexists.
  - by destruct data as [[|row rows]|].
  - unfold ExportFiles.exportDataAsCSV.
    destruct data as [[|first rest]|].
    { split; [done|]. by intros (? & ? & [=] & _). }
    2:{ split; [done|]. by intros (? & ? & [=] & _). }
    unfold ExportFiles.csvContent. cbn [head mbind option_bind].
    destruct first as [object|]; cbn [ExportFiles.keys fmap option_fmap option_map].
    2:{ split; [|done]. intros _. exists None, rest. split; [done|]. by left. }
    cbn [mbind option_bind].
    match goal with
    | |- context [mapM ?f ?l] => destruct (mapM f l) as [lines|] eqn:Hlines
    end; cbn [mbind option_bind].
    + split; [done|].
      intros (first' & rest' & [= <- <-] & [[=]|(object' & header & row & [= <-] & Hh & Hr & Hp)]).
      match type of Hlines with
      | ?composed = _ => assert (composed = None) as Hnone; [|congruence]
      end.
      apply mapM_None. exists row. split; [done|]. apply csvLine_throws. eauto.
    + split; [|done]. intros _. exists (Some object), rest. split; [done|]. right.
      apply mapM_None in Hlines as (row & Hr & (header & Hh & Hp)%csvLine_throws).
      by exists object, header, row.
Qed.

(** X8, on samples: a table whose second row is [null], and a table
    with a value that cannot be printed. *)
Lemma null_row_throws :
  ExportFiles.exportDataAsCSV
    (Some [Some (ExportFiles.literal [("n", ExportFiles.VOther (Some "1"))]); None]) "table"
  = None
  ∧ ExportFiles.exportDataAsCSV
      (Some [Some (ExportFiles.literal [("n", ExportFiles.VOther None)])]) "table"
    = None.
Proof. done. Qed.

(** ** The export of the active tab *)

Section HomePageProofs.
Context `{Pdf.JsPDF}.
Import ExportUtils ReportSpec HomePage.

Lemma pictures_of_sections document sections :
  length (List.filter isPicture (flat_map (sectionBlocks document) sections))
  = length (omap (capturedCanvas document) sections).
Proof.
  induction sections as [|section sections IH]; [done|].
  cbn [flat_map]. rewrite List.filter_app, length_app, length_omap_cons, IH. f_equal.
  unfold sectionBlocks, capturedCanvas, drawn.
  destruct (present document section) as [element|]; [|done].
  destruct (captured (rendering element)) as [e|[canvas data]]; [done|].
  by destruct (Pdf.imageError data "PNG").
Qed.

Lemma dateRange_truthy dateRange total :
  JsString.truthy (ExportUtils.dateRange (metadataOf dateRange total)) = true.
Proof. unfold metadataOf. simpl. by destruct (from dateRange). Qed.

Lemma handleExportReport_spec host document activeTab dateRange total st :
  wp (handleExportReport host document activeTab dateRange total)
     (λ r st',
        let n := length (omap (capturedCanvas document) (sectionsOf activeTab)) in
        r = Returned tt
        ∧ (∃ font,
             contents (pdf st')
             = headerBlocks host (reportTitle activeTab) (Some (metadataOf dateRange total))
               ++ flat_map (sectionBlocks document) (sectionsOf activeTab)
               ++ (if (n =? 0)%nat then noChartsBlocks font else []))
        ∧ match saveError host with
          | None =>
              downloads st'
              = downloads st ++ [(reportName host (reportTitle activeTab), pdf st')]
              ∧ alerts st'
                = alerts st ++ ["PDF report generated successfully! Captured "
                                +:+ pretty n +:+ " charts."]
          | Some e =>
              downloads st' = downloads st
              ∧ alerts st'
                = alerts st ++ ["Failed to generate PDF report. Please try again."]
          end)
     st.
Proof.
  unfold handleExportReport. apply wp_bind.
  eapply wp_weaken; [apply generatePDFReport_spec|].
  intros r st1 ((font & _ & Hcontents) & _ & _ & Hresult). cbv zeta.
  destruct (saveError host) as [e|]; destruct Hresult as (-> & Hfiles & Halerts).
  - wp_steps. split; [done|]. split; [by exists font|]. by rewrite Hfiles, Halerts.
  - wp_steps. split; [done|]. split; [by exists font|]. by rewrite Hfiles, Halerts.
Qed.

End HomePageProofs.

(** X9. The report that [handleExportReport] has made for the active tab
    opens with the title of the tab, the line of the date range and the
    line of the time of generation, and nothing else before the charts:
    the total passed under the key [totalDocuments] is never printed,
    whatever it is, because [generatePDFReport] looks for [totalDocs]. *)
Theorem active_tab_report_never_prints_the_total (lib : Pdf.JsPDF)
    host document activeTab dateRange total st :
  let small := {| Pdf.fontSize := 10; Pdf.fontName := "helvetica"; Pdf.fontStyle := "normal" |} in
  ∃ st' rest,
    HomePage.handleExportReport host document activeTab dateRange total st
    = (Returned tt, st')
    ∧ contents (pdf st')
      = [ TextBlock ("AI Regulation Analytics - " +:+ HomePage.labelOf activeTab)
            (Pdf.pageWidth / 2) Pdf.AlignCenter
            {| Pdf.fontSize := 20; Pdf.fontName := "helvetica"; Pdf.fontStyle := "bold" |}
            black;
          TextBlock ("Date Range: " +:+ HomePage.from dateRange +:+ " to "
                     +:+ HomePage.to dateRange) 20 Pdf.AlignLeft small black;
          TextBlock ("Generated: " +:+ localeNow host) 20 Pdf.AlignLeft small black ]
        ++ flat_map (ReportSpec.sectionBlocks document) (HomePage.sectionsOf activeTab)
        ++ rest
    ∧ (rest = [] ∨ ∃ font, rest = ReportSpec.noChartsBlocks font).
Proof.
  intros small.
  destruct (wp_elim _ _ _
              (handleExportReport_spec host document activeTab dateRange total st))
    as (r & st' & Hrun & -> & [font Hcontents] & _).
  exists st'. eexists. split; [exact Hrun|]. split.
  - rewrite Hcontents. unfold ReportSpec.headerBlocks.
    rewrite dateRange_truthy. done.
  - destruct (_ =? 0)%nat; eauto.
Qed.

(** X10. [handleExportReport] always returns and shows exactly one
    message. When the file could be saved, the message gives as the
    number of captured charts the number of pictures in the saved
    document; when saving failed, the only message is the one of
    [generatePDFReport], and no file is saved. *)
Theorem export_message_counts_the_pictures (lib : Pdf.JsPDF)
    host document activeTab dateRange total st :
  ∃ st',
    HomePage.handleExportReport host document activeTab dateRange total st
    = (Returned tt, st')
    ∧ match saveError host with
      | None =>
          alerts st'
          = alerts st ++ ["PDF report generated successfully! Captured "
                          +:+ pretty (length (pictures (pdf st'))) +:+ " charts."]
          ∧ ∃ name, downloads st' = downloads st ++ [(name, pdf st')]
      | Some _ =>
          alerts st' = alerts st ++ ["Failed to generate PDF report. Please try again."]
          ∧ downloads st' = downloads st
      end.
Proof.
  destruct (wp_elim _ _ _
              (handleExportReport_spec host document activeTab dateRange total st))
    as (r & st' & Hrun & -> & [font Hcontents] & Hsave).
  exists st'. split; [exact Hrun|].
  destruct (saveError host) as [e|]; destruct Hsave as [Hfiles Halerts]; [done|].
  split; [|eauto].
  assert (length (pictures (pdf st'))
          = length (omap (ReportSpec.capturedCanvas document)
                      (HomePage.sectionsOf activeTab))) as ->; [|done].
  unfold pictures. rewrite Hcontents, !List.filter_app, !length_app, pictures_of_sections.
  unfold ReportSpec.headerBlocks. rewrite dateRange_truthy.
  destruct (_ =? 0)%nat; simpl; lia.
Qed.

(** ** The export of the whole dashboard *)

Lemma outline_snoc (blocks : list Block) (b : Block) :
  omap Dashboard.featureOf (blocks ++ [b])
  = omap Dashboard.featureOf blocks ++ option_list (Dashboard.featureOf b).
Proof. rewrite omap_app, omap_cons_app. by rewrite app_nil_r. Qed.

Ltac outline_simpl :=
  unfold Dashboard.outline in *; pdf_simpl;
  rewrite ?outline_snoc in *;
  cbn [Dashboard.featureOf option_list] in *;
  rewrite ?app_nil_r in *.

Section DashboardProofs.
Context `{Pdf.JsPDF}.
Import ExportReport Dashboard.

Lemma drawTextLine_outline textLine st :
  wp (drawTextLine textLine)
     (λ r st',
        r = Returned tt
        ∧ outline (pdf st') = outline (pdf st)
        ∧ console st' = console st ∧ world st' = world st)
     st.
Proof. unfold drawTextLine. wp_steps; outline_simpl; done. Qed.

Lemma drawInsightLine_outline line st :
  wp (drawInsightLine line)
     (λ r st',
        r = Returned tt
        ∧ outline (pdf st') = outline (pdf st)
        ∧ console st' = console st ∧ world st' = world st)
     st.
Proof.
  unfold drawInsightLine.
  wp_step. wp_step. wp_step.
  all: destruct (JsString.isEmpty _); [wp_steps; outline_simpl; done|].
  all: destruct (isSectionHeader _); [wp_steps; outline_simpl; done|].
  all: wp_steps.
  all: eapply wp_weaken;
    [apply (wp_forOf (λ _ st', outline (pdf st') = outline (pdf st)
                               ∧ console st' = console st ∧ world st' = world st))|].
  all: try (outline_simpl; done).
  all: try (intros textLine rest st1 (Ho & Hlog & Hw);
            eapply wp_weaken; [apply drawTextLine_outline|];
            intros r st2 (-> & Ho2 & Hlog2 & Hw2);
            by rewrite Ho2, Hlog2, Hw2).
  all: intros r st1 (-> & Ho & Hlog & Hw); wp_steps; outline_simpl; done.
Qed.

Lemma drawInsights_outline insights st :
  wp (drawInsights insights)
     (λ r st',
        r = Returned tt
        ∧ outline (pdf st') = outline (pdf st)
        ∧ console st' = console st ∧ world st' = world st)
     st.
Proof.
  unfold drawInsights.
  eapply wp_weaken;
    [apply (wp_forOf (λ _ st', outline (pdf st') = outline (pdf st)
                               ∧ console st' = console st ∧ world st' = world st))|].
  - done.
  - intros line rest st1 (Ho & Hlog & Hw).
    eapply wp_weaken; [apply drawInsightLine_outline|].
    intros r st2 (-> & Ho2 & Hlog2 & Hw2). by rewrite Ho2, Hlog2, Hw2.
  - by intros r st1 (-> & Ho & Hlog & Hw).
Qed.

Lemma renderChart_outline props tabName chartParent chart st :
  wp (renderChart props tabName chartParent chart (chartTitleOf chartParent))
     (λ r st',
        r = match drawn (rendering chart) with
            | inl e => Thrown e
            | inr _ => Returned tt
            end
        ∧ outline (pdf st') = outline (pdf st) ++ figureOf (chartParent, chart)
        ∧ console st'
          = console st
            ++ match drawn (rendering chart) with
               | inl _ => []
               | inr _ =>
                   PanelSpec.insightsLog props (service chart) (chartTitleOf chartParent)
                     tabName
               end
        ∧ world st' = world st)
     st.
Proof.
  unfold renderChart, figureOf, drawn, captured. cbn [snd]. wp_step.
  destruct (captureChart_frame chartParent chart st) as (shown & Hcapture).
  eapply wp_run; [exact Hcapture|].
  destruct (rendering chart) as [e|canvas]; [by rewrite !app_nil_r|].
  wp_steps. destruct (dataURL canvas) as [e|data]; [by rewrite !app_nil_r|].
  destruct (Pdf.imageError data "PNG") as [e|] eqn:Hdec.
  { wp_steps; outline_simpl; by rewrite ?app_nil_r. }
  wp_steps.
  all: eapply wp_run; [apply generateAIInsights_spec|]; wp_steps.
  all: eapply wp_weaken; [apply drawInsights_outline|].
  all: intros r st1 (-> & Ho & Hlog & Hw); wp_steps.
  all: outline_simpl; rewrite Ho, Hlog, Hw; outline_simpl; done.
Qed.

Lemma processChart_outline props tabName chart st :
  wp (processChart props tabName chart)
     (λ r st',
        r = Returned tt
        ∧ (∀ rest,
             outline (pdf st')
             ++ flat_map figureOf (PanelSpec.sectionsOf (processedCharts st') rest)
             = outline (pdf st)
               ++ flat_map figureOf
                    (PanelSpec.sectionsOf (processedCharts st) (chart :: rest)))
        ∧ (∀ rest,
             console st'
             ++ flat_map (PanelSpec.chartLog props tabName)
                  (PanelSpec.sectionsOf (processedCharts st') rest)
             = console st
               ++ flat_map (PanelSpec.chartLog props tabName)
                    (PanelSpec.sectionsOf (processedCharts st) (chart :: rest)))
        ∧ alerts st' = alerts st ∧ downloads st' = downloads st
        ∧ isExporting st' = isExporting st ∧ showDropdown st' = showDropdown st)
     st.
Proof.
  unfold processChart. cbn [PanelSpec.sectionsOf].
  destruct (closest chart) as [chartParent|]; [|by wp_steps].
  wp_step. wp_step. destruct (decide _) as [Hseen|Hnew]; [by wp_steps|].
  destruct (hasKPIClass chartParent); [by wp_steps|].
  wp_steps.
  all: eapply wp_weaken; [apply renderChart_outline|].
  all: intros r st1 (-> & Ho & Hlog & Hw); cbn [flat_map PanelSpec.chartLog] in *.
  all: destruct (drawn (rendering chart)) as [e|[canvas data]] eqn:Hcaptured.
  all: wp_steps; unfold world in Hw; machine_simpl.
  all: injection Hw as Ha Hexp Hshow Hcount Hproc Hdl.
  all: rewrite ?Ho, ?Hlog, Hproc; outline_simpl.
  all: repeat split; try done; intros rest; rewrite <- ?app_assoc; done.
Qed.

Lemma processCharts_outline props tabName charts st :
  wp (Js.forOf charts (processChart props tabName))
     (λ r st',
        r = Returned tt
        ∧ outline (pdf st')
          = outline (pdf st)
            ++ flat_map figureOf (PanelSpec.sectionsOf (processedCharts st) charts)
        ∧ console st'
          = console st
            ++ flat_map (PanelSpec.chartLog props tabName)
                 (PanelSpec.sectionsOf (processedCharts st) charts)
        ∧ alerts st' = alerts st ∧ downloads st' = downloads st
        ∧ isExporting st' = isExporting st ∧ showDropdown st' = showDropdown st)
     st.
Proof.
  revert st. induction charts as [|chart rest IH]; intros st; cbn [Js.forOf].
  - apply wp_ret. simpl. by rewrite !app_nil_r.
  - apply wp_bind. eapply wp_weaken; [apply processChart_outline|].
    intros r st1 (-> & Ho & Hlog & Ha & Hd & He & Hs).
    eapply wp_weaken; [apply IH|].
    intros r st2 (-> & Ho2 & Hlog2 & Ha2 & Hd2 & He2 & Hs2).
    rewrite Ho2, Hlog2, Ho, Hlog, Ha2, Hd2, He2, Hs2. done.
Qed.

Lemma processTab_outline props tabButton st :
  wp (processTab props tabButton)
     (λ r st',
        r = Returned tt
        ∧ outline (pdf st') = outline (pdf st) ++ tabOutline tabButton
        ∧ console st' = console st ++ tabLog props tabButton
        ∧ alerts st' = alerts st ∧ downloads st' = downloads st
        ∧ isExporting st' = isExporting st ∧ showDropdown st' = showDropdown st)
     st.
Proof.
  unfold processTab, tabOutline, tabLog, sectionsOfTab.
  wp_steps. destruct (find isDisplayed (view tabButton)) as [activeContainer|].
  - wp_steps. eapply wp_weaken; [apply processCharts_outline|].
    intros r st1 (-> & Ho & Hlog & Ha & Hd & He & Hs). machine_simpl.
    rewrite Ho, Hlog, Ha, Hd, He, Hs. outline_simpl. by rewrite <- app_assoc.
  - wp_steps. outline_simpl. by rewrite ?app_nil_r.
Qed.

Lemma processTabs_outline props tabButtons st :
  wp (Js.forOf tabButtons (processTab props))
     (λ r st',
        r = Returned tt
        ∧ outline (pdf st') = outline (pdf st) ++ flat_map tabOutline tabButtons
        ∧ console st' = console st ++ flat_map (tabLog props) tabButtons
        ∧ alerts st' = alerts st ∧ downloads st' = downloads st
        ∧ isExporting st' = isExporting st ∧ showDropdown st' = showDropdown st)
     st.
Proof.
  revert st. induction tabButtons as [|tabButton rest IH]; intros st; cbn [Js.forOf flat_map].
  - apply wp_ret. by rewrite !app_nil_r.
  - apply wp_bind. eapply wp_weaken; [apply processTab_outline|].
    intros r st1 (-> & Ho & Hlog & Ha & Hd & He & Hs).
    eapply wp_weaken; [apply IH|].
    intros r st2 (-> & Ho2 & Hlog2 & Ha2 & Hd2 & He2 & Hs2).
    rewrite Ho2, Hlog2, Ho, Hlog, Ha2, Hd2, He2, Hs2, <- !app_assoc. done.
Qed.

Lemma drawCover_outline props host st :
  pdf st = Pdf.blank →
  wp (drawCover props host)
     (λ r st',
        r = Returned tt
        ∧ outline (pdf st') = coverOutline props host
        ∧ console st' = console st ∧ world st' = world st)
     st.
Proof.
  intros Hblank. unfold drawCover, coverOutline.
  wp_steps; rewrite Hblank; outline_simpl;
    match goal with Hb : _ && _ = _ |- _ => rewrite Hb end; done.
Qed.

Lemma exportWholeDashboard_spec props host tabButtons st :
  wp (exportWholeDashboard props host tabButtons)
     (λ r st',
        r = Returned tt
        ∧ isExporting st' = false ∧ showDropdown st' = false
        ∧ outline (pdf st') = coverOutline props host ++ flat_map tabOutline tabButtons
        ∧ console st'
          = console st ++ flat_map (tabLog props) tabButtons
            ++ match saveError host with
               | Some e => [ConsoleError "Export failed:" (Some e)]
               | None => []
               end
        ∧ match saveError host with
          | None =>
              downloads st' = downloads st ++ [(dashboardName host, pdf st')]
              ∧ alerts st' = alerts st
          | Some e =>
              downloads st' = downloads st
              ∧ alerts st'
                = alerts st ++ ["Failed to export complete report. Please try again."]
          end)
     st.
Proof.
  unfold exportWholeDashboard. wp_steps.
  eapply wp_weaken; [by apply drawCover_outline|].
  intros r st1 (-> & Ho & Hlog & Hw). wp_steps.
  eapply wp_weaken; [apply processTabs_outline|].
  intros r st2 (-> & Ho2 & Hlog2 & Ha2 & Hd2 & He2 & Hs2).
  unfold world in Hw. machine_simpl. injection Hw as Ha1 He1 Hs1 Hn1 Hp1 Hd1.
  rewrite Ho in Ho2. rewrite Hlog in Hlog2. rewrite Ha1 in Ha2. rewrite Hd1 in Hd2.
  wp_steps. destruct (saveError host) as [e|]; wp_steps.
  all: rewrite Ho2, Hlog2, Ha2, Hd2, <- ?app_assoc, ?app_nil_r; done.
Qed.

End DashboardProofs.

(** *** Where the blocks of the dashboard report land *)

Ltac sheet_bounds :=
  repeat match goal with
         | Hg : JsNumber.gt _ _ = false |- _ => apply gt_false in Hg
         | Hg : JsNumber.gt _ _ = true |- _ => apply gt_true in Hg
         end;
  machine_simpl; pdf_simpl;
  repeat match goal with
         | |- _ ∧ _ => split
         | |- Forall _ (_ ++ _) => apply Forall_app
         | |- Forall _ [_] => apply Forall_singleton
         | |- Forall _ [] => constructor
         | |- Dashboard.withinSheet _ _ => unfold Dashboard.withinSheet; cbn [fst snd]
         | |- Pdf.AlignLeft = Pdf.AlignLeft → _ => intros _
         | |- Pdf.AlignCenter = Pdf.AlignLeft → _ => intros [=]
         | |- Qeq_bool _ _ = true → _ => intros ?
         end;
  try done;
  try match goal with Hs : Qeq_bool _ _ = true |- _ => by vm_compute in Hs end;
  try match goal with
      | Hs : Qeq_bool _ _ = true, Hf : Pdf.fontSize _ = _ |- _ =>
          rewrite Hf in Hs; by vm_compute in Hs
      end;
  try lra.

Section DashboardSheets.
Context `{Pdf.JsPDF}.
Import ExportReport Dashboard.
Hypothesis tall : 170 <= Pdf.pageHeight.

Lemma drawTextLine_sheets textLine st :
  sheets Pdf.pageHeight st → Pdf.fontSize (Pdf.font (pdf st)) = eight_and_a_half →
  wp (drawTextLine textLine)
     (λ r st', r = Returned tt ∧ sheets Pdf.pageHeight st'
               ∧ Pdf.fontSize (Pdf.font (pdf st')) = eight_and_a_half
               ∧ yPosition st' <= Pdf.pageHeight - 11)
     st.
Proof.
  intros Hinv Hfont. unfold drawTextLine, sheets in *.
  wp_steps; sheet_bounds.
Qed.

Lemma drawInsightLine_sheets line st :
  sheets Pdf.pageHeight st →
  wp (drawInsightLine line)
     (λ r st', r = Returned tt ∧ sheets Pdf.pageHeight st'
               ∧ yPosition st' <= Pdf.pageHeight - 9)
     st.
Proof.
  intros Hinv. unfold drawInsightLine, sheets in *.
  wp_step. wp_step. wp_step.
  all: destruct (JsString.isEmpty _); [wp_steps; sheet_bounds|].
  all: destruct (isSectionHeader _); [wp_steps; sheet_bounds|].
  all: wp_steps.
  all: eapply wp_weaken;
    [apply (wp_forOf (λ _ st', sheets Pdf.pageHeight st'
                               ∧ Pdf.fontSize (Pdf.font (pdf st')) = eight_and_a_half
                               ∧ yPosition st' <= Pdf.pageHeight - 11))|].
  all: try (unfold sheets; sheet_bounds).
  all: try (intros textLine rest st1 (Hinv1 & Hfont1 & Hy1);
            eapply wp_weaken; [by apply drawTextLine_sheets|];
            by intros r st2 (-> & Hinv2 & Hfont2 & Hy2)).
  all: intros r st1 (-> & Hinv1 & Hfont1 & Hy1); wp_steps; unfold sheets in *; sheet_bounds.
Qed.

Lemma drawInsights_sheets insights st :
  sheets Pdf.pageHeight st → yPosition st <= Pdf.pageHeight - 9 →
  wp (drawInsights insights)
     (λ r st', r = Returned tt ∧ sheets Pdf.pageHeight st'
               ∧ yPosition st' <= Pdf.pageHeight - 9)
     st.
Proof.
  intros Hinv Hy. unfold drawInsights.
  apply (wp_forOf (λ _ st', sheets Pdf.pageHeight st'
                            ∧ yPosition st' <= Pdf.pageHeight - 9)); [done|].
  intros line rest st1 [Hinv1 Hy1]. by apply drawInsightLine_sheets.
Qed.

Lemma renderChart_sheets props tabName chartParent chart chartTitle st :
  sheets Pdf.pageHeight st →
  wp (renderChart props tabName chartParent chart chartTitle)
     (λ r st', sheets Pdf.pageHeight st') st.
Proof.
  intros Hinv. unfold renderChart. wp_step.
  destruct (captureChart_frame chartParent chart st) as (shown & Hcapture).
  eapply wp_run; [exact Hcapture|].
  destruct (rendering chart) as [e|canvas]; [done|].
  wp_steps. destruct (dataURL canvas) as [e|data]; [done|].
  pose proof (min_limit (Js.scaledHeight canvas (Pdf.pageWidth - 30)) 100) as Hmin.
  destruct (Pdf.imageError data "PNG") as [e|] eqn:Hdec.
  { wp_steps; unfold sheets in *; sheet_bounds. }
  wp_steps.
  all: eapply wp_run; [apply generateAIInsights_spec|]; wp_steps.
  all: eapply wp_weaken; [apply drawInsights_sheets; unfold sheets in *; sheet_bounds|].
  all: intros r st1 (-> & Hinv1 & Hy1); wp_steps; unfold sheets in *; sheet_bounds.
Qed.

Lemma processChart_sheets props tabName chart st :
  sheets Pdf.pageHeight st →
  wp (processChart props tabName chart)
     (λ r st', r = Returned tt ∧ sheets Pdf.pageHeight st') st.
Proof.
  intros Hinv. unfold processChart.
  destruct (closest chart) as [chartParent|]; [|by wp_steps].
  wp_step. wp_step. destruct (decide _); [by wp_steps|].
  destruct (hasKPIClass chartParent); [by wp_steps|].
  wp_steps.
  all: eapply wp_weaken; [apply renderChart_sheets; unfold sheets in *; sheet_bounds|].
  all: intros [[]|e] st1 Hinv1; wp_steps; done.
Qed.

Lemma processTab_sheets props tabButton st :
  sheets Pdf.pageHeight st →
  wp (processTab props tabButton) (λ r st', r = Returned tt ∧ sheets Pdf.pageHeight st') st.
Proof.
  intros Hinv. unfold processTab. wp_steps.
  assert (sheets Pdf.pageHeight
            (Js.withYPosition (λ y, y + 15)
               (Js.withPdf
                  (Pdf.text (tabNameOf tabButton) (Pdf.pageWidth / 2) 20 Pdf.AlignCenter)
                  (Js.withPdf (Pdf.setTextColor 20 184 166)
                     (Js.withPdf (Pdf.setFontSize 18)
                        (Js.withYPosition (λ _, 20) (Js.withPdf Pdf.addPage st)))))))
    as Htitle by (unfold sheets in *; sheet_bounds).
  destruct (find isDisplayed (view tabButton)) as [activeContainer|]; wp_steps; [|done].
  eapply wp_weaken; [apply (wp_forOf (λ _ st', sheets Pdf.pageHeight st'))|].
  - unfold sheets in *. by machine_simpl.
  - intros chart rest st1 Hinv1. by apply processChart_sheets.
  - by intros r st1 [-> Hinv1].
Qed.

Lemma exportWholeDashboard_sheets props host tabButtons st :
  wp (exportWholeDashboard props host tabButtons) (λ r st', sheets Pdf.pageHeight st') st.
Proof.
  unfold exportWholeDashboard, drawCover.
  wp_step. wp_step. wp_step. wp_step. wp_steps.
  all: eapply wp_weaken;
    [apply (wp_forOf (λ _ st', sheets Pdf.pageHeight st'));
       [unfold sheets; sheet_bounds
       |intros tabButton rest st1 Hinv1; by apply processTab_sheets]|].
  all: try (change (Pdf.pageHeight / 2) with (Pdf.pageHeight * (1 # 2)); lra).
  all: intros r st2 (-> & Hinv2); wp_steps.
  all: destruct (saveError host); wp_steps; unfold sheets in *; by machine_simpl.
Qed.

End DashboardSheets.

(** *** The pages of the dashboard report *)

Lemma lastPage_snoc page placed block :
  Dashboard.lastPage page (placed ++ [block])
  = Nat.max (Dashboard.lastPage page placed) block.1.
Proof. unfold Dashboard.lastPage. by rewrite foldl_app. Qed.

Lemma opensPages_snoc page placed block :
  Dashboard.opensPages page placed →
  match block.2 with
  | Pdf.Text _ _ y Pdf.AlignCenter _ _ =>
      (Dashboard.lastPage page placed < block.1)%nat ∧ y = 20
  | _ => True
  end →
  Dashboard.opensPages page (placed ++ [block]).
Proof.
  revert page. induction placed as [|first rest IH]; intros page; simpl.
  - intros _ Hblock. split; [|done]. exact Hblock.
  - intros [Hfirst Hrest] Hblock. split; [done|]. by apply IH.
Qed.

Lemma pagedFrom_plain cover pages placed op :
  Dashboard.pagedFrom cover pages placed → Dashboard.plainOp op →
  Dashboard.pagedFrom cover pages (placed ++ [(pages, op)]).
Proof.
  intros (body & -> & Hopens & Hlast) Hplain. exists (body ++ [(pages, op)]).
  split; [by rewrite app_assoc|]. split.
  - apply opensPages_snoc; [done|]. by destruct op as [? ? ? []| | |].
  - rewrite lastPage_snoc. simpl. lia.
Qed.

Lemma pagedFrom_turn cover pages placed :
  Dashboard.pagedFrom cover pages placed → Dashboard.pagedFrom cover (S pages) placed.
Proof. intros (body & -> & Hopens & Hlast). exists body. repeat split; [done|lia]. Qed.

Lemma pagedFrom_title cover pages placed txt x font color :
  Dashboard.pagedFrom cover pages placed →
  Dashboard.pagedFrom cover (S pages)
    (placed ++ [(S pages, Pdf.Text txt x 20 Pdf.AlignCenter font color)]).
Proof.
  intros (body & -> & Hopens & Hlast). eexists. split; [by rewrite <- app_assoc|]. split.
  - apply opensPages_snoc; [done|]. simpl. split; [lia|done].
  - rewrite lastPage_snoc. simpl. lia.
Qed.

Ltac pages :=
  machine_simpl; pdf_simpl;
  repeat match goal with
         | |- _ ∧ _ => split
         | |- Dashboard.pagedFrom _ _ (_ ++ [(_, Pdf.Text _ _ _ Pdf.AlignCenter _ _)]) =>
             apply pagedFrom_title
         | |- Dashboard.pagedFrom _ _ (_ ++ [_]) => apply pagedFrom_plain; [|exact I]
         | |- Dashboard.pagedFrom _ (S _) _ => apply pagedFrom_turn
         end;
  try done; try lia.

Section DashboardPages.
Context `{Pdf.JsPDF}.
Import ExportReport Dashboard.
Variable cover : list (nat * Pdf.Op).

Lemma grown_trans st1 st2 st3 :
  (Pdf.pageCount (pdf st1) ≤ Pdf.pageCount (pdf st2))%nat →
  grown cover st2 st3 → grown cover st1 st3.
Proof. intros Hle [Hpaged Hle']. split; [done|lia]. Qed.

Lemma drawTextLine_pages textLine st :
  paged cover st →
  wp (drawTextLine textLine) (λ r st', r = Returned tt ∧ grown cover st st') st.
Proof. intros Hinv. unfold drawTextLine, grown, paged in *. wp_steps; pages. Qed.

Lemma drawInsightLine_pages line st :
  paged cover st →
  wp (drawInsightLine line) (λ r st', r = Returned tt ∧ grown cover st st') st.
Proof.
  intros Hinv. unfold drawInsightLine.
  wp_step. wp_step. wp_step.
  all: destruct (JsString.isEmpty _); [unfold grown, paged in *; wp_steps; pages|].
  all: destruct (isSectionHeader _); [unfold grown, paged in *; wp_steps; pages|].
  all: wp_steps.
  all: eapply wp_weaken; [apply (wp_forOf (λ _ st', grown cover st st'))|].
  all: try (unfold grown, paged in *; pages).
  all: try (intros textLine rest st1 [Hinv1 Hle1];
            eapply wp_weaken; [by apply drawTextLine_pages|];
            intros r st2 [-> Hgrown]; split; [done|];
            by apply (grown_trans _ st1)).
  all: intros r st1 (-> & Hinv1 & Hle1); wp_steps; unfold grown, paged in *; pages.
Qed.

Lemma drawInsights_pages insights st :
  paged cover st →
  wp (drawInsights insights) (λ r st', r = Returned tt ∧ grown cover st st') st.
Proof.
  intros Hinv. unfold drawInsights.
  apply (wp_forOf (λ _ st', grown cover st st')); [by split|].
  intros line rest st1 [Hinv1 Hle1].
  eapply wp_weaken; [by apply drawInsightLine_pages|].
  intros r st2 [-> Hgrown]. split; [done|]. by apply (grown_trans _ st1).
Qed.

Lemma renderChart_pages props tabName chartParent chart chartTitle st :
  paged cover st →
  wp (renderChart props tabName chartParent chart chartTitle) (λ r st', grown cover st st') st.
Proof.
  intros Hinv. unfold renderChart. wp_step.
  destruct (captureChart_frame chartParent chart st) as (shown & Hcapture).
  eapply wp_run; [exact Hcapture|].
  destruct (rendering chart) as [e|canvas]; [by split|].
  wp_steps. destruct (dataURL canvas) as [e|data]; [by split|].
  destruct (Pdf.imageError data "PNG") as [e|] eqn:Hdec.
  { wp_steps; unfold grown, paged in *; pages. }
  wp_steps.
  all: eapply wp_run; [apply generateAIInsights_spec|]; wp_steps.
  all: eapply wp_weaken; [apply drawInsights_pages; unfold paged in *; pages|].
  all: intros r st1 (-> & Hinv1 & Hle1); wp_steps; unfold grown, paged in *; pages.
Qed.

Lemma processChart_pages props tabName chart st :
  paged cover st →
  wp (processChart props tabName chart) (λ r st', r = Returned tt ∧ grown cover st st') st.
Proof.
  intros Hinv. unfold processChart.
  destruct (closest chart) as [chartParent|]; [|by wp_steps].
  wp_step. wp_step. destruct (decide _); [by wp_steps|].
  destruct (hasKPIClass chartParent); [by wp_steps|].
  wp_steps.
  all: eapply wp_weaken; [apply renderChart_pages; unfold paged in *; pages|].
  all: intros [[]|e] st1 [Hinv1 Hle1]; wp_steps; unfold grown, paged in *; pages.
Qed.

Lemma processTab_pages props tabButton st :
  paged cover st →
  wp (processTab props tabButton)
     (λ r st', r = Returned tt ∧ paged cover st'
               ∧ (Pdf.pageCount (pdf st) < Pdf.pageCount (pdf st'))%nat)
     st.
Proof.
  intros Hinv. unfold processTab. wp_steps.
  match goal with |- context [wp _ _ ?s] => set (st0 := s) end.
  assert (paged cover st0 ∧ (Pdf.pageCount (pdf st) < Pdf.pageCount (pdf st0))%nat)
    as [Hinv0 Hlt] by (subst st0; unfold paged in *; pages).
  clearbody st0.
  destruct (find isDisplayed (view tabButton)) as [activeContainer|]; wp_steps; [|done].
  eapply wp_weaken; [apply (wp_forOf (λ _ st', grown cover st0 st'))|].
  - unfold grown, paged in *. by machine_simpl.
  - intros chart rest st1 [Hinv1 Hle1].
    eapply wp_weaken; [by apply processChart_pages|].
    intros r st2 [-> Hgrown]. split; [done|].
    eapply grown_trans; [|exact Hgrown]. exact Hle1.
  - intros r st1 (-> & Hinv1 & Hle1). unfold paged in *. machine_simpl.
    repeat split; [done|lia].
Qed.

Lemma processTabs_pages props tabButtons st :
  paged cover st →
  wp (Js.forOf tabButtons (processTab props))
     (λ r st', r = Returned tt ∧ paged cover st'
               ∧ (Pdf.pageCount (pdf st) + length tabButtons
                  ≤ Pdf.pageCount (pdf st'))%nat)
     st.
Proof.
  intros Hinv.
  eapply wp_weaken;
    [apply (wp_forOf (λ rest st', paged cover st'
                                  ∧ (Pdf.pageCount (pdf st) + length tabButtons
                                     ≤ Pdf.pageCount (pdf st') + length rest)%nat))|].
  - by split.
  - intros tabButton rest st1 [Hinv1 Hcount].
    eapply wp_weaken; [by apply processTab_pages|].
    intros r st2 (-> & Hinv2 & Hlt). repeat split; [done|]. simpl in Hcount. lia.
  - intros r st1 (-> & Hinv1 & Hcount). simpl in Hcount. repeat split; [done|lia].
Qed.

End DashboardPages.

Section DashboardReport.
Context `{Pdf.JsPDF}.
Import ExportReport Dashboard.

Lemma exportWholeDashboard_pages props host tabButtons st :
  wp (exportWholeDashboard props host tabButtons)
     (λ r st',
        ∃ cover body,
          Pdf.ops (pdf st') = cover ++ body
          ∧ Forall (λ block, block.1 = 1%nat) cover
          ∧ omap featureOf (map blockOf cover) = coverOutline props host
          ∧ opensPages 1 body
          ∧ (1 + length tabButtons ≤ Pdf.pageCount (pdf st'))%nat)
     st.
Proof.
  unfold exportWholeDashboard, drawCover.
  wp_step. wp_step. wp_step. wp_step. wp_steps.
  all: match goal with |- wp _ _ ?s => set (st1 := s) end.
  all: eapply wp_weaken;
    [apply (processTabs_pages (Pdf.ops (pdf st1)));
     exists []; rewrite app_nil_r; repeat split; subst st1; simpl; lia|].
  all: intros r st2 (-> & (body & Hops & Hopens & Hlast) & Hcount).
  all: assert (Forall (λ block, block.1 = 1%nat) (Pdf.ops (pdf st1))
               ∧ omap featureOf (map blockOf (Pdf.ops (pdf st1))) = coverOutline props host
               ∧ Pdf.pageCount (pdf st1) = 1%nat) as (Hfirst & Hcover & Hone)
         by (subst st1; unfold coverOutline; machine_simpl; pdf_simpl;
             match goal with Hb : _ && _ = _ |- _ => rewrite Hb end;
             repeat split; by repeat constructor).
  all: clearbody st1; wp_steps; destruct (saveError host); wp_steps.
  all: exists (Pdf.ops (pdf st1)), body; repeat split; try done; lia.
Qed.

End DashboardReport.

(** A tab whose only chart is read back as a file jsPDF cannot decode:
    the tab has its title and no picture, and the error of [addImage] is
    in the console. *)
Lemma dashboard_without_the_undecodable_picture :
  ∃ st',
    @Dashboard.exportWholeDashboard a4 Sample.noDates noon
      [ {| Dashboard.textContent := Some "Risk";
           Dashboard.view := ExportReport.containers (Sample.panel [Sample.garbled]) |} ]
      idle = (Returned tt, st')
    ∧ Dashboard.outline (pdf st')
      = [ Dashboard.Title "AI Regulation Analytics" 24;
          Dashboard.Title "Comprehensive Dashboard Report" 18;
          Dashboard.Title "Generated: 1/1/2025, 12:00:00 PM" 12;
          Dashboard.Title "Risk" 18 ]
    ∧ console st'
      = [ConsoleError "Failed to capture chart:" (Some "Incomplete or corrupt PNG file")].
Proof. eexists. vm_compute. done. Qed.

(** X11. The report of [exportWholeDashboard] shows, of centred titles
    and pictures, the titles of the cover and then, for every tab in the
    order of the buttons, the name of the tab in 18pt followed by one
    picture for each card of its first displayed container whose bitmap
    was captured, read back and decoded by jsPDF (a card once, cards with
    a KPI grid left out), page-wide less 30mm and at most 100mm high. A
    tab that shows no container, or whose charts all fail, still gets its
    title. *)
Theorem dashboard_report_outline (lib : Pdf.JsPDF) props host tabButtons st :
  ∃ st',
    Dashboard.exportWholeDashboard props host tabButtons st = (Returned tt, st')
    ∧ Dashboard.outline (pdf st')
      = Dashboard.coverOutline props host ++ flat_map Dashboard.tabOutline tabButtons.
Proof.
  destruct (wp_elim _ _ _ (exportWholeDashboard_spec props host tabButtons st))
    as (r & st' & Hrun & -> & _ & _ & Houtline & _).
  by exists st'.
Qed.

(** X12. [exportWholeDashboard] always returns and leaves the component
    idle: [isExporting] and [showDropdown] are false. When the file can
    be saved, exactly one file is handed over, the document that was
    composed, under the name AI_Regulation_Complete_Report_<date>.pdf,
    and no message is shown; when saving throws, no file is handed over,
    the error is the last entry of the console and the user is told once
    that the export failed. *)
Theorem dashboard_export_ends_idle (lib : Pdf.JsPDF) props host tabButtons st :
  ∃ st',
    Dashboard.exportWholeDashboard props host tabButtons st = (Returned tt, st')
    ∧ isExporting st' = false ∧ showDropdown st' = false
    ∧ match saveError host with
      | None =>
          downloads st'
          = downloads st
            ++ [("AI_Regulation_Complete_Report_" +:+ Js.isoDate host +:+ ".pdf", pdf st')]
          ∧ alerts st' = alerts st
      | Some e =>
          downloads st' = downloads st
          ∧ alerts st' = alerts st ++ ["Failed to export complete report. Please try again."]
          ∧ last (console st') = Some (ConsoleError "Export failed:" (Some e))
      end.
Proof.
  destruct (wp_elim _ _ _ (exportWholeDashboard_spec props host tabButtons st))
    as (r & st' & Hrun & -> & Hidle & Hclosed & _ & Hlog & Hsave).
  exists st'. repeat split; try done.
  destruct (saveError host) as [e|]; [|done].
  destruct Hsave as [Hfiles Halerts]. repeat split; try done.
  by rewrite Hlog, !app_assoc, last_snoc.
Qed.

(** X13. In the report of [exportWholeDashboard] the blocks of the cover
    are on the first page; after them the only centred texts are the
    names of the tabs (and the only pictures those of the sections whose
    bitmap jsPDF could decode), and each name is drawn at the head of a
    page (at 20mm) on which nothing was drawn before, later than every
    page used so far: every tab starts a page of its own, and the
    document has at least one page more than there are tabs. *)
Theorem every_tab_opens_a_page (lib : Pdf.JsPDF) props host tabButtons st :
  ∃ st' cover body,
    Dashboard.exportWholeDashboard props host tabButtons st = (Returned tt, st')
    ∧ Pdf.ops (pdf st') = cover ++ body
    ∧ Forall (λ block, block.1 = 1%nat) cover
    ∧ omap Dashboard.featureOf (map blockOf cover) = Dashboard.coverOutline props host
    ∧ omap Dashboard.featureOf (map blockOf body)
      = flat_map Dashboard.tabOutline tabButtons
    ∧ Dashboard.opensPages 1 body
    ∧ (1 + length tabButtons ≤ Pdf.pageCount (pdf st'))%nat.
Proof.
  destruct (wp_elim _ _ _ (exportWholeDashboard_spec props host tabButtons st))
    as (r & st' & Hrun & -> & _ & _ & Houtline & _).
  pose proof (exportWholeDashboard_pages props host tabButtons st) as Hpages.
  unfold wp in Hpages. rewrite Hrun in Hpages. cbn [fst snd] in Hpages.
  destruct Hpages as (cover & body & Hops & Hfirst & Hcover & Hopens & Hcount).
  exists st', cover, body. repeat split; try done.
  unfold Dashboard.outline, contents in Houtline.
  rewrite Hops, map_app, omap_app, Hcover in Houtline.
  by apply app_inv_head in Houtline.
Qed.

(** X14. On a page at least 170mm high no block of the report of
    [exportWholeDashboard] runs over the foot of its page: every text has
    its baseline at most at H - 15, every chart heading (12pt, flush
    left) at most at H - 100, every picture ends at most at H - 50, the
    grey band at most at H - 40 and the separator line lies at most at
    H - 7. *)
Theorem dashboard_blocks_stay_within_their_page (lib : Pdf.JsPDF)
    props host tabButtons st :
  170 <= Pdf.pageHeight →
  ∃ st',
    Dashboard.exportWholeDashboard props host tabButtons st = (Returned tt, st')
    ∧ Forall (Dashboard.withinSheet Pdf.pageHeight) (Pdf.ops (pdf st')).
Proof.
  intros Htall.
  destruct (wp_elim _ _ _ (exportWholeDashboard_spec props host tabButtons st))
    as (r & st' & Hrun & -> & _).
  exists st'. split; [done|].
  pose proof (exportWholeDashboard_sheets Htall props host tabButtons st) as Hsheets.
  unfold wp in Hsheets. by rewrite Hrun in Hsheets.
Qed.

Lemma dashboard_blocks_witness :
  170 <= @Pdf.pageHeight a4
  ∧ ∃ st',
      @Dashboard.exportWholeDashboard a4 Sample.year2024 noon twoTabs idle
      = (Returned tt, st')
      ∧ Forall (Dashboard.withinSheet (@Pdf.pageHeight a4)) (Pdf.ops (pdf st')).
Proof.
  assert (170 <= @Pdf.pageHeight a4) as Htall by (unfold Qle; simpl; lia).
  split; [exact Htall|].
  exact (dashboard_blocks_stay_within_their_page a4 Sample.year2024 noon twoTabs idle Htall).
Defined.

(** X15. [exportWholeDashboard] keeps what the console held and appends,
    in the order of the tabs and of their sections, one entry per
    section whose capture threw (the error of [html2canvas], of
    [toDataURL] or of [addImage]; its insights are not requested then) or
    whose request for insights failed (the error of the request), and
    last the error of [pdf.save] when saving threw; a section whose
    picture is drawn and whose insights arrive logs nothing. *)
Theorem dashboard_console_lists_the_failures (lib : Pdf.JsPDF) props host tabButtons st :
  ∃ st',
    Dashboard.exportWholeDashboard props host tabButtons st = (Returned tt, st')
    ∧ console st'
      = console st
        ++ flat_map
             (λ tabButton,
                flat_map
                  (λ section : ExportReport.Card * ExportReport.Chart,
                     match drawn (ExportReport.rendering section.2) with
                     | inl e => [ConsoleError "Failed to capture chart:" (Some e)]
                     | inr _ =>
                         match
                           ExportReport.service section.2
                             (PanelSpec.requestFor props
                                (ExportReport.chartTitleOf section.1)
                                (Dashboard.tabNameOf tabButton))
                         with
                         | inl e => [ConsoleError "Failed to generate insights:" (Some e)]
                         | inr _ => []
                         end
                     end)
                  (Dashboard.sectionsOfTab tabButton))
             tabButtons
        ++ match saveError host with
           | Some e => [ConsoleError "Export failed:" (Some e)]
           | None => []
           end.
Proof.
  destruct (wp_elim _ _ _ (exportWholeDashboard_spec props host tabButtons st))
    as (r & st' & Hrun & -> & _ & _ & _ & Hlog & _).
  exists st'. split; [done|]. rewrite Hlog. do 2 f_equal.
  apply flat_map_ext. intros tabButton. unfold Dashboard.tabLog.
  apply flat_map_ext. by intros [chartParent chart].
Qed.
